(** * OracleMarket: the on-chain settlement core

    A shallow embedding of the three Move modules of the contract
    ([oracle_marketplace], [marketplace_treasury], [oracle_core]) together
    with the part of the Sui framework they call ([tx_context], [object],
    [balance], [coin], [dynamic_field], [transfer], [string], [url]).

    - [u64] values are [N]; every addition, subtraction and multiplication
      is checked and aborts the transaction on overflow, as the Move VM does.
    - A Move function is a computation in the monad [M S A]: it reads and
      writes the objects it holds by [&mut] (the state [S]) and either
      returns or aborts.  The state component of the answer is the state at
      the point of return or of abort, so "the checks come before the
      mutations" is a statement about the function itself; the
      all-or-nothing commit of the ledger is [commit].
    - [transfer::public_transfer] and [transfer::share_object] append to a
      log of effects. *)

From Stdlib Require Import NArith Strings.Byte List Lia.
From stdpp Require Import base numbers option list gmap.
Import ListNotations.

Local Open Scope N_scope.

(* ===================================================================== *)
(** ** Aborts and the transaction monad                                   *)
(* ===================================================================== *)

(** The module an abort is raised in. *)
Inductive module_id : Type :=
  | mod_oracle_marketplace
  | mod_marketplace_treasury
  | mod_oracle_core
  | mod_balance
  | mod_dynamic_field
  | mod_string
  | mod_ascii.

(** [assert!(c, code)] raises [MoveAbort] with the code of the module the
    assertion is written in; an overflowing or underflowing [u64] operation
    raises [ArithmeticError] in the module that performs it. *)
Inductive abort : Type :=
  | MoveAbort (m : module_id) (code : N)
  | ArithmeticError (m : module_id).

#[global] Instance module_id_eq_dec : EqDecision module_id.
Proof. solve_decision. Defined.

#[global] Instance abort_eq_dec : EqDecision abort.
Proof. solve_decision. Defined.

Inductive outcome (A : Type) : Type :=
  | Ok (a : A)
  | Aborted (e : abort).
Arguments Ok {A} a.
Arguments Aborted {A} e.

Definition M (S A : Type) : Type := S -> outcome A * S.

Definition ret {S A} (a : A) : M S A := fun s => (Ok a, s).

Definition bind {S A B} (m : M S A) (k : A -> M S B) : M S B :=
  fun s =>
    match m s with
    | (Ok a, s') => k a s'
    | (Aborted e, s') => (Aborted e, s')
    end.

Definition raise {S A} (e : abort) : M S A := fun s => (Aborted e, s).

Definition get {S} : M S S := fun s => (Ok s, s).

Definition gets {S A} (f : S -> A) : M S A := fun s => (Ok (f s), s).

Definition modify {S} (f : S -> S) : M S unit := fun s => (Ok tt, f s).

(** [assert!(c, code)] in module [m]. *)
Definition assert_ {S} (m : module_id) (c : bool) (code : N) : M S unit :=
  if c then ret tt else raise (MoveAbort m code).

Declare Scope move_scope.
Delimit Scope move_scope with move.
Notation "x <- c ;; k" := (bind c (fun x => k))
  (at level 100, c at next level, right associativity) : move_scope.
Notation "c ;; k" := (bind c (fun _ => k))
  (at level 100, right associativity) : move_scope.
Local Open Scope move_scope.

(** A function that borrows part of the caller's state. *)
Record lens (S T : Type) : Type := Lens { view : S -> T; update : T -> S -> S }.
Arguments Lens {S T} view update.
Arguments view {S T} l s.
Arguments update {S T} l t s.

Definition fst_ {A B} : lens (A * B) A := Lens fst (fun a s => (a, snd s)).
Definition snd_ {A B} : lens (A * B) B := Lens snd (fun b s => (fst s, b)).
Definition compose {A B C} (l1 : lens A B) (l2 : lens B C) : lens A C :=
  Lens (fun a => view l2 (view l1 a))
       (fun c a => update l1 (update l2 c (view l1 a)) a).

Definition zoom {S T A} (l : lens S T) (m : M T A) : M S A :=
  fun s =>
    let '(r, t') := m (view l s) in
    (r, update l t' s).

(** The ledger commits a transaction that returns and discards one that
    aborts. *)
Definition commit {S A} (m : M S A) (s : S) : S :=
  match m s with
  | (Ok _, s') => s'
  | (Aborted _, _) => s
  end.

Definition succeeds {S A} (m : M S A) (s : S) : bool :=
  match m s with
  | (Ok _, _) => true
  | (Aborted _, _) => false
  end.

(* ===================================================================== *)
(** ** Unsigned 64-bit arithmetic                                         *)
(* ===================================================================== *)

Definition MAX_U64 : N := 18446744073709551615.

Definition u64_add {S} (m : module_id) (a b : N) : M S N :=
  if a + b <=? MAX_U64 then ret (a + b) else raise (ArithmeticError m).

Definition u64_sub {S} (m : module_id) (a b : N) : M S N :=
  if b <=? a then ret (a - b) else raise (ArithmeticError m).

Definition u64_mul {S} (m : module_id) (a b : N) : M S N :=
  if a * b <=? MAX_U64 then ret (a * b) else raise (ArithmeticError m).

(** Division by a non-zero constant never aborts. *)
Definition u64_div (a b : N) : N := a / b.

(* ===================================================================== *)
(** ** The Sui framework                                                  *)
(* ===================================================================== *)

Definition address : Type := N.

(** An object identifier.  A fresh identifier is derived by the host from
    the transaction digest and the number of objects the transaction has
    created so far; the derivation is injective, and the pair stands for
    the derived address. *)
Definition ID : Type := (N * N)%type.
Definition UID : Type := ID.

Module tx_context.
Record TxContext : Type := mkTxContext {
  sender : address;
  tx_hash : N;
  epoch : N;
  epoch_timestamp_ms : N;
  ids_created : N;
}.

Definition fresh_object_address : M TxContext ID :=
  fun ctx =>
    (Ok (tx_hash ctx, ids_created ctx),
     mkTxContext (sender ctx) (tx_hash ctx) (epoch ctx)
                 (epoch_timestamp_ms ctx) (ids_created ctx + 1)).
End tx_context.
Abbreviation TxContext := tx_context.TxContext.

Module object.
Definition new : M TxContext UID := tx_context.fresh_object_address.
End object.

Module clock.
Record Clock : Type := mkClock { timestamp_ms : N }.
End clock.
Abbreviation Clock := clock.Clock.

Module balance.
Record Balance : Type := mkBalance { value : N }.

Definition ENotEnough : N := 2.

Definition zero : Balance := mkBalance 0.

(** [self.value = self.value + value; self.value] *)
Definition join (b : Balance) : M Balance N :=
  self <- get ;;
  v <- u64_add mod_balance (value self) (value b) ;;
  modify (fun _ => mkBalance v) ;;
  ret v.

(** [assert!(self.value >= value, ENotEnough); self.value -= value] *)
Definition split (amount : N) : M Balance Balance :=
  self <- get ;;
  assert_ mod_balance (amount <=? value self) ENotEnough ;;
  v <- u64_sub mod_balance (value self) amount ;;
  modify (fun _ => mkBalance v) ;;
  ret (mkBalance amount).
End balance.
Abbreviation Balance := balance.Balance.

Module coin.
Record Coin : Type := mkCoin { id : UID; balance : Balance }.

Definition value (c : Coin) : N := balance.value (balance c).

Definition into_balance (c : Coin) : Balance := balance c.

(** [Coin { id: object::new(ctx), balance: balance.split(value) }] *)
Definition take (amount : N) : M (Balance * TxContext) Coin :=
  uid <- zoom snd_ object.new ;;
  b <- zoom fst_ (balance.split amount) ;;
  ret (mkCoin uid b).

(** [take(&mut self.balance, split_amount, ctx)] *)
Definition split (split_amount : N) : M (Coin * TxContext) Coin :=
  zoom (Lens (fun s => (balance (fst s), snd s))
             (fun t s => (mkCoin (id (fst s)) (fst t), snd t)))
       (take split_amount).
End coin.
Abbreviation Coin := coin.Coin.

(** [std::string]: a [String] is a byte vector that passed the UTF-8 check. *)
Module string.
Record String : Type := mkString { bytes : list byte }.

Definition EInvalidUTF8 : N := 1.

Definition in_range (lo hi : N) (b : byte) : bool :=
  (lo <=? Byte.to_N b) && (Byte.to_N b <=? hi).

(** The native check of the standard library: the well-formed byte
    sequences of UTF-8 (no overlong forms, no surrogates, nothing above
    U+10FFFF). *)
Fixpoint internal_check_utf8 (l : list byte) : bool :=
  match l with
  | [] => true
  | b0 :: r0 =>
    if in_range 0 127 b0 then internal_check_utf8 r0
    else if in_range 194 223 b0 then
      match r0 with
      | b1 :: r1 => in_range 128 191 b1 && internal_check_utf8 r1
      | _ => false
      end
    else if in_range 224 239 b0 then
      match r0 with
      | b1 :: b2 :: r2 =>
        (if in_range 224 224 b0 then in_range 160 191 b1
         else if in_range 237 237 b0 then in_range 128 159 b1
         else in_range 128 191 b1)
        && in_range 128 191 b2 && internal_check_utf8 r2
      | _ => false
      end
    else if in_range 240 244 b0 then
      match r0 with
      | b1 :: b2 :: b3 :: r3 =>
        (if in_range 240 240 b0 then in_range 144 191 b1
         else if in_range 244 244 b0 then in_range 128 143 b1
         else in_range 128 191 b1)
        && in_range 128 191 b2 && in_range 128 191 b3
        && internal_check_utf8 r3
      | _ => false
      end
    else false
  end.

(** [assert!(internal_check_utf8(&bytes), EInvalidUTF8); String { bytes }] *)
Definition utf8 {S} (bs : list byte) : M S String :=
  assert_ mod_string (internal_check_utf8 bs) EInvalidUTF8 ;;
  ret (mkString bs).
End string.
Abbreviation String := string.String.

(** [std::ascii] and [sui::url]: a [Url] wraps an ASCII string. *)
Module url.
Record Url : Type := mkUrl { url : list byte }.

Definition EInvalidASCIICharacter : N := 65536.

Definition is_valid_char (b : byte) : bool := Byte.to_N b <=? 127.

(** [Url { url: ascii::string(bytes) }] *)
Definition new_unsafe_from_bytes {S} (bs : list byte) : M S Url :=
  assert_ mod_ascii (forallb is_valid_char bs) EInvalidASCIICharacter ;;
  ret (mkUrl bs).
End url.
Abbreviation Url := url.Url.

(** A borrow that may fail: [pview] is [None] where the borrowed part does
    not exist. *)
Record plens (S T : Type) : Type :=
  PLens { pview : S -> option T; pupdate : T -> S -> S }.
Arguments PLens {S T} pview pupdate.
Arguments pview {S T} p s.
Arguments pupdate {S T} p t s.

Definition zoom_opt {S T A} (l : plens S T) (e : abort) (m : M T A) : M S A :=
  fun s =>
    match pview l s with
    | None => (Aborted e, s)
    | Some t => let '(r, t') := m t in (r, pupdate l t' s)
    end.

(** [sui::dynamic_field], for the fields of type [Balance<SUI>] keyed by
    [ID] that the collateral pool attaches to its [UID]. *)
Module dynamic_field.
Definition EFieldAlreadyExists : N := 0.
Definition EFieldDoesNotExist : N := 1.

Definition exists_ (fields : gmap ID Balance) (name : ID) : bool :=
  bool_decide (is_Some (fields !! name)).

Definition add (name : ID) (v : Balance) : M (gmap ID Balance) unit :=
  fields <- get ;;
  assert_ mod_dynamic_field (negb (exists_ fields name)) EFieldAlreadyExists ;;
  modify (fun fields => <[name := v]> fields).

Definition field (name : ID) : plens (gmap ID Balance) Balance :=
  PLens (fun fields => fields !! name)
        (fun b fields => <[name := b]> fields).

Definition borrow_mut {A} (name : ID) (m : M Balance A)
  : M (gmap ID Balance) A :=
  zoom_opt (field name) (MoveAbort mod_dynamic_field EFieldDoesNotExist) m.

Definition borrow (name : ID) : M (gmap ID Balance) Balance :=
  borrow_mut name get.
End dynamic_field.

(* ===================================================================== *)
(** ** [oracle_marketplace::marketplace_treasury]                         *)
(* ===================================================================== *)

Module marketplace_treasury.

Module MarketplaceTreasury.
Record t : Type := mk {
  id : UID;
  platform_balance : Balance;
  admin : address;
}.
Definition platform_balance_ : lens t Balance :=
  Lens platform_balance (fun b s => mk (id s) b (admin s)).
End MarketplaceTreasury.

Module TreasuryAdminCap.
Record t : Type := mk { id : UID; treasury_id : ID }.
End TreasuryAdminCap.

(** [fields] are the dynamic fields attached to [id]: the collateral
    locked for each service. *)
Module CollateralPool.
Record t : Type := mk {
  id : UID;
  total_collateral : Balance;
  fields : gmap ID Balance;
}.
Definition fields_ : lens t (gmap ID Balance) :=
  Lens fields (fun f s => mk (id s) (total_collateral s) f).
End CollateralPool.

Definition E_NOT_ADMIN : N := 1.
Definition E_INSUFFICIENT_BALANCE : N := 2.
Definition E_COLLATERAL_NOT_FOUND : N := 3.
Definition E_NOT_PROVIDER : N := 4.

Definition assert_here {S} (c : bool) (code : N) : M S unit :=
  assert_ mod_marketplace_treasury c code.

Definition deposit_platform_fee (payment : Coin)
  : M MarketplaceTreasury.t unit :=
  let balance := coin.into_balance payment in
  zoom MarketplaceTreasury.platform_balance_ (balance.join balance) ;;
  ret tt.

Definition withdraw_platform_funds
    (admin_cap : TreasuryAdminCap.t) (amount : N)
  : M (MarketplaceTreasury.t * TxContext) Coin :=
  treasury <- gets fst ;;
  ctx <- gets snd ;;
  assert_here
    (bool_decide (MarketplaceTreasury.id treasury
                  = TreasuryAdminCap.treasury_id admin_cap))
    E_NOT_ADMIN ;;
  assert_here
    (bool_decide (tx_context.sender ctx = MarketplaceTreasury.admin treasury))
    E_NOT_ADMIN ;;
  assert_here
    (amount <=? balance.value (MarketplaceTreasury.platform_balance treasury))
    E_INSUFFICIENT_BALANCE ;;
  zoom (Lens (fun s => (MarketplaceTreasury.platform_balance (fst s), snd s))
             (fun t s => (update MarketplaceTreasury.platform_balance_
                                 (fst t) (fst s), snd t)))
       (coin.take amount).

Definition get_platform_balance (treasury : MarketplaceTreasury.t) : N :=
  balance.value (MarketplaceTreasury.platform_balance treasury).

Definition create_collateral_pool : M TxContext CollateralPool.t :=
  uid <- object.new ;;
  ret (CollateralPool.mk uid balance.zero ∅).

Definition deposit_collateral (service_id : ID) (collateral : Coin)
  : M CollateralPool.t unit :=
  let balance := coin.into_balance collateral in
  pool <- get ;;
  if dynamic_field.exists_ (CollateralPool.fields pool) service_id then
    zoom CollateralPool.fields_
         (dynamic_field.borrow_mut service_id (balance.join balance)) ;;
    ret tt
  else
    zoom CollateralPool.fields_ (dynamic_field.add service_id balance).

(** The collateral of [service_id] borrowed mutably, next to the
    transaction context. *)
Definition collateral_balance_ (service_id : ID)
  : plens (CollateralPool.t * TxContext) (Balance * TxContext) :=
  PLens (fun s => b ← CollateralPool.fields (fst s) !! service_id;
                  Some (b, snd s))
        (fun t s =>
           (update CollateralPool.fields_
                   (<[service_id := fst t]> (CollateralPool.fields (fst s)))
                   (fst s),
            snd t)).

Definition withdraw_collateral
    (service_id : ID) (provider : address) (amount : N)
  : M (CollateralPool.t * TxContext) Coin :=
  pool <- gets fst ;;
  assert_here (dynamic_field.exists_ (CollateralPool.fields pool) service_id)
              E_COLLATERAL_NOT_FOUND ;;
  ctx <- gets snd ;;
  assert_here (bool_decide (tx_context.sender ctx = provider))
              E_NOT_PROVIDER ;;
  zoom_opt (collateral_balance_ service_id)
           (MoveAbort mod_dynamic_field dynamic_field.EFieldDoesNotExist)
    (current_amount <- gets (fun s => balance.value (fst s)) ;;
     assert_here (amount <=? current_amount) E_INSUFFICIENT_BALANCE ;;
     coin.take amount).

Definition get_service_collateral
    (pool : CollateralPool.t) (service_id : ID) : N :=
  if dynamic_field.exists_ (CollateralPool.fields pool) service_id then
    match CollateralPool.fields pool !! service_id with
    | Some collateral => balance.value collateral
    | None => 0
    end
  else 0.

Definition get_total_collateral (pool : CollateralPool.t) : N :=
  balance.value (CollateralPool.total_collateral pool).

End marketplace_treasury.

(* ===================================================================== *)
(** ** [oracle_marketplace::oracle_core]                                  *)
(* ===================================================================== *)

Module oracle_core.

Module OracleQuery.
Record t : Type := mk {
  id : UID;
  query_id : String;
  query_type : String;
  query_params : String;
  provider : address;
  result : option String;
  result_hash : option String;
  evidence_blob_id : option ID;
  evidence_url : option Url;
  creator : address;
  created_at : N;
  updated_at : N;
  resolved : bool;
}.

Definition set_result (v : option String) (q : t) : t :=
  mk (id q) (query_id q) (query_type q) (query_params q) (provider q)
     v (result_hash q) (evidence_blob_id q) (evidence_url q)
     (creator q) (created_at q) (updated_at q) (resolved q).
Definition set_result_hash (v : option String) (q : t) : t :=
  mk (id q) (query_id q) (query_type q) (query_params q) (provider q)
     (result q) v (evidence_blob_id q) (evidence_url q)
     (creator q) (created_at q) (updated_at q) (resolved q).
Definition set_evidence_url (v : option Url) (q : t) : t :=
  mk (id q) (query_id q) (query_type q) (query_params q) (provider q)
     (result q) (result_hash q) (evidence_blob_id q) v
     (creator q) (created_at q) (updated_at q) (resolved q).
Definition set_resolved (v : bool) (q : t) : t :=
  mk (id q) (query_id q) (query_type q) (query_params q) (provider q)
     (result q) (result_hash q) (evidence_blob_id q) (evidence_url q)
     (creator q) (created_at q) (updated_at q) v.
Definition set_updated_at (v : N) (q : t) : t :=
  mk (id q) (query_id q) (query_type q) (query_params q) (provider q)
     (result q) (result_hash q) (evidence_blob_id q) (evidence_url q)
     (creator q) (created_at q) v (resolved q).
End OracleQuery.
Import OracleQuery.

Definition E_QUERY_NOT_FOUND : N := 1.
Definition E_QUERY_ALREADY_RESOLVED : N := 2.
Definition E_NOT_PROVIDER : N := 3.
Definition E_INVALID_DATA : N := 4.

Definition assert_here {S} (c : bool) (code : N) : M S unit :=
  assert_ mod_oracle_core c code.

(** The query a mutating entry point holds by [&mut]. *)
Definition on_query (f : OracleQuery.t -> OracleQuery.t)
  : M (OracleQuery.t * TxContext) unit :=
  modify (fun s => (f (fst s), snd s)).

Definition create_query
    (query_id query_type query_params : list byte) (provider : address)
  : M TxContext OracleQuery.t :=
  query_id_str <- string.utf8 query_id ;;
  query_type_str <- string.utf8 query_type ;;
  query_params_str <- string.utf8 query_params ;;
  uid <- object.new ;;
  ctx <- get ;;
  ret (OracleQuery.mk uid query_id_str query_type_str query_params_str
         provider None None None None
         (tx_context.sender ctx)
         (tx_context.epoch_timestamp_ms ctx)
         (tx_context.epoch_timestamp_ms ctx)
         false).

Definition resolve_query_entry
    (result result_hash evidence_url_bytes : list byte)
  : M (OracleQuery.t * TxContext) unit :=
  query <- gets fst ;;
  assert_here (negb (resolved query)) E_QUERY_ALREADY_RESOLVED ;;
  ctx <- gets snd ;;
  assert_here (bool_decide (tx_context.sender ctx = provider query))
              E_NOT_PROVIDER ;;
  result_str <-
    (if bool_decide (length result = 0%nat)
     then string.utf8 [x7b; x7d]
     else string.utf8 result) ;;
  hash_str <-
    (if bool_decide (length result_hash = 0%nat)
     then string.utf8 []
     else string.utf8 result_hash) ;;
  evidence_url <- url.new_unsafe_from_bytes evidence_url_bytes ;;
  on_query (set_result (Some result_str)) ;;
  on_query (set_result_hash (Some hash_str)) ;;
  on_query (set_evidence_url (Some evidence_url)) ;;
  on_query (set_resolved true) ;;
  ctx <- gets snd ;;
  on_query (set_updated_at (tx_context.epoch_timestamp_ms ctx)).

Definition update_query_data
    (result result_hash evidence_url_bytes : list byte)
  : M (OracleQuery.t * TxContext) unit :=
  query <- gets fst ;;
  ctx <- gets snd ;;
  assert_here (bool_decide (tx_context.sender ctx = provider query))
              E_NOT_PROVIDER ;;
  result_str <-
    (if bool_decide (length result = 0%nat)
     then string.utf8 [x7b; x7d]
     else string.utf8 result) ;;
  hash_str <-
    (if bool_decide (length result_hash = 0%nat)
     then string.utf8 []
     else string.utf8 result_hash) ;;
  evidence_url <- url.new_unsafe_from_bytes evidence_url_bytes ;;
  on_query (set_result (Some result_str)) ;;
  on_query (set_result_hash (Some hash_str)) ;;
  on_query (set_evidence_url (Some evidence_url)) ;;
  on_query (set_resolved true) ;;
  ctx <- gets snd ;;
  on_query (set_updated_at (tx_context.epoch_timestamp_ms ctx)).

Definition get_result (query : OracleQuery.t) : option String :=
  result query.
Definition get_result_hash (query : OracleQuery.t) : option String :=
  result_hash query.
Definition get_evidence_url (query : OracleQuery.t) : option Url :=
  evidence_url query.
Definition is_resolved (query : OracleQuery.t) : bool := resolved query.
Definition get_query_id (query : OracleQuery.t) : String := query_id query.
Definition get_provider (query : OracleQuery.t) : address := provider query.

End oracle_core.

(* ===================================================================== *)
(** ** [oracle_marketplace::oracle_marketplace]                           *)
(* ===================================================================== *)

Module oracle_marketplace.
Import marketplace_treasury.

Module OracleService.
Record t : Type := mk {
  id : UID;
  provider : address;
  name : String;
  service_type : String;
  description : String;
  price_per_query : N;
  collateral : N;
  total_queries : N;
  successful_queries : N;
  config_id : option String;
  documentation_url : option Url;
  active : bool;
  created_at : N;
}.

Definition set_price_per_query (v : N) (s : t) : t :=
  mk (id s) (provider s) (name s) (service_type s) (description s)
     v (collateral s) (total_queries s) (successful_queries s)
     (config_id s) (documentation_url s) (active s) (created_at s).
Definition set_total_queries (v : N) (s : t) : t :=
  mk (id s) (provider s) (name s) (service_type s) (description s)
     (price_per_query s) (collateral s) v (successful_queries s)
     (config_id s) (documentation_url s) (active s) (created_at s).
Definition set_successful_queries (v : N) (s : t) : t :=
  mk (id s) (provider s) (name s) (service_type s) (description s)
     (price_per_query s) (collateral s) (total_queries s) v
     (config_id s) (documentation_url s) (active s) (created_at s).
Definition set_config_id (v : option String) (s : t) : t :=
  mk (id s) (provider s) (name s) (service_type s) (description s)
     (price_per_query s) (collateral s) (total_queries s)
     (successful_queries s) v (documentation_url s) (active s)
     (created_at s).
Definition set_documentation_url (v : option Url) (s : t) : t :=
  mk (id s) (provider s) (name s) (service_type s) (description s)
     (price_per_query s) (collateral s) (total_queries s)
     (successful_queries s) (config_id s) v (active s) (created_at s).
Definition set_active (v : bool) (s : t) : t :=
  mk (id s) (provider s) (name s) (service_type s) (description s)
     (price_per_query s) (collateral s) (total_queries s)
     (successful_queries s) (config_id s) (documentation_url s) v
     (created_at s).
End OracleService.

Module Subscription.
Record t : Type := mk {
  id : UID;
  subscriber : address;
  service_id : ID;
  start_time : N;
  end_time : N;
  active : bool;
  created_at : N;
}.
End Subscription.

Module QueryRecord.
Record t : Type := mk {
  id : UID;
  query_id : String;
  service_id : ID;
  requester : address;
  payment : N;
  query_time : N;
  success : bool;
}.
End QueryRecord.

Module OracleQueryResult.
Record t : Type := mk {
  query_id : String;
  result : String;
  result_hash : String;
  query_time : N;
}.
End OracleQueryResult.

Definition E_SERVICE_NOT_FOUND : N := 1.
Definition E_SERVICE_INACTIVE : N := 2.
Definition E_INSUFFICIENT_PAYMENT : N := 3.
Definition E_INSUFFICIENT_COLLATERAL : N := 4.
Definition E_NOT_PROVIDER : N := 5.
Definition E_SUBSCRIPTION_EXPIRED : N := 6.
Definition E_INVALID_PRICE : N := 7.
Definition E_QUERY_NOT_RESOLVED : N := 8.
Definition E_SUBSCRIPTION_NOT_MATCH : N := 9.

Definition PLATFORM_FEE_BPS : N := 300.
Definition MIN_COLLATERAL : N := 10000000.
Definition DEFAULT_SUBSCRIPTION_DURATION : N := 30 * 24 * 60 * 60 * 1000.

Definition assert_here {S} (c : bool) (code : N) : M S unit :=
  assert_ mod_oracle_marketplace c code.

(** *** Objects handed to [sui::transfer] *)

Inductive object : Type :=
  | CoinObject (c : Coin)
  | ServiceObject (s : OracleService.t)
  | SubscriptionObject (s : Subscription.t)
  | QueryRecordObject (r : QueryRecord.t).

Inductive effect : Type :=
  | Transfer (obj : object) (recipient : address)
  | Share (obj : object).

Module transfer.
Definition public_transfer (obj : object) (recipient : address)
  : M (list effect) unit :=
  modify (fun log => log ++ [Transfer obj recipient]).

Definition share_object (obj : object) : M (list effect) unit :=
  modify (fun log => log ++ [Share obj]).
End transfer.

(** What an entry point holds of the host: the transaction context and
    the log of transfers. *)
Module Host.
Record t : Type := mk { ctx : TxContext; effects : list effect }.
Definition ctx_ : lens t TxContext :=
  Lens ctx (fun c h => mk c (effects h)).
Definition effects_ : lens t (list effect) :=
  Lens effects (fun e h => mk (ctx h) e).
End Host.

(** A pair of borrows, one of them the host's transaction context. *)
Definition with_ctx {T} : lens (T * Host.t) (T * TxContext) :=
  Lens (fun s => (fst s, Host.ctx (snd s)))
       (fun t s => (fst t, update Host.ctx_ (snd t) (snd s))).

(** *** Service management *)

Definition create_service_simple
    (name service_type description : list byte) (price_per_query : N)
    (collateral : Coin)
  : M Host.t unit :=
  assert_here (0 <? price_per_query) E_INVALID_PRICE ;;
  let collateral_amount := coin.value collateral in
  assert_here (MIN_COLLATERAL <=? collateral_amount)
              E_INSUFFICIENT_COLLATERAL ;;
  uid <- zoom Host.ctx_ object.new ;;
  ctx <- gets Host.ctx ;;
  name_str <- string.utf8 name ;;
  service_type_str <- string.utf8 service_type ;;
  description_str <- string.utf8 description ;;
  let service :=
    OracleService.mk uid (tx_context.sender ctx)
      name_str service_type_str description_str
      price_per_query collateral_amount 0 0 None None true
      (tx_context.epoch_timestamp_ms ctx) in
  zoom Host.effects_
    (transfer.public_transfer (CoinObject collateral)
                              (tx_context.sender ctx)) ;;
  zoom Host.effects_ (transfer.share_object (ServiceObject service)).

Definition create_service_with_pool
    (name service_type description : list byte) (price_per_query : N)
    (collateral : Coin)
    (config_id : option String) (documentation_url : option Url)
  : M (CollateralPool.t * TxContext) OracleService.t :=
  assert_here (0 <? price_per_query) E_INVALID_PRICE ;;
  let collateral_amount := coin.value collateral in
  assert_here (MIN_COLLATERAL <=? collateral_amount)
              E_INSUFFICIENT_COLLATERAL ;;
  uid <- zoom snd_ object.new ;;
  ctx <- gets snd ;;
  name_str <- string.utf8 name ;;
  service_type_str <- string.utf8 service_type ;;
  description_str <- string.utf8 description ;;
  let service :=
    OracleService.mk uid (tx_context.sender ctx)
      name_str service_type_str description_str
      price_per_query collateral_amount 0 0 config_id documentation_url
      true (tx_context.epoch_timestamp_ms ctx) in
  let service_id := OracleService.id service in
  zoom fst_ (deposit_collateral service_id collateral) ;;
  ret service.

Definition create_service_entry
    (name service_type description : list byte) (price_per_query : N)
    (collateral : Coin)
  : M (CollateralPool.t * Host.t) unit :=
  service <- zoom with_ctx
    (create_service_with_pool name service_type description
       price_per_query collateral None None) ;;
  h <- gets snd ;;
  zoom (compose snd_ Host.effects_)
    (transfer.public_transfer (ServiceObject service)
                              (tx_context.sender (Host.ctx h))).

Definition withdraw_collateral_entry
    (service : OracleService.t) (amount : N) (recipient : address)
  : M (CollateralPool.t * Host.t) unit :=
  h <- gets snd ;;
  assert_here
    (bool_decide (tx_context.sender (Host.ctx h)
                  = OracleService.provider service))
    E_NOT_PROVIDER ;;
  let service_id := OracleService.id service in
  coin <- zoom with_ctx
    (withdraw_collateral service_id (OracleService.provider service)
                         amount) ;;
  zoom (compose snd_ Host.effects_)
    (transfer.public_transfer (CoinObject coin) recipient).

Definition update_price_entry (new_price : N) (ctx : TxContext)
  : M OracleService.t unit :=
  service <- get ;;
  assert_here
    (bool_decide (tx_context.sender ctx = OracleService.provider service))
    E_NOT_PROVIDER ;;
  assert_here (0 <? new_price) E_INVALID_PRICE ;;
  modify (OracleService.set_price_per_query new_price).

Definition set_active_entry (active : bool) (ctx : TxContext)
  : M OracleService.t unit :=
  service <- get ;;
  assert_here
    (bool_decide (tx_context.sender ctx = OracleService.provider service))
    E_NOT_PROVIDER ;;
  modify (OracleService.set_active active).

Definition update_config_id_entry (config_id : list byte) (ctx : TxContext)
  : M OracleService.t unit :=
  service <- get ;;
  assert_here
    (bool_decide (tx_context.sender ctx = OracleService.provider service))
    E_NOT_PROVIDER ;;
  config_id_str <- string.utf8 config_id ;;
  modify (OracleService.set_config_id (Some config_id_str)).

Definition update_documentation_url_entry
    (documentation_url : list byte) (ctx : TxContext)
  : M OracleService.t unit :=
  service <- get ;;
  assert_here
    (bool_decide (tx_context.sender ctx = OracleService.provider service))
    E_NOT_PROVIDER ;;
  url_obj <- url.new_unsafe_from_bytes documentation_url ;;
  modify (OracleService.set_documentation_url (Some url_obj)).

(** *** Subscription management *)

Definition create_subscription (service : OracleService.t)
  : M TxContext Subscription.t :=
  assert_here (OracleService.active service) E_SERVICE_INACTIVE ;;
  ctx <- get ;;
  let start_time := tx_context.epoch_timestamp_ms ctx in
  end_time <- u64_add mod_oracle_marketplace
                start_time DEFAULT_SUBSCRIPTION_DURATION ;;
  uid <- object.new ;;
  ctx <- get ;;
  ret (Subscription.mk uid (tx_context.sender ctx)
         (OracleService.id service) start_time end_time true start_time).

Definition create_subscription_entry (service : OracleService.t)
  : M Host.t unit :=
  subscription <- zoom Host.ctx_ (create_subscription service) ;;
  h <- get ;;
  zoom Host.effects_
    (transfer.public_transfer (SubscriptionObject subscription)
                              (tx_context.sender (Host.ctx h))).

Definition is_subscription_valid
    (subscription : Subscription.t) (current_time : N) : bool :=
  Subscription.active subscription
  && (current_time <=? Subscription.end_time subscription).

(** *** Query execution *)

(** The objects [query_oracle_sync] holds by [&mut], and the host. *)
Module Settlement.
Record t : Type := mk {
  service : OracleService.t;
  payment : Coin;
  treasury : MarketplaceTreasury.t;
  host : Host.t;
}.
Definition service_ : lens t OracleService.t :=
  Lens service (fun v s => mk v (payment s) (treasury s) (host s)).
Definition treasury_ : lens t MarketplaceTreasury.t :=
  Lens treasury (fun v s => mk (service s) (payment s) v (host s)).
Definition host_ : lens t Host.t :=
  Lens host (fun v s => mk (service s) (payment s) (treasury s) v).
Definition ctx_ : lens t TxContext := compose host_ Host.ctx_.
Definition effects_ : lens t (list effect) := compose host_ Host.effects_.
Definition payment_ctx_ : lens t (Coin * TxContext) :=
  Lens (fun s => (payment s, Host.ctx (host s)))
       (fun v s => mk (service s) (fst v) (treasury s)
                      (update Host.ctx_ (snd v) (host s))).
End Settlement.

(** A local [let mut] variable borrowed together with part of the state;
    the answer carries what is left in the variable. *)
Definition with_local {S T U A} (x : T) (l : lens S U) (m : M (T * U) A)
  : M S (A * T) :=
  fun s =>
    match m (x, view l s) with
    | (Ok a, t) => (Ok (a, fst t), update l (snd t) s)
    | (Aborted e, t) => (Aborted e, update l (snd t) s)
    end.

(** Lines 357-358: [platform_fee = fee * PLATFORM_FEE_BPS / 10000] and
    [provider_fee = fee - platform_fee], in checked [u64] arithmetic. *)
Definition fee_distribution {S} (fee : N) : M S (N * N) :=
  product <- u64_mul mod_oracle_marketplace fee PLATFORM_FEE_BPS ;;
  let platform_fee := u64_div product 10000 in
  provider_fee <- u64_sub mod_oracle_marketplace fee platform_fee ;;
  ret (platform_fee, provider_fee).

Definition query_oracle_sync
    (subscription : Subscription.t) (query : oracle_core.OracleQuery.t)
    (clock : Clock)
  : M Settlement.t OracleQueryResult.t :=
  (* 1. Verify service is active *)
  service <- gets Settlement.service ;;
  assert_here (OracleService.active service) E_SERVICE_INACTIVE ;;
  (* 2. Verify subscription permissions *)
  assert_here (Subscription.active subscription) E_SUBSCRIPTION_EXPIRED ;;
  let current_time := clock.timestamp_ms clock in
  assert_here (current_time <=? Subscription.end_time subscription)
              E_SUBSCRIPTION_EXPIRED ;;
  assert_here
    (bool_decide (Subscription.service_id subscription
                  = OracleService.id service))
    E_SUBSCRIPTION_NOT_MATCH ;;
  ctx <- gets (view Settlement.ctx_) ;;
  assert_here
    (bool_decide (tx_context.sender ctx = Subscription.subscriber subscription))
    E_SUBSCRIPTION_EXPIRED ;;
  (* 3. Verify payment *)
  payment <- gets Settlement.payment ;;
  let payment_amount := coin.value payment in
  assert_here (OracleService.price_per_query service <=? payment_amount)
              E_INSUFFICIENT_PAYMENT ;;
  (* 4. Verify query is resolved *)
  assert_here (oracle_core.is_resolved query) E_QUERY_NOT_RESOLVED ;;
  (* 5. Extract payment and distribute *)
  let fee := OracleService.price_per_query service in
  fee_coin <- zoom Settlement.payment_ctx_ (coin.split fee) ;;
  fees <- fee_distribution fee ;;
  let platform_fee := fst fees in
  split <- with_local fee_coin Settlement.ctx_ (coin.split platform_fee) ;;
  let platform_coin := fst split in
  let fee_coin := snd split in
  zoom Settlement.treasury_ (deposit_platform_fee platform_coin) ;;
  zoom Settlement.effects_
    (transfer.public_transfer (CoinObject fee_coin)
                              (OracleService.provider service)) ;;
  (* 6. Update service statistics *)
  service <- gets Settlement.service ;;
  total <- u64_add mod_oracle_marketplace
             (OracleService.total_queries service) 1 ;;
  zoom Settlement.service_ (modify (OracleService.set_total_queries total)) ;;
  service <- gets Settlement.service ;;
  successful <- u64_add mod_oracle_marketplace
                  (OracleService.successful_queries service) 1 ;;
  zoom Settlement.service_
    (modify (OracleService.set_successful_queries successful)) ;;
  (* 7. Create query record *)
  uid <- zoom Settlement.ctx_ object.new ;;
  service <- gets Settlement.service ;;
  let query_record :=
    QueryRecord.mk uid (oracle_core.get_query_id query)
      (OracleService.id service)
      (Subscription.subscriber subscription)
      fee current_time true in
  zoom Settlement.effects_
    (transfer.public_transfer (QueryRecordObject query_record)
                              (Subscription.subscriber subscription)) ;;
  (* 8. Get query result *)
  let result_option := oracle_core.get_result query in
  let result_hash_option := oracle_core.get_result_hash query in
  result_str <-
    match result_option with
    | Some r => ret r
    | None => string.utf8 [x7b; x7d]
    end ;;
  result_hash_str <-
    match result_hash_option with
    | Some h => ret h
    | None => string.utf8 []
    end ;;
  (* 9. Return query result *)
  ret (OracleQueryResult.mk (oracle_core.get_query_id query)
         result_str result_hash_str current_time).

Definition get_price (service : OracleService.t) : N :=
  OracleService.price_per_query service.
Definition is_active (service : OracleService.t) : bool :=
  OracleService.active service.
Definition get_provider (service : OracleService.t) : address :=
  OracleService.provider service.

End oracle_marketplace.

(* ===================================================================== *)
(** ** The ledger: transactions against a service, the treasury and the
       collateral pool                                                     *)
(* ===================================================================== *)

Module ledger.
Import marketplace_treasury oracle_marketplace.

(** The shared objects of the marketplace that a transaction can reach
    from one service, and the transfers committed so far. *)
Record World : Type := mkWorld {
  service : OracleService.t;
  treasury : MarketplaceTreasury.t;
  pool : CollateralPool.t;
  effects : list effect;
}.

(** One transaction: an entry point of the marketplace or of the treasury
    run against the world, with the arguments and the context the caller
    supplies.  The entry points of [oracle_core] take a query and nothing
    of the world. *)
Inductive call : Type :=
  | UpdatePrice (new_price : N) (ctx : TxContext)
  | SetActive (active : bool) (ctx : TxContext)
  | UpdateConfigId (config_id : list byte) (ctx : TxContext)
  | UpdateDocumentationUrl (documentation_url : list byte) (ctx : TxContext)
  | WithdrawCollateral (amount : N) (recipient : address) (ctx : TxContext)
  | CreateSubscription (ctx : TxContext)
  | CreateServiceSimple (name service_type description : list byte)
      (price_per_query : N) (collateral : Coin) (ctx : TxContext)
  | CreateServiceEntry (name service_type description : list byte)
      (price_per_query : N) (collateral : Coin) (ctx : TxContext)
  | WithdrawPlatformFunds (admin_cap : TreasuryAdminCap.t) (amount : N)
      (ctx : TxContext)
  | QueryOracleSync (subscription : Subscription.t)
      (query : oracle_core.OracleQuery.t) (payment : Coin)
      (clock : Clock) (ctx : TxContext).

Definition service_ : lens World OracleService.t :=
  Lens service (fun v w => mkWorld v (treasury w) (pool w) (effects w)).

Definition pool_host_ (ctx : TxContext)
  : lens World (CollateralPool.t * Host.t) :=
  Lens (fun w => (pool w, Host.mk ctx (effects w)))
       (fun v w => mkWorld (service w) (treasury w) (fst v)
                           (Host.effects (snd v))).

Definition host_ (ctx : TxContext) : lens World Host.t :=
  Lens (fun w => Host.mk ctx (effects w))
       (fun v w => mkWorld (service w) (treasury w) (pool w)
                           (Host.effects v)).

Definition treasury_ctx_ (ctx : TxContext)
  : lens World (MarketplaceTreasury.t * TxContext) :=
  Lens (fun w => (treasury w, ctx))
       (fun v w => mkWorld (service w) (fst v) (pool w) (effects w)).

Definition settlement_ (payment : Coin) (ctx : TxContext)
  : lens World Settlement.t :=
  Lens (fun w => Settlement.mk (service w) payment (treasury w)
                               (Host.mk ctx (effects w)))
       (fun v w => mkWorld (Settlement.service v) (Settlement.treasury v)
                           (pool w)
                           (Host.effects (Settlement.host v))).

Definition run (c : call) : M World unit :=
  match c with
  | UpdatePrice new_price ctx =>
      zoom service_ (update_price_entry new_price ctx)
  | SetActive active ctx =>
      zoom service_ (set_active_entry active ctx)
  | UpdateConfigId config_id ctx =>
      zoom service_ (update_config_id_entry config_id ctx)
  | UpdateDocumentationUrl documentation_url ctx =>
      zoom service_ (update_documentation_url_entry documentation_url ctx)
  | WithdrawCollateral amount recipient ctx =>
      w <- get ;;
      zoom (pool_host_ ctx)
           (withdraw_collateral_entry (service w) amount recipient)
  | CreateSubscription ctx =>
      w <- get ;;
      zoom (host_ ctx) (create_subscription_entry (service w))
  | CreateServiceSimple name service_type description price collateral ctx =>
      zoom (host_ ctx)
           (create_service_simple name service_type description price
              collateral)
  | CreateServiceEntry name service_type description price collateral ctx =>
      zoom (pool_host_ ctx)
           (create_service_entry name service_type description price
              collateral)
  | WithdrawPlatformFunds admin_cap amount ctx =>
      zoom (treasury_ctx_ ctx) (withdraw_platform_funds admin_cap amount) ;;
      ret tt
  | QueryOracleSync subscription query payment clock ctx =>
      zoom (settlement_ payment ctx)
           (query_oracle_sync subscription query clock) ;;
      ret tt
  end.

(** A transaction either commits or leaves the world as it was. *)
Definition step (w : World) (c : call) : World := commit (run c) w.

Definition run_all (calls : list call) (w : World) : World :=
  fold_left step calls w.

Definition is_settlement (c : call) : bool :=
  match c with
  | QueryOracleSync _ _ _ _ _ => true
  | _ => false
  end.

Definition total (w : World) : N :=
  OracleService.total_queries (service w).
Definition successful (w : World) : N :=
  OracleService.successful_queries (service w).

(** What one committed transaction adds to either counter. *)
Definition gain (c : call) (w : World) : N :=
  if is_settlement c && succeeds (run c) w then 1 else 0.

(** The number of settlements that succeed when [calls] are executed in
    order from [w]. *)
Fixpoint settled (calls : list call) (w : World) : N :=
  match calls with
  | [] => 0
  | c :: rest =>
    gain c w + settled rest (step w c)
  end.

(** The pools the ledger can hold: a pool is created empty and changes
    only through committed deposits and withdrawals. *)
Inductive reachable_pool : CollateralPool.t -> Prop :=
  | reach_create ctx pool ctx' :
      create_collateral_pool ctx = (Ok pool, ctx') ->
      reachable_pool pool
  | reach_deposit pool service_id collateral pool' :
      reachable_pool pool ->
      deposit_collateral service_id collateral pool = (Ok tt, pool') ->
      reachable_pool pool'
  | reach_withdraw pool service_id provider amount ctx coin pool' ctx' :
      reachable_pool pool ->
      withdraw_collateral service_id provider amount (pool, ctx)
        = (Ok coin, (pool', ctx')) ->
      reachable_pool pool'.
End ledger.

(* ===================================================================== *)
(** ** Closed forms the proofs compare the code with                      *)
(* ===================================================================== *)

Module spec.
Import marketplace_treasury oracle_marketplace.

(** The context after one more object has been created, and the
    identifier that object receives. *)
Definition bump (ctx : TxContext) : TxContext :=
  tx_context.mkTxContext (tx_context.sender ctx) (tx_context.tx_hash ctx)
    (tx_context.epoch ctx) (tx_context.epoch_timestamp_ms ctx)
    (tx_context.ids_created ctx + 1).

Definition fresh (ctx : TxContext) : ID :=
  (tx_context.tx_hash ctx, tx_context.ids_created ctx).

(** The caller a settlement sees. *)
Definition caller_of (st : Settlement.t) : address :=
  tx_context.sender (Host.ctx (Settlement.host st)).

(** The six checks of the settlement in the order section 4.4 of the
    specification lists them: the code of the first one that fails. *)
Definition first_failed_check
    (service : OracleService.t) (subscription : Subscription.t)
    (query : oracle_core.OracleQuery.t) (payment : Coin)
    (current_time : N) (caller : address) : option N :=
  if negb (OracleService.active service) then Some E_SERVICE_INACTIVE
  else if negb (Subscription.active subscription)
          || (Subscription.end_time subscription <? current_time)
       then Some E_SUBSCRIPTION_EXPIRED
  else if negb (bool_decide (Subscription.service_id subscription
                             = OracleService.id service))
       then Some E_SUBSCRIPTION_NOT_MATCH
  else if negb (bool_decide (caller = Subscription.subscriber subscription))
       then Some E_SUBSCRIPTION_EXPIRED
  else if coin.value payment <? OracleService.price_per_query service
       then Some E_INSUFFICIENT_PAYMENT
  else if negb (oracle_core.OracleQuery.resolved query)
       then Some E_QUERY_NOT_RESOLVED
  else None.

(** What a settlement that passes its checks returns and leaves behind,
    provided no [u64] operation overflows. *)
Definition result_view (q : oracle_core.OracleQuery.t) (clk : Clock)
  : OracleQueryResult.t :=
  OracleQueryResult.mk (oracle_core.get_query_id q)
    (default (string.mkString [x7b; x7d]) (oracle_core.get_result q))
    (default (string.mkString []) (oracle_core.get_result_hash q))
    (clock.timestamp_ms clk).

Definition settle (sub : Subscription.t) (q : oracle_core.OracleQuery.t)
    (clk : Clock) (st : Settlement.t) : Settlement.t :=
  let service := Settlement.service st in
  let payment := Settlement.payment st in
  let treasury := Settlement.treasury st in
  let fee := OracleService.price_per_query service in
  let platform_fee := fee * PLATFORM_FEE_BPS / 10000 in
  let ctx := Host.ctx (Settlement.host st) in
  Settlement.mk
    (OracleService.set_successful_queries
       (OracleService.successful_queries service + 1)
       (OracleService.set_total_queries
          (OracleService.total_queries service + 1) service))
    (coin.mkCoin (coin.id payment)
       (balance.mkBalance (coin.value payment - fee)))
    (MarketplaceTreasury.mk (MarketplaceTreasury.id treasury)
       (balance.mkBalance (get_platform_balance treasury + platform_fee))
       (MarketplaceTreasury.admin treasury))
    (Host.mk (bump (bump (bump ctx)))
       ((Host.effects (Settlement.host st)
         ++ [Transfer
               (CoinObject
                  (coin.mkCoin (fresh ctx)
                     (balance.mkBalance (fee - platform_fee))))
               (OracleService.provider service)])
        ++ [Transfer
              (QueryRecordObject
                 (QueryRecord.mk (fresh (bump (bump ctx)))
                    (oracle_core.get_query_id q)
                    (OracleService.id service)
                    (Subscription.subscriber sub)
                    fee (clock.timestamp_ms clk) true))
              (Subscription.subscriber sub)])).

Definition no_overflow (st : Settlement.t) : bool :=
  let service := Settlement.service st in
  let fee := OracleService.price_per_query service in
  (fee * PLATFORM_FEE_BPS <=? MAX_U64)
  && (get_platform_balance (Settlement.treasury st)
      + fee * PLATFORM_FEE_BPS / 10000 <=? MAX_U64)
  && (OracleService.total_queries service + 1 <=? MAX_U64)
  && (OracleService.successful_queries service + 1 <=? MAX_U64).

(** A pool whose per-service collateral has been replaced. *)
Definition with_fields (fields : gmap ID Balance)
    (pool : CollateralPool.t) : CollateralPool.t :=
  CollateralPool.mk (CollateralPool.id pool)
    (CollateralPool.total_collateral pool) fields.

(** The payload [resolve_query_entry] and [update_query_data] write: an
    empty result is stored as the empty JSON object, and the first
    payload that is not well-formed aborts the call. *)
Definition normal_result (result : list byte) : list byte :=
  if bool_decide (length result = 0%nat) then [x7b; x7d] else result.

Definition payload_abort (result result_hash evidence_url : list byte)
  : option abort :=
  if negb (string.internal_check_utf8 (normal_result result))
  then Some (MoveAbort mod_string string.EInvalidUTF8)
  else if negb (string.internal_check_utf8 result_hash)
  then Some (MoveAbort mod_string string.EInvalidUTF8)
  else if negb (forallb url.is_valid_char evidence_url)
  then Some (MoveAbort mod_ascii url.EInvalidASCIICharacter)
  else None.

Definition written (result result_hash evidence_url : list byte)
    (ctx : TxContext) (q : oracle_core.OracleQuery.t)
  : oracle_core.OracleQuery.t :=
  oracle_core.OracleQuery.set_updated_at
    (tx_context.epoch_timestamp_ms ctx)
    (oracle_core.OracleQuery.set_resolved true
       (oracle_core.OracleQuery.set_evidence_url
          (Some (url.mkUrl evidence_url))
          (oracle_core.OracleQuery.set_result_hash
             (Some (string.mkString result_hash))
             (oracle_core.OracleQuery.set_result
                (Some (string.mkString (normal_result result))) q)))).

(** A sequence of [update_query_data] transactions on one query. *)
Record update_call : Type := mkUpdateCall {
  upd_result : list byte;
  upd_result_hash : list byte;
  upd_evidence_url : list byte;
  upd_ctx : TxContext;
}.

Definition update_step (q : oracle_core.OracleQuery.t) (c : update_call)
  : oracle_core.OracleQuery.t :=
  fst (commit (oracle_core.update_query_data
                 (upd_result c) (upd_result_hash c) (upd_evidence_url c))
              (q, upd_ctx c)).
End spec.

(* ===================================================================== *)
(** ** The scenario of section 8 of the specification                     *)
(* ===================================================================== *)

Module scenario.
Import marketplace_treasury oracle_marketplace.

Definition provider : address := 11.
Definition subscriber : address := 22.
Definition stranger : address := 33.

Definition ctx_of (who : address) : TxContext :=
  tx_context.mkTxContext who 77 1 5000 0.

Definition text (l : list byte) : String := string.mkString l.

(** price = 1000, collateral = 10,000,000 *)
Definition service : OracleService.t :=
  OracleService.mk (9, 0) provider (text [x42; x54; x43]) (text [x70])
    (text []) 1000 10000000 0 0 None None true 5000.

Definition subscription : Subscription.t :=
  Subscription.mk (9, 1) subscriber (9, 0) 5000 2592005000 true 5000.

(** result = {"price":50000} *)
Definition price_json : list byte :=
  [x7b; x22; x70; x72; x69; x63; x65; x22; x3a;
   x35; x30; x30; x30; x30; x7d].

Definition open_query : oracle_core.OracleQuery.t :=
  oracle_core.OracleQuery.mk (9, 2) (text [x71; x31]) (text [x70])
    (text []) provider None None None None provider 5000 5000 false.

Definition query : oracle_core.OracleQuery.t :=
  oracle_core.OracleQuery.mk (9, 2) (text [x71; x31]) (text [x70])
    (text []) provider (Some (text price_json)) (Some (text []))
    None (Some (url.mkUrl [])) provider 5000 5000 true.

Definition coin_of (amount : N) : Coin :=
  coin.mkCoin (9, 3) (balance.mkBalance amount).

Definition treasury : MarketplaceTreasury.t :=
  MarketplaceTreasury.mk (9, 4) balance.zero 1.

Definition empty_pool : CollateralPool.t :=
  CollateralPool.mk (9, 5) balance.zero ∅.

Definition funded_pool : CollateralPool.t :=
  CollateralPool.mk (9, 5) balance.zero
    {[ (9, 0) := balance.mkBalance 10000000 ]}.

Definition settlement (s : OracleService.t) (payment : N) (who : address)
  : Settlement.t :=
  Settlement.mk s (coin_of payment) treasury (Host.mk (ctx_of who) []).

Definition world : ledger.World :=
  ledger.mkWorld service treasury funded_pool [].
End scenario.

(* ===================================================================== *)
(** ** The remaining functions of the three modules                       *)
(* ===================================================================== *)

(** [marketplace_treasury]: creation of the treasury and the transfers of
    the admin capability and of the pool. *)
Module treasury_objects.
Import marketplace_treasury.

Inductive object : Type :=
  | TreasuryObject (t : MarketplaceTreasury.t)
  | AdminCapObject (c : TreasuryAdminCap.t)
  | PoolObject (p : CollateralPool.t).

Inductive effect : Type :=
  | Transfer (obj : object) (recipient : address)
  | Share (obj : object).



Definition transfer_collateral_pool
    (pool : CollateralPool.t) (recipient : address)
  : M (list effect) unit :=
  modify (fun log => log ++ [Transfer (PoolObject pool) recipient]).
End treasury_objects.

(** [oracle_core]: the entry point that creates a query and hands it to
    the caller, the transfer of a query and the remaining accessors. *)
Module query_objects.
Import oracle_core.

Inductive effect : Type :=
  | Transfer (query : OracleQuery.t) (recipient : address).


Definition transfer_query (query : OracleQuery.t) (recipient : address)
  : M (list effect) unit :=
  modify (fun log => log ++ [Transfer query recipient]).

Definition get_query_type (query : OracleQuery.t) : String :=
  OracleQuery.query_type query.
Definition get_query_params (query : OracleQuery.t) : String :=
  OracleQuery.query_params query.
End query_objects.

(** [oracle_marketplace]: the accessors of the view a settlement returns. *)
Module result_accessors.
Import oracle_marketplace.

Definition get_query_id (result : OracleQueryResult.t) : String :=
  OracleQueryResult.query_id result.
Definition get_result_data (result : OracleQueryResult.t) : String :=
  OracleQueryResult.result result.
Definition get_result_hash_value (result : OracleQueryResult.t) : String :=
  OracleQueryResult.result_hash result.
Definition get_query_time (result : OracleQueryResult.t) : N :=
  OracleQueryResult.query_time result.
End result_accessors.

(** Transactions against one query: the two mutating entry points of
    [oracle_core], each with the context its caller supplies. *)
Module query_ledger.
Import oracle_core.

Inductive call : Type :=
  | Resolve (result result_hash evidence_url : list byte) (ctx : TxContext)
  | Update (result result_hash evidence_url : list byte) (ctx : TxContext).

Definition with_ctx_ (ctx : TxContext)
  : lens OracleQuery.t (OracleQuery.t * TxContext) :=
  Lens (fun q => (q, ctx)) (fun v _ => fst v).

Definition run (c : call) : M OracleQuery.t unit :=
  match c with
  | Resolve result result_hash evidence_url ctx =>
      zoom (with_ctx_ ctx)
           (resolve_query_entry result result_hash evidence_url)
  | Update result result_hash evidence_url ctx =>
      zoom (with_ctx_ ctx)
           (update_query_data result result_hash evidence_url)
  end.

Definition step (q : OracleQuery.t) (c : call) : OracleQuery.t :=
  commit (run c) q.

Definition run_all (calls : list call) (q : OracleQuery.t) : OracleQuery.t :=
  fold_left step calls q.

Definition is_resolve (c : call) : bool :=
  match c with Resolve _ _ _ _ => true | Update _ _ _ _ => false end.

(** The number of [resolve_query_entry] transactions that commit when
    [calls] are executed in order from [q]. *)
Fixpoint resolved_count (calls : list call) (q : OracleQuery.t) : N :=
  match calls with
  | [] => 0
  | c :: rest =>
    (if is_resolve c && succeeds (run c) q then 1 else 0)
    + resolved_count rest (step q c)
  end.

(** The queries the module can produce: created by [create_query], then
    resolved and updated. *)
Inductive reachable : OracleQuery.t -> Prop :=
  | reach_create query_id query_type query_params provider ctx q ctx' :
      create_query query_id query_type query_params provider ctx
        = (Ok q, ctx') ->
      reachable q
  | reach_step q c : reachable q -> reachable (step q c).

(** A query holds nothing while open and a well-formed, non-empty result
    once resolved. *)
Definition payload_invariant (q : OracleQuery.t) : Prop :=
  OracleQuery.evidence_blob_id q = None
  /\ (OracleQuery.resolved q = false ->
      OracleQuery.result q = None
      /\ OracleQuery.result_hash q = None
      /\ OracleQuery.evidence_url q = None)
  /\ (OracleQuery.resolved q = true ->
      exists r h e,
        OracleQuery.result q = Some r
        /\ OracleQuery.result_hash q = Some h
        /\ OracleQuery.evidence_url q = Some e
        /\ string.bytes r <> []
        /\ string.internal_check_utf8 (string.bytes r) = true
        /\ string.internal_check_utf8 (string.bytes h) = true
        /\ forallb url.is_valid_char (url.url e) = true).
End query_ledger.

(** The context a marketplace transaction runs in. *)
Module ledger_calls.
Import ledger.

Definition ctx_of (c : call) : TxContext :=
  match c with
  | UpdatePrice _ ctx | SetActive _ ctx | UpdateConfigId _ ctx
  | UpdateDocumentationUrl _ ctx | WithdrawCollateral _ _ ctx
  | CreateSubscription ctx | CreateServiceSimple _ _ _ _ _ ctx
  | CreateServiceEntry _ _ _ _ _ ctx | WithdrawPlatformFunds _ _ ctx
  | QueryOracleSync _ _ _ _ ctx => ctx
  end.

Definition sender_of (c : call) : address := tx_context.sender (ctx_of c).
End ledger_calls.

(* ===================================================================== *)
(** * Proofs                                                              *)
(* ===================================================================== *)

(** ** Stepping through a computation *)

Section MonadLaws.
Context {S A B : Type}.
Implicit Types (s : S) (k : A -> M S B).

Lemma bind_run (m : M S A) k s :
  bind m k s
  = match m s with
    | (Ok a, s') => k a s'
    | (Aborted e, s') => (Aborted e, s')
    end.
Proof. reflexivity. Qed.

Lemma bind_ret (a : A) k s : bind (ret a) k s = k a s.
Proof. reflexivity. Qed.

Lemma bind_gets (f : S -> A) k s : bind (gets f) k s = k (f s) s.
Proof. reflexivity. Qed.

Lemma bind_get (k : S -> M S B) s : bind get k s = k s s.
Proof. reflexivity. Qed.

Lemma bind_modify (f : S -> S) (k : unit -> M S B) s :
  bind (modify f) k s = k tt (f s).
Proof. reflexivity. Qed.

Lemma bind_assert m (c : bool) code (k : unit -> M S B) s :
  bind (assert_ m c code) k s
  = if c then k tt s else (Aborted (MoveAbort m code), s).
Proof. destruct c; reflexivity. Qed.

Lemma bind_u64_add m (a b : N) (k : N -> M S B) s :
  bind (u64_add m a b) k s
  = if a + b <=? MAX_U64 then k (a + b) s
    else (Aborted (ArithmeticError m), s).
Proof. unfold u64_add. destruct (a + b <=? MAX_U64); reflexivity. Qed.

Lemma bind_zoom {T} (l : lens S T) (m : M T A) k s :
  bind (zoom l m) k s
  = match m (view l s) with
    | (Ok a, t) => k a (update l t s)
    | (Aborted e, t) => (Aborted e, update l t s)
    end.
Proof.
  unfold bind, zoom. destruct (m (view l s)) as [[a|e] t]; reflexivity.
Qed.

Lemma bind_zoom_modify {T} (l : lens S T) (f : T -> T)
    (k : unit -> M S B) s :
  bind (zoom l (modify f)) k s = k tt (update l (f (view l s)) s).
Proof. reflexivity. Qed.

Lemma bind_zoom_new (l : lens S TxContext) (k : UID -> M S B) s :
  bind (zoom l object.new) k s
  = k (spec.fresh (view l s)) (update l (spec.bump (view l s)) s).
Proof. reflexivity. Qed.

Lemma bind_with_local {T U} (x : T) (l : lens S U) (m : M (T * U) A)
    (k : A * T -> M S B) s :
  bind (oracle_marketplace.with_local x l m) k s
  = match m (x, view l s) with
    | (Ok a, t) => k (a, fst t) (update l (snd t) s)
    | (Aborted e, t) => (Aborted e, update l (snd t) s)
    end.
Proof.
  unfold bind, oracle_marketplace.with_local.
  destruct (m (x, view l s)) as [[a|e] t]; reflexivity.
Qed.
End MonadLaws.

Ltac mstep :=
  first [ rewrite bind_gets | rewrite bind_get | rewrite bind_ret
        | rewrite bind_modify | rewrite bind_assert | rewrite bind_u64_add
        | rewrite bind_zoom_modify | rewrite bind_zoom_new
        | rewrite bind_zoom ];
  cbv beta.

(** A committed transaction changes the state only if it returned. *)
Lemma commit_aborted {S A} (m : M S A) (s : S) :
  succeeds m s = false -> commit m s = s.
Proof.
  unfold succeeds, commit. destruct (m s) as [[a|e] s']; congruence.
Qed.

(** ** The framework *)

Section Framework.
Import spec.

Lemma coin_take_eq amount b ctx :
  coin.take amount (b, ctx)
  = if amount <=? balance.value b
    then (Ok (coin.mkCoin (fresh ctx) (balance.mkBalance amount)),
          (balance.mkBalance (balance.value b - amount), bump ctx))
    else (Aborted (MoveAbort mod_balance balance.ENotEnough),
          (b, bump ctx)).
Proof.
  destruct b as [v]. cbv -[N.leb N.add N.sub N.mul N.div].
  destruct (amount <=? v); reflexivity.
Qed.

Lemma coin_split_eq amount c ctx :
  coin.split amount (c, ctx)
  = if amount <=? coin.value c
    then (Ok (coin.mkCoin (fresh ctx) (balance.mkBalance amount)),
          (coin.mkCoin (coin.id c)
             (balance.mkBalance (coin.value c - amount)),
           bump ctx))
    else (Aborted (MoveAbort mod_balance balance.ENotEnough),
          (c, bump ctx)).
Proof.
  destruct c as [i [v]]. cbv -[N.leb N.add N.sub N.mul N.div].
  destruct (amount <=? v); reflexivity.
Qed.

Lemma balance_join_eq b self :
  balance.join b self
  = if balance.value self + balance.value b <=? MAX_U64
    then (Ok (balance.value self + balance.value b),
          balance.mkBalance (balance.value self + balance.value b))
    else (Aborted (ArithmeticError mod_balance), self).
Proof.
  destruct b as [v], self as [w].
  cbv -[N.leb N.add N.sub N.mul N.div MAX_U64].
  destruct (w + v <=? MAX_U64); reflexivity.
Qed.
End Framework.

(** ** The settlement engine *)

Section Settlement.
Import marketplace_treasury oracle_marketplace spec.

Lemma platform_fee_le fee : fee * PLATFORM_FEE_BPS / 10000 <= fee.
Proof.
  unfold PLATFORM_FEE_BPS. transitivity (fee * 10000 / 10000).
  - apply N.Div0.div_le_mono. lia.
  - rewrite N.div_mul by lia. lia.
Qed.

Lemma fee_distribution_eq {S} fee (s : S) :
  fee_distribution fee s
  = if fee * PLATFORM_FEE_BPS <=? MAX_U64
    then (Ok (fee * PLATFORM_FEE_BPS / 10000,
              fee - fee * PLATFORM_FEE_BPS / 10000), s)
    else (Aborted (ArithmeticError mod_oracle_marketplace), s).
Proof.
  unfold fee_distribution, u64_mul, u64_sub, u64_div.
  destruct (fee * PLATFORM_FEE_BPS <=? MAX_U64) eqn:E; [|reflexivity].
  rewrite bind_ret.
  pose proof (platform_fee_le fee) as H. apply N.leb_le in H.
  rewrite H. reflexivity.
Qed.

Lemma deposit_platform_fee_eq payment t :
  deposit_platform_fee payment t
  = if get_platform_balance t + coin.value payment <=? MAX_U64
    then (Ok tt,
          MarketplaceTreasury.mk (MarketplaceTreasury.id t)
            (balance.mkBalance (get_platform_balance t + coin.value payment))
            (MarketplaceTreasury.admin t))
    else (Aborted (ArithmeticError mod_balance), t).
Proof.
  destruct t as [i [v] a], payment as [ci [cv]].
  cbv -[N.leb N.add N.sub N.mul N.div MAX_U64].
  destruct (v + cv <=? MAX_U64); reflexivity.
Qed.

Lemma first_failed_check_None service sub q payment t caller :
  first_failed_check service sub q payment t caller = None ->
  OracleService.active service = true
  /\ Subscription.active sub = true
  /\ (t <=? Subscription.end_time sub) = true
  /\ bool_decide (Subscription.service_id sub = OracleService.id service)
     = true
  /\ bool_decide (caller = Subscription.subscriber sub) = true
  /\ (OracleService.price_per_query service <=? coin.value payment) = true
  /\ oracle_core.OracleQuery.resolved q = true.
Proof.
  unfold first_failed_check. rewrite !N.ltb_antisym.
  repeat match goal with
  | |- context [negb ?c] => destruct c; cbn [negb orb]
  end; intros; try discriminate; repeat split.
Qed.

Lemma first_failed_check_None_iff service sub q payment t caller :
  first_failed_check service sub q payment t caller = None
  <-> OracleService.active service = true
      /\ Subscription.active sub = true
      /\ t <= Subscription.end_time sub
      /\ Subscription.service_id sub = OracleService.id service
      /\ caller = Subscription.subscriber sub
      /\ OracleService.price_per_query service <= coin.value payment
      /\ oracle_core.OracleQuery.resolved q = true.
Proof.
  split.
  - intros H. apply first_failed_check_None in H
      as (H1 & H2 & H3 & H4 & H5 & H6 & H7).
    apply N.leb_le in H3, H6. apply bool_decide_eq_true_1 in H4, H5. auto 10.
  - intros (H1 & H2 & H3 & H4 & H5 & H6 & H7).
    unfold first_failed_check.
    apply N.ltb_ge in H3, H6.
    rewrite H1, H2, H3, H6, H7,
      (bool_decide_eq_true_2 _ H4), (bool_decide_eq_true_2 _ H5).
    reflexivity.
Qed.

Tactic Notation "msimp" :=
  cbn [view update fst snd compose caller_of
       Settlement.service Settlement.payment Settlement.treasury
       Settlement.host Settlement.service_ Settlement.treasury_
       Settlement.host_ Settlement.ctx_ Settlement.effects_
       Settlement.payment_ctx_
       Host.ctx Host.effects Host.ctx_ Host.effects_
       coin.value coin.balance coin.id balance.value
       OracleService.total_queries OracleService.successful_queries
       OracleService.set_total_queries OracleService.set_successful_queries
       OracleService.price_per_query OracleService.provider OracleService.id
       OracleService.active
       MarketplaceTreasury.id MarketplaceTreasury.platform_balance
       MarketplaceTreasury.admin get_platform_balance].
Tactic Notation "msimp" "in" hyp(H) :=
  cbn [view update fst snd compose caller_of
       Settlement.service Settlement.payment Settlement.treasury
       Settlement.host Settlement.service_ Settlement.treasury_
       Settlement.host_ Settlement.ctx_ Settlement.effects_
       Settlement.payment_ctx_
       Host.ctx Host.effects Host.ctx_ Host.effects_
       coin.value coin.balance coin.id balance.value
       OracleService.total_queries OracleService.successful_queries
       OracleService.set_total_queries OracleService.set_successful_queries
       OracleService.price_per_query OracleService.provider OracleService.id
       OracleService.active
       MarketplaceTreasury.id MarketplaceTreasury.platform_balance
       MarketplaceTreasury.admin get_platform_balance] in H.

(** A failed check aborts with its code, and nothing has been written. *)
Lemma query_oracle_sync_checks sub q clk st code :
  first_failed_check (Settlement.service st) sub q (Settlement.payment st)
    (clock.timestamp_ms clk) (caller_of st) = Some code ->
  query_oracle_sync sub q clk st
  = (Aborted (MoveAbort mod_oracle_marketplace code), st).
Proof.
  unfold first_failed_check, query_oracle_sync,
    oracle_marketplace.assert_here, oracle_core.is_resolved, caller_of.
  intros H. rewrite !N.ltb_antisym in H.
  repeat mstep.
  cbn [view Settlement.ctx_ compose Settlement.host_ Host.ctx_] in *.
  repeat match type of H with
  | context [negb ?c] => destruct c; cbn [negb orb] in H
  end; congruence.
Qed.

(** Past the checks the settlement returns unless a [u64] overflows. *)
Lemma query_oracle_sync_after_checks sub q clk st :
  first_failed_check (Settlement.service st) sub q (Settlement.payment st)
    (clock.timestamp_ms clk) (caller_of st) = None ->
  if no_overflow st
  then query_oracle_sync sub q clk st
       = (Ok (result_view q clk), settle sub q clk st)
  else exists m st',
       query_oracle_sync sub q clk st = (Aborted (ArithmeticError m), st').
Proof.
  intros Hchk.
  apply first_failed_check_None in Hchk
    as (H1 & H2 & H3 & H4 & H5 & H6 & H7).
  unfold query_oracle_sync, oracle_marketplace.assert_here,
    oracle_core.is_resolved, no_overflow.
  destruct st as [service payment treasury [ctx effects]].
  unfold caller_of in H5.
  msimp. msimp in H1. msimp in H4. msimp in H5. msimp in H6.
  mstep. mstep. msimp. rewrite H1.
  mstep. rewrite H2. mstep. rewrite H3. mstep. rewrite H4.
  mstep. mstep. msimp.
  rewrite H5. mstep. mstep. msimp. rewrite H6. mstep. rewrite H7.
  mstep. msimp. rewrite coin_split_eq.
  rewrite H6.
  rewrite bind_run, fee_distribution_eq.
  destruct (OracleService.price_per_query service * PLATFORM_FEE_BPS
            <=? MAX_U64) eqn:Hmul; cbn [andb]; [|eauto].
  cbn [fst].
  rewrite bind_with_local, coin_split_eq. msimp.
  pose proof (platform_fee_le (OracleService.price_per_query service))
    as Hle.
  apply N.leb_le in Hle. rewrite Hle. msimp.
  mstep. msimp. rewrite deposit_platform_fee_eq. msimp.
  destruct (get_platform_balance treasury
            + OracleService.price_per_query service * PLATFORM_FEE_BPS
              / 10000
            <=? MAX_U64) eqn:Htre; cbn [andb]; [|eauto].
  unfold transfer.public_transfer.
  mstep. msimp. mstep. msimp. mstep.
  destruct (OracleService.total_queries service + 1 <=? MAX_U64) eqn:Htot;
    cbn [andb]; [|eauto].
  mstep. msimp. mstep. msimp. mstep.
  destruct (OracleService.successful_queries service + 1 <=? MAX_U64)
    eqn:Hsuc; cbn [andb]; [|eauto].
  mstep. msimp. mstep. msimp. mstep. mstep. msimp.
  unfold result_view, settle, oracle_core.get_result,
    oracle_core.get_result_hash.
  msimp.
  destruct (oracle_core.OracleQuery.result q),
           (oracle_core.OracleQuery.result_hash q); reflexivity.
Qed.

(** Past the checks, a price whose product with [PLATFORM_FEE_BPS] does
    not fit in a [u64] stops the settlement at the multiplication. *)
Lemma query_oracle_sync_fee_overflow sub q clk st :
  first_failed_check (Settlement.service st) sub q (Settlement.payment st)
    (clock.timestamp_ms clk) (caller_of st) = None ->
  MAX_U64
    < OracleService.price_per_query (Settlement.service st)
      * PLATFORM_FEE_BPS ->
  exists st',
    query_oracle_sync sub q clk st
    = (Aborted (ArithmeticError mod_oracle_marketplace), st').
Proof.
  intros Hchk Hover.
  apply first_failed_check_None in Hchk
    as (H1 & H2 & H3 & H4 & H5 & H6 & H7).
  unfold query_oracle_sync, oracle_marketplace.assert_here,
    oracle_core.is_resolved.
  destruct st as [service payment treasury [ctx effects]].
  unfold caller_of in H5.
  msimp. msimp in H1. msimp in H4. msimp in H5. msimp in H6.
  msimp in Hover.
  mstep. mstep. msimp. rewrite H1.
  mstep. rewrite H2. mstep. rewrite H3. mstep. rewrite H4.
  mstep. mstep. msimp.
  rewrite H5. mstep. mstep. msimp. rewrite H6. mstep. rewrite H7.
  mstep. msimp. rewrite coin_split_eq.
  rewrite H6.
  rewrite bind_run, fee_distribution_eq.
  apply N.leb_gt in Hover. rewrite Hover. eauto.
Qed.

(** A settlement that returns passed every check without overflow, and
    its answer and final state are the closed forms. *)
Lemma query_oracle_sync_ok sub q clk st r st' :
  query_oracle_sync sub q clk st = (Ok r, st') ->
  first_failed_check (Settlement.service st) sub q (Settlement.payment st)
    (clock.timestamp_ms clk) (caller_of st) = None
  /\ no_overflow st = true
  /\ r = result_view q clk
  /\ st' = settle sub q clk st.
Proof.
  intros Hrun.
  destruct (first_failed_check (Settlement.service st) sub q
              (Settlement.payment st) (clock.timestamp_ms clk)
              (caller_of st)) as [code|] eqn:Hchk.
  - rewrite (query_oracle_sync_checks _ _ _ _ _ Hchk) in Hrun.
    discriminate.
  - pose proof (query_oracle_sync_after_checks sub q clk st Hchk) as H.
    destruct (no_overflow st).
    + rewrite H in Hrun. injection Hrun as <- <-. auto.
    + destruct H as (m & st'' & H). rewrite H in Hrun. discriminate.
Qed.

Lemma query_oracle_sync_succeeds sub q clk st :
  first_failed_check (Settlement.service st) sub q (Settlement.payment st)
    (clock.timestamp_ms clk) (caller_of st) = None ->
  no_overflow st = true ->
  query_oracle_sync sub q clk st
  = (Ok (result_view q clk), settle sub q clk st).
Proof.
  intros Hchk Hno.
  pose proof (query_oracle_sync_after_checks sub q clk st Hchk) as H.
  rewrite Hno in H. exact H.
Qed.
End Settlement.

Section SettlementClaims.
Import marketplace_treasury oracle_marketplace spec.

(** C1.  Every call of [query_oracle_sync] that returns has removed
    exactly [service.price_per_query] from the payment coin (the rest
    stays in the caller's coin), has added the platform share
    [fee * 300 / 10000] to the treasury's platform balance, has
    transferred a coin holding the provider share [fee - platform_fee]
    to [service.provider], and has transferred to the subscriber a
    [QueryRecord] with requester = subscriber, payment = fee,
    query_time = the clock's time and success = true; these two
    transfers are the only ones it makes. *)
Theorem query_oracle_sync_moves_funds sub q clk st r st' :
  query_oracle_sync sub q clk st = (Ok r, st') ->
  let service := Settlement.service st in
  let fee := OracleService.price_per_query service in
  let platform_fee := fee * PLATFORM_FEE_BPS / 10000 in
  let provider_fee := fee - platform_fee in
  coin.value (Settlement.payment st') + fee
    = coin.value (Settlement.payment st)
  /\ coin.id (Settlement.payment st') = coin.id (Settlement.payment st)
  /\ get_platform_balance (Settlement.treasury st')
     = get_platform_balance (Settlement.treasury st) + platform_fee
  /\ platform_fee + provider_fee = fee
  /\ exists coin_id record_id,
       Host.effects (Settlement.host st')
       = Host.effects (Settlement.host st)
         ++ [Transfer
               (CoinObject
                  (coin.mkCoin coin_id (balance.mkBalance provider_fee)))
               (OracleService.provider service);
             Transfer
               (QueryRecordObject
                  (QueryRecord.mk record_id (oracle_core.get_query_id q)
                     (OracleService.id service)
                     (Subscription.subscriber sub)
                     fee (clock.timestamp_ms clk) true))
               (Subscription.subscriber sub)].
Proof.
  intros Hrun service fee platform_fee provider_fee.
  apply query_oracle_sync_ok in Hrun as (Hchk & _ & _ & ->).
  apply first_failed_check_None in Hchk as (_ & _ & _ & _ & _ & Hpay & _).
  apply N.leb_le in Hpay.
  pose proof (platform_fee_le fee) as Hle.
  unfold settle. cbn [Settlement.payment Settlement.treasury
    Settlement.host Host.effects coin.value coin.balance coin.id
    balance.value get_platform_balance
    MarketplaceTreasury.platform_balance].
  subst provider_fee platform_fee fee service. unfold coin.value in *.
  repeat split.
  - lia.
  - lia.
  - eexists _, _. rewrite <- app_assoc. reflexivity.
Qed.

Lemma query_oracle_sync_moves_funds_witness :
  let st := scenario.settlement scenario.service 1500 scenario.subscriber in
  let st' := snd (query_oracle_sync scenario.subscription scenario.query
                    (clock.mkClock 6000) st) in
  coin.value (Settlement.payment st') + 1000 = 1500
  /\ get_platform_balance (Settlement.treasury st') = 0 + 30
  /\ exists coin_id record_id,
       Host.effects (Settlement.host st')
       = [] ++
         [Transfer
            (CoinObject (coin.mkCoin coin_id (balance.mkBalance 970)))
            scenario.provider;
          Transfer
            (QueryRecordObject
               (QueryRecord.mk record_id (scenario.text [x71; x31]) (9, 0)
                  scenario.subscriber 1000 6000 true))
            scenario.subscriber].
Proof.
  intros st st'.
  destruct (query_oracle_sync_moves_funds scenario.subscription
              scenario.query (clock.mkClock 6000) st
              (result_view scenario.query (clock.mkClock 6000)) st')
    as (H1 & _ & H3 & _ & H5).
  - vm_compute. reflexivity.
  - split; [exact H1 | split; [exact H3 | exact H5]].
Defined.

(** C2 (amended).  The product [fee * 300] fits in a [u64] exactly when
    [fee <= 61,489,146,912,365,172].  For every such fee the split is
    [platform_fee = fee * 300 / 10000] (integer division, rounded down)
    and [provider_fee = fee - platform_fee], the two shares add up to the
    fee, and the rounding remainder stays in the provider's share.  For a
    larger fee the product overflows and the computation aborts with an
    arithmetic error without producing a split: no settlement against a
    service with such a price returns, and one that passes the six checks
    aborts with the arithmetic error of this module. *)
Theorem fee_distribution_split {S} (fee : N) (s : S) :
  (fee * 300 <= MAX_U64 <-> fee <= 61489146912365172)
  /\ (fee <= 61489146912365172 ->
      let platform_fee := fee * 300 / 10000 in
      let provider_fee := fee - platform_fee in
      fee_distribution fee s = (Ok (platform_fee, provider_fee), s)
      /\ platform_fee + provider_fee = fee
      /\ 10000 * platform_fee <= fee * 300 < 10000 * (platform_fee + 1)
      /\ fee * 9700 <= 10000 * provider_fee)
  /\ (61489146912365172 < fee ->
      fee_distribution fee s
      = (Aborted (ArithmeticError mod_oracle_marketplace), s))
  /\ (forall sub q clk st,
        OracleService.price_per_query (Settlement.service st) = fee ->
        61489146912365172 < fee ->
        (forall r st', query_oracle_sync sub q clk st <> (Ok r, st'))
        /\ (OracleService.active (Settlement.service st) = true ->
            Subscription.active sub = true ->
            clock.timestamp_ms clk <= Subscription.end_time sub ->
            Subscription.service_id sub
            = OracleService.id (Settlement.service st) ->
            caller_of st = Subscription.subscriber sub ->
            fee <= coin.value (Settlement.payment st) ->
            oracle_core.OracleQuery.resolved q = true ->
            exists st',
              query_oracle_sync sub q clk st
              = (Aborted (ArithmeticError mod_oracle_marketplace), st'))).
Proof.
  assert (Hbound : fee * 300 <= MAX_U64 <-> fee <= 61489146912365172)
    by (unfold MAX_U64; lia).
  split; [exact Hbound|]. split; [|split].
  - intros Hfit platform_fee provider_fee.
    apply Hbound in Hfit.
    rewrite fee_distribution_eq. unfold PLATFORM_FEE_BPS.
    apply N.leb_le in Hfit. rewrite Hfit.
    pose proof (platform_fee_le fee) as Hle.
    unfold PLATFORM_FEE_BPS in Hle. fold platform_fee in Hle.
    assert (Hfloor : 10000 * platform_fee <= fee * 300
                     < 10000 * (platform_fee + 1)).
    { subst platform_fee.
      pose proof (N.Div0.mul_div_le (fee * 300) 10000).
      pose proof (N.mul_succ_div_gt (fee * 300) 10000 ltac:(lia)).
      lia. }
    repeat split; subst provider_fee; lia.
  - intros Hover. rewrite fee_distribution_eq. unfold PLATFORM_FEE_BPS.
    assert (Hgt : MAX_U64 < fee * 300) by (unfold MAX_U64; lia).
    apply N.leb_gt in Hgt. rewrite Hgt. reflexivity.
  - intros sub q clk st Hprice Hover.
    assert (Hgt : MAX_U64
                  < OracleService.price_per_query (Settlement.service st)
                    * PLATFORM_FEE_BPS)
      by (rewrite Hprice; unfold MAX_U64, PLATFORM_FEE_BPS; lia).
    split.
    + intros r st' Hrun.
      apply query_oracle_sync_ok in Hrun as (_ & Hno & _).
      unfold no_overflow in Hno.
      rewrite !andb_true_iff, !N.leb_le in Hno. lia.
    + intros H1 H2 H3 H4 H5 H6 H7.
      apply query_oracle_sync_fee_overflow; [|exact Hgt].
      apply first_failed_check_None_iff. rewrite Hprice. auto 10.
Qed.

Lemma fee_distribution_split_witness :
  fee_distribution 1000000 tt = (Ok (30000, 970000), tt)
  /\ fee_distribution 61489146912365172 tt
     = (Ok (1844674407370955, 59644472504994217), tt)
  /\ fee_distribution 61489146912365173 tt
     = (Aborted (ArithmeticError mod_oracle_marketplace), tt)
  /\ (exists st',
        query_oracle_sync scenario.subscription scenario.query
          (clock.mkClock 6000)
          (scenario.settlement
             (OracleService.set_price_per_query 61489146912365173
                scenario.service)
             61489146912365173 scenario.subscriber)
        = (Aborted (ArithmeticError mod_oracle_marketplace), st')).
Proof.
  destruct (fee_distribution_split 1000000 tt) as (_ & Hfit & _).
  destruct (fee_distribution_split 61489146912365172 tt) as (_ & Hlast & _).
  destruct (fee_distribution_split 61489146912365173 tt)
    as (_ & _ & Hover & Hsettle).
  split; [|split; [|split]].
  - apply Hfit. vm_compute. discriminate.
  - apply Hlast. vm_compute. discriminate.
  - apply Hover. vm_compute. reflexivity.
  - apply (Hsettle scenario.subscription scenario.query (clock.mkClock 6000)
             (scenario.settlement
                (OracleService.set_price_per_query 61489146912365173
                   scenario.service)
                61489146912365173 scenario.subscriber));
      vm_compute; try reflexivity; discriminate.
Defined.

(** C2 as stated fails: a service priced at 10^17 subunits can be
    created, and a settlement against it with a sufficient payment, a
    valid subscription and a resolved query aborts with an arithmetic
    error instead of splitting the fee. *)
Lemma fee_distribution_overflow_counterexample :
  let fee := 100000000000000000 in
  let service :=
    OracleService.set_price_per_query fee scenario.service in
  fee <= MAX_U64
  /\ succeeds (update_price_entry fee (scenario.ctx_of scenario.provider))
              scenario.service = true
  /\ fst (fee_distribution fee tt)
     = Aborted (ArithmeticError mod_oracle_marketplace)
  /\ fst (query_oracle_sync scenario.subscription scenario.query
            (clock.mkClock 6000)
            (scenario.settlement service fee scenario.subscriber))
     = Aborted (ArithmeticError mod_oracle_marketplace).
Proof. vm_compute. repeat split; discriminate. Qed.
End SettlementClaims.

Section CheckOrder.
Import marketplace_treasury oracle_marketplace spec.

Local Abbreviation aborts_with code st run :=
  (run = (Aborted (MoveAbort mod_oracle_marketplace code), st)).

(** C3.  [query_oracle_sync] makes its six checks in this order, each
    reached only when the earlier ones passed: the service is active
    (else [E_SERVICE_INACTIVE]); the subscription is active and the
    clock is not past its end (else [E_SUBSCRIPTION_EXPIRED]); the
    subscription is for this service (else [E_SUBSCRIPTION_NOT_MATCH]);
    the caller is the subscriber (else [E_SUBSCRIPTION_EXPIRED] again);
    the payment covers the price (else [E_INSUFFICIENT_PAYMENT]); the
    query is resolved (else [E_QUERY_NOT_RESOLVED]).  At each of these
    aborts the service, the payment coin, the treasury, the context and
    the transfer log are exactly as they were at the call. *)
Theorem query_oracle_sync_check_order sub q clk st :
  let service := Settlement.service st in
  let now := clock.timestamp_ms clk in
  let run := query_oracle_sync sub q clk st in
  (OracleService.active service = false ->
   aborts_with E_SERVICE_INACTIVE st run)
  /\ (OracleService.active service = true ->
      Subscription.active sub = false \/ Subscription.end_time sub < now ->
      aborts_with E_SUBSCRIPTION_EXPIRED st run)
  /\ (OracleService.active service = true ->
      Subscription.active sub = true -> now <= Subscription.end_time sub ->
      Subscription.service_id sub <> OracleService.id service ->
      aborts_with E_SUBSCRIPTION_NOT_MATCH st run)
  /\ (OracleService.active service = true ->
      Subscription.active sub = true -> now <= Subscription.end_time sub ->
      Subscription.service_id sub = OracleService.id service ->
      caller_of st <> Subscription.subscriber sub ->
      aborts_with E_SUBSCRIPTION_EXPIRED st run)
  /\ (OracleService.active service = true ->
      Subscription.active sub = true -> now <= Subscription.end_time sub ->
      Subscription.service_id sub = OracleService.id service ->
      caller_of st = Subscription.subscriber sub ->
      coin.value (Settlement.payment st)
        < OracleService.price_per_query service ->
      aborts_with E_INSUFFICIENT_PAYMENT st run)
  /\ (OracleService.active service = true ->
      Subscription.active sub = true -> now <= Subscription.end_time sub ->
      Subscription.service_id sub = OracleService.id service ->
      caller_of st = Subscription.subscriber sub ->
      OracleService.price_per_query service
        <= coin.value (Settlement.payment st) ->
      oracle_core.OracleQuery.resolved q = false ->
      aborts_with E_QUERY_NOT_RESOLVED st run).
Proof.
  intros service now run. subst service now run.
  repeat split; intros;
    apply query_oracle_sync_checks; unfold first_failed_check;
    repeat match goal with
    | H : _ = true |- _ => rewrite H; clear H
    | H : _ = false |- _ => rewrite H; clear H
    | H : _ <= _ |- _ => apply N.ltb_ge in H; rewrite H; clear H
    | H : _ < _ |- _ => apply N.ltb_lt in H; rewrite H; clear H
    | H : _ = _ |- _ => rewrite (bool_decide_eq_true_2 _ H); clear H
    | H : _ <> _ |- _ => rewrite (bool_decide_eq_false_2 _ H); clear H
    | H : _ \/ _ |- _ => destruct H
    end; cbn [negb orb]; try reflexivity.
  destruct (Subscription.active sub); reflexivity.
Qed.

Lemma query_oracle_sync_check_order_witness :
  let clk := clock.mkClock 6000 in
  let paused := OracleService.set_active false scenario.service in
  fst (query_oracle_sync scenario.subscription scenario.query clk
         (scenario.settlement paused 1000 scenario.subscriber))
    = Aborted (MoveAbort mod_oracle_marketplace E_SERVICE_INACTIVE)
  /\ fst (query_oracle_sync scenario.subscription scenario.query
            (clock.mkClock 2592005001)
            (scenario.settlement scenario.service 1000 scenario.subscriber))
     = Aborted (MoveAbort mod_oracle_marketplace E_SUBSCRIPTION_EXPIRED)
  /\ fst (query_oracle_sync scenario.subscription scenario.query clk
            (scenario.settlement scenario.service 1000 scenario.stranger))
     = Aborted (MoveAbort mod_oracle_marketplace E_SUBSCRIPTION_EXPIRED)
  /\ fst (query_oracle_sync scenario.subscription scenario.query clk
            (scenario.settlement scenario.service 999 scenario.subscriber))
     = Aborted (MoveAbort mod_oracle_marketplace E_INSUFFICIENT_PAYMENT)
  /\ query_oracle_sync scenario.subscription scenario.open_query clk
       (scenario.settlement scenario.service 1000 scenario.subscriber)
     = (Aborted (MoveAbort mod_oracle_marketplace E_QUERY_NOT_RESOLVED),
        scenario.settlement scenario.service 1000 scenario.subscriber).
Proof.
  intros clk paused. split; [|split; [|split; [|split]]].
  - destruct (query_oracle_sync_check_order scenario.subscription
                scenario.query clk
                (scenario.settlement paused 1000 scenario.subscriber))
      as (H & _).
    rewrite H; reflexivity.
  - destruct (query_oracle_sync_check_order scenario.subscription
                scenario.query (clock.mkClock 2592005001)
                (scenario.settlement scenario.service 1000
                   scenario.subscriber))
      as (_ & H & _).
    rewrite H; [reflexivity | reflexivity | right; reflexivity].
  - destruct (query_oracle_sync_check_order scenario.subscription
                scenario.query clk
                (scenario.settlement scenario.service 1000
                   scenario.stranger))
      as (_ & _ & _ & H & _).
    rewrite H; try reflexivity; vm_compute; discriminate.
  - destruct (query_oracle_sync_check_order scenario.subscription
                scenario.query clk
                (scenario.settlement scenario.service 999
                   scenario.subscriber))
      as (_ & _ & _ & _ & H & _).
    rewrite H; try reflexivity; vm_compute; discriminate.
  - destruct (query_oracle_sync_check_order scenario.subscription
                scenario.open_query clk
                (scenario.settlement scenario.service 1000
                   scenario.subscriber))
      as (_ & _ & _ & _ & _ & H).
    apply H; try reflexivity; vm_compute; discriminate.
Defined.
End CheckOrder.

(** ** Subscriptions *)

Section Subscriptions.
Import marketplace_treasury oracle_marketplace spec.

Lemma create_subscription_eq service ctx :
  create_subscription service ctx
  = if OracleService.active service then
      if tx_context.epoch_timestamp_ms ctx + DEFAULT_SUBSCRIPTION_DURATION
         <=? MAX_U64
      then (Ok (Subscription.mk (fresh ctx) (tx_context.sender ctx)
                  (OracleService.id service)
                  (tx_context.epoch_timestamp_ms ctx)
                  (tx_context.epoch_timestamp_ms ctx
                   + DEFAULT_SUBSCRIPTION_DURATION)
                  true (tx_context.epoch_timestamp_ms ctx)),
            bump ctx)
      else (Aborted (ArithmeticError mod_oracle_marketplace), ctx)
    else (Aborted (MoveAbort mod_oracle_marketplace E_SERVICE_INACTIVE),
          ctx).
Proof.
  unfold create_subscription, oracle_marketplace.assert_here.
  mstep. destruct (OracleService.active service); [|reflexivity].
  mstep. mstep.
  destruct (_ + _ <=? MAX_U64); reflexivity.
Qed.

Lemma is_subscription_valid_iff sub now :
  is_subscription_valid sub now = true
  <-> Subscription.active sub = true /\ now <= Subscription.end_time sub.
Proof.
  unfold is_subscription_valid.
  rewrite andb_true_iff, N.leb_le. reflexivity.
Qed.

(** C4 (amended).  A subscription created at time [T] (the epoch
    timestamp of the creating transaction) has [start_time = T],
    [end_time = T + 2,592,000,000] and [active = true].  It is valid at
    [current_time] if and only if [active] and
    [current_time <= T + 2,592,000,000]: the start of the window is not
    checked, so it is valid at every time before [T] as well.  At
    [T + 2,592,000,001] [is_subscription_valid] is false and a settlement
    against an active service aborts with [E_SUBSCRIPTION_EXPIRED],
    leaving everything untouched. *)
Theorem subscription_window service ctx sub ctx' :
  create_subscription service ctx = (Ok sub, ctx') ->
  let T := tx_context.epoch_timestamp_ms ctx in
  Subscription.start_time sub = T
  /\ Subscription.end_time sub = T + 2592000000
  /\ Subscription.active sub = true
  /\ (forall now,
        is_subscription_valid sub now = true <-> now <= T + 2592000000)
  /\ (forall flag now,
        is_subscription_valid
          (Subscription.mk (Subscription.id sub)
             (Subscription.subscriber sub) (Subscription.service_id sub)
             (Subscription.start_time sub) (Subscription.end_time sub)
             flag (Subscription.created_at sub)) now = true
        <-> flag = true /\ now <= T + 2592000000)
  /\ (forall now, now < T -> is_subscription_valid sub now = true)
  /\ is_subscription_valid sub (T + 2592000001) = false
  /\ (forall q clk st,
        OracleService.active (Settlement.service st) = true ->
        clock.timestamp_ms clk = T + 2592000001 ->
        query_oracle_sync sub q clk st
        = (Aborted (MoveAbort mod_oracle_marketplace
                      E_SUBSCRIPTION_EXPIRED), st)).
Proof.
  rewrite create_subscription_eq.
  destruct (OracleService.active service); [|discriminate].
  destruct (_ + _ <=? MAX_U64); [|discriminate].
  intros [= <- <-] T. subst T.
  change DEFAULT_SUBSCRIPTION_DURATION with 2592000000.
  cbn [Subscription.start_time Subscription.end_time Subscription.active].
  split; [reflexivity|]. split; [reflexivity|]. split; [reflexivity|].
  split; [|split; [|split; [|split]]].
  - intros now. rewrite is_subscription_valid_iff. cbn. intuition.
  - intros flag now. rewrite is_subscription_valid_iff. cbn. reflexivity.
  - intros now Hnow. apply is_subscription_valid_iff. cbn. split; [done|lia].
  - apply not_true_is_false. rewrite is_subscription_valid_iff. cbn. lia.
  - intros q clk st Hactive Hclk.
    apply query_oracle_sync_checks. unfold first_failed_check.
    rewrite Hactive, Hclk. cbn [negb Subscription.active Subscription.end_time].
    assert (H : (tx_context.epoch_timestamp_ms ctx + 2592000000
                 <? tx_context.epoch_timestamp_ms ctx + 2592000001) = true)
      by (apply N.ltb_lt; lia).
    rewrite H. reflexivity.
Qed.

Lemma subscription_window_witness :
  let sub := Subscription.mk (77, 0) scenario.subscriber (9, 0)
               5000 2592005000 true 5000 in
  is_subscription_valid sub 2592005000 = true
  /\ is_subscription_valid sub 2592005001 = false
  /\ fst (query_oracle_sync sub scenario.query (clock.mkClock 2592005001)
            (scenario.settlement scenario.service 1000 scenario.subscriber))
     = Aborted (MoveAbort mod_oracle_marketplace E_SUBSCRIPTION_EXPIRED).
Proof.
  intros sub.
  destruct (subscription_window scenario.service
              (scenario.ctx_of scenario.subscriber) sub
              (bump (scenario.ctx_of scenario.subscriber)))
    as (_ & _ & _ & Hiff & _ & _ & Hpast & Hsettle).
  - vm_compute. reflexivity.
  - split; [|split].
    + apply Hiff. vm_compute. discriminate.
    + exact Hpast.
    + rewrite Hsettle; reflexivity.
Defined.

(** C4 as stated fails: the subscription created at [T = 5000] is valid
    at time 4999, before its start. *)
Lemma subscription_window_counterexample :
  exists sub ctx',
    create_subscription scenario.service
      (scenario.ctx_of scenario.subscriber) = (Ok sub, ctx')
    /\ Subscription.start_time sub = 5000
    /\ 4999 < Subscription.start_time sub
    /\ is_subscription_valid sub 4999 = true.
Proof. eexists _, _. vm_compute. repeat split. Qed.
End Subscriptions.

(** ** Strings and URLs in a sequence of statements *)

Section Payloads.
Context {S B : Type}.

Lemma bind_utf8 bs (k : String -> M S B) (s : S) :
  bind (string.utf8 bs) k s
  = if string.internal_check_utf8 bs then k (string.mkString bs) s
    else (Aborted (MoveAbort mod_string string.EInvalidUTF8), s).
Proof.
  unfold string.utf8, assert_.
  destruct (string.internal_check_utf8 bs); reflexivity.
Qed.

Lemma bind_new_unsafe_from_bytes bs (k : Url -> M S B) (s : S) :
  bind (url.new_unsafe_from_bytes bs) k s
  = if forallb url.is_valid_char bs then k (url.mkUrl bs) s
    else (Aborted (MoveAbort mod_ascii url.EInvalidASCIICharacter), s).
Proof.
  unfold url.new_unsafe_from_bytes, assert_.
  destruct (forallb url.is_valid_char bs); reflexivity.
Qed.
End Payloads.

Ltac mstep' :=
  first [ mstep | rewrite bind_utf8 | rewrite bind_new_unsafe_from_bytes ];
  cbv beta.

(** ** Service management *)

Section ServiceManagement.
Import marketplace_treasury oracle_marketplace spec.

Local Abbreviation not_provider :=
  (Aborted (MoveAbort mod_oracle_marketplace E_NOT_PROVIDER)).

Lemma update_price_entry_eq new_price ctx s :
  update_price_entry new_price ctx s
  = if bool_decide (tx_context.sender ctx = OracleService.provider s) then
      if 0 <? new_price
      then (Ok tt, OracleService.set_price_per_query new_price s)
      else (Aborted (MoveAbort mod_oracle_marketplace E_INVALID_PRICE), s)
    else (not_provider, s).
Proof.
  unfold update_price_entry, oracle_marketplace.assert_here.
  repeat mstep.
  destruct (bool_decide _), (0 <? new_price); reflexivity.
Qed.

Lemma set_active_entry_eq active ctx s :
  set_active_entry active ctx s
  = if bool_decide (tx_context.sender ctx = OracleService.provider s)
    then (Ok tt, OracleService.set_active active s)
    else (not_provider, s).
Proof.
  unfold set_active_entry, oracle_marketplace.assert_here.
  repeat mstep. destruct (bool_decide _); reflexivity.
Qed.

Lemma update_config_id_entry_eq config_id ctx s :
  update_config_id_entry config_id ctx s
  = if bool_decide (tx_context.sender ctx = OracleService.provider s) then
      if string.internal_check_utf8 config_id
      then (Ok tt,
            OracleService.set_config_id
              (Some (string.mkString config_id)) s)
      else (Aborted (MoveAbort mod_string string.EInvalidUTF8), s)
    else (not_provider, s).
Proof.
  unfold update_config_id_entry, oracle_marketplace.assert_here.
  repeat mstep'.
  destruct (bool_decide _), (string.internal_check_utf8 config_id);
    reflexivity.
Qed.

Lemma update_documentation_url_entry_eq documentation_url ctx s :
  update_documentation_url_entry documentation_url ctx s
  = if bool_decide (tx_context.sender ctx = OracleService.provider s) then
      if forallb url.is_valid_char documentation_url
      then (Ok tt,
            OracleService.set_documentation_url
              (Some (url.mkUrl documentation_url)) s)
      else (Aborted (MoveAbort mod_ascii url.EInvalidASCIICharacter), s)
    else (not_provider, s).
Proof.
  unfold update_documentation_url_entry, oracle_marketplace.assert_here.
  repeat mstep'.
  destruct (bool_decide _),
    (forallb url.is_valid_char documentation_url); reflexivity.
Qed.

(** The provider check of [withdraw_collateral_entry] comes before the
    pool is touched. *)
Lemma withdraw_collateral_entry_not_provider service amount recipient st :
  tx_context.sender (Host.ctx (snd st)) <> OracleService.provider service ->
  withdraw_collateral_entry service amount recipient st
  = (not_provider, st).
Proof.
  intros Hne. unfold withdraw_collateral_entry,
    oracle_marketplace.assert_here.
  repeat mstep. rewrite (bool_decide_eq_false_2 _ Hne). reflexivity.
Qed.

(** [withdraw_collateral_entry] in closed form: the provider check, then
    the pool's own outcome, then the transfer of the coin. *)
Lemma withdraw_collateral_entry_eq service amount recipient pool h :
  withdraw_collateral_entry service amount recipient (pool, h)
  = if bool_decide (tx_context.sender (Host.ctx h)
                    = OracleService.provider service) then
      match withdraw_collateral (OracleService.id service)
              (OracleService.provider service) amount (pool, Host.ctx h) with
      | (Ok coin, (pool', ctx')) =>
        (Ok tt,
         (pool',
          Host.mk ctx'
            (Host.effects h ++ [Transfer (CoinObject coin) recipient])))
      | (Aborted e, (pool', ctx')) =>
        (Aborted e, (pool', Host.mk ctx' (Host.effects h)))
      end
    else (Aborted (MoveAbort mod_oracle_marketplace E_NOT_PROVIDER),
          (pool, h)).
Proof.
  unfold withdraw_collateral_entry, oracle_marketplace.assert_here.
  mstep. mstep. cbn [snd].
  destruct (bool_decide _); [|reflexivity].
  rewrite bind_zoom. cbn [view with_ctx fst snd].
  destruct (withdraw_collateral _ _ _ _) as [[coin|e] [pool' ctx']];
    reflexivity.
Qed.

(** What the two creation paths do before they build the service. *)
Lemma create_service_simple_guards
    name service_type description price collateral h :
  (price = 0 ->
   create_service_simple name service_type description price collateral h
   = (Aborted (MoveAbort mod_oracle_marketplace E_INVALID_PRICE), h))
  /\ (0 < price -> coin.value collateral < MIN_COLLATERAL ->
      create_service_simple name service_type description price
        collateral h
      = (Aborted (MoveAbort mod_oracle_marketplace
                    E_INSUFFICIENT_COLLATERAL), h)).
Proof.
  unfold create_service_simple, oracle_marketplace.assert_here.
  split.
  - intros ->. reflexivity.
  - intros Hp Hc. apply N.ltb_lt in Hp. apply N.leb_gt in Hc.
    mstep. rewrite Hp. mstep. rewrite Hc. reflexivity.
Qed.

Lemma create_service_with_pool_guards
    name service_type description price collateral config_id doc st :
  (price = 0 ->
   create_service_with_pool name service_type description price collateral
     config_id doc st
   = (Aborted (MoveAbort mod_oracle_marketplace E_INVALID_PRICE), st))
  /\ (0 < price -> coin.value collateral < MIN_COLLATERAL ->
      create_service_with_pool name service_type description price
        collateral config_id doc st
      = (Aborted (MoveAbort mod_oracle_marketplace
                    E_INSUFFICIENT_COLLATERAL), st)).
Proof.
  unfold create_service_with_pool, oracle_marketplace.assert_here.
  split.
  - intros ->. reflexivity.
  - intros Hp Hc. apply N.ltb_lt in Hp. apply N.leb_gt in Hc.
    mstep. rewrite Hp. mstep. rewrite Hc. reflexivity.
Qed.

(** The service either path builds when it returns. *)
Lemma create_service_simple_ok
    name service_type description price collateral h h' :
  create_service_simple name service_type description price collateral h
  = (Ok tt, h') ->
  0 < price /\ MIN_COLLATERAL <= coin.value collateral
  /\ Host.ctx h' = bump (Host.ctx h)
  /\ Host.effects h'
     = Host.effects h
       ++ [Transfer (CoinObject collateral) (tx_context.sender (Host.ctx h));
           Share
             (ServiceObject
                (OracleService.mk (fresh (Host.ctx h))
                   (tx_context.sender (Host.ctx h))
                   (string.mkString name) (string.mkString service_type)
                   (string.mkString description)
                   price (coin.value collateral) 0 0 None None true
                   (tx_context.epoch_timestamp_ms (Host.ctx h))))].
Proof.
  unfold create_service_simple, oracle_marketplace.assert_here,
    transfer.public_transfer, transfer.share_object.
  destruct h as [ctx effects].
  mstep. destruct (0 <? price) eqn:Hp; [|discriminate].
  mstep. destruct (MIN_COLLATERAL <=? _) eqn:Hc; [|discriminate].
  mstep. mstep. cbn [view update Host.ctx_ Host.ctx Host.effects].
  repeat (mstep'; match goal with
          | |- context [string.internal_check_utf8 ?b] =>
              destruct (string.internal_check_utf8 b); [|discriminate]
          end).
  mstep. cbn [view update Host.effects_ Host.ctx Host.effects].
  unfold zoom, modify. cbn [view update Host.effects_ Host.ctx Host.effects].
  intros [= <-]. cbn [Host.ctx Host.effects].
  apply N.ltb_lt in Hp. apply N.leb_le in Hc.
  rewrite <- app_assoc. auto.
Qed.

Lemma create_service_with_pool_ok
    name service_type description price collateral config_id doc
    st service st' :
  create_service_with_pool name service_type description price collateral
    config_id doc st = (Ok service, st') ->
  0 < price /\ MIN_COLLATERAL <= coin.value collateral
  /\ service
     = OracleService.mk (fresh (snd st)) (tx_context.sender (snd st))
         (string.mkString name) (string.mkString service_type)
         (string.mkString description)
         price (coin.value collateral) 0 0 config_id doc true
         (tx_context.epoch_timestamp_ms (snd st)).
Proof.
  unfold create_service_with_pool, oracle_marketplace.assert_here.
  destruct st as [pool ctx].
  mstep. destruct (0 <? price) eqn:Hp; [|discriminate].
  mstep. destruct (MIN_COLLATERAL <=? _) eqn:Hc; [|discriminate].
  mstep. mstep. cbn [view update snd_ fst snd].
  repeat (mstep'; match goal with
          | |- context [string.internal_check_utf8 ?b] =>
              destruct (string.internal_check_utf8 b); [|discriminate]
          end).
  mstep. match goal with
         | |- context [deposit_collateral ?i ?c ?p] =>
             destruct (deposit_collateral i c p) as [[[]|e] p']
         end; [|discriminate].
  cbv beta. unfold ret. intros [= <- <-].
  apply N.ltb_lt in Hp. apply N.leb_le in Hc. auto.
Qed.
End ServiceManagement.

Section ServiceCreationClaims.
Import marketplace_treasury oracle_marketplace spec.

(** C5 (amended).  On both creation paths: a call with
    [price_per_query <= 0] aborts with [E_INVALID_PRICE], and nothing has
    been created, transferred or shared; a call with a positive price and
    a collateral below 10,000,000 aborts with
    [E_INSUFFICIENT_COLLATERAL], again with nothing created (the price is
    checked first, so a call that violates both aborts with
    [E_INVALID_PRICE]); a call that returns has built a service with
    [active = true], [total_queries = 0] and [successful_queries = 0],
    which the simplified path shares after handing the collateral back
    to the caller. *)
Theorem service_creation_guards
    name service_type description (price : N) (collateral : Coin) :
  (forall h, price <= 0 ->
     create_service_simple name service_type description price collateral h
     = (Aborted (MoveAbort mod_oracle_marketplace E_INVALID_PRICE), h))
  /\ (forall h, 0 < price -> coin.value collateral < 10000000 ->
        create_service_simple name service_type description price
          collateral h
        = (Aborted (MoveAbort mod_oracle_marketplace
                      E_INSUFFICIENT_COLLATERAL), h))
  /\ (forall h h',
        create_service_simple name service_type description price
          collateral h = (Ok tt, h') ->
        exists service,
          Host.effects h'
          = Host.effects h
            ++ [Transfer (CoinObject collateral)
                  (tx_context.sender (Host.ctx h));
                Share (ServiceObject service)]
          /\ OracleService.active service = true
          /\ OracleService.total_queries service = 0
          /\ OracleService.successful_queries service = 0)
  /\ (forall config_id doc st, price <= 0 ->
        create_service_with_pool name service_type description price
          collateral config_id doc st
        = (Aborted (MoveAbort mod_oracle_marketplace E_INVALID_PRICE), st))
  /\ (forall config_id doc st,
        0 < price -> coin.value collateral < 10000000 ->
        create_service_with_pool name service_type description price
          collateral config_id doc st
        = (Aborted (MoveAbort mod_oracle_marketplace
                      E_INSUFFICIENT_COLLATERAL), st))
  /\ (forall config_id doc st service st',
        create_service_with_pool name service_type description price
          collateral config_id doc st = (Ok service, st') ->
        OracleService.active service = true
        /\ OracleService.total_queries service = 0
        /\ OracleService.successful_queries service = 0).
Proof.
  split; [|split; [|split; [|split; [|split]]]].
  - intros h Hp.
    apply (create_service_simple_guards name service_type description
             price collateral h). lia.
  - intros h Hp Hc.
    apply (create_service_simple_guards name service_type description
             price collateral h); assumption.
  - intros h h' Hrun.
    apply create_service_simple_ok in Hrun as (_ & _ & _ & ->).
    eexists. split; [reflexivity|]. repeat split.
  - intros config_id doc st Hp.
    apply (create_service_with_pool_guards name service_type description
             price collateral config_id doc st). lia.
  - intros config_id doc st Hp Hc.
    apply (create_service_with_pool_guards name service_type description
             price collateral config_id doc st); assumption.
  - intros config_id doc st service st' Hrun.
    apply create_service_with_pool_ok in Hrun as (_ & _ & ->).
    repeat split.
Qed.

Lemma service_creation_guards_witness :
  let h := Host.mk (scenario.ctx_of scenario.provider) [] in
  let st := (scenario.empty_pool, scenario.ctx_of scenario.provider) in
  create_service_simple [x42] [x70] [] 0 (scenario.coin_of 10000000) h
    = (Aborted (MoveAbort mod_oracle_marketplace E_INVALID_PRICE), h)
  /\ create_service_simple [x42] [x70] [] 1000 (scenario.coin_of 9999999) h
     = (Aborted (MoveAbort mod_oracle_marketplace
                   E_INSUFFICIENT_COLLATERAL), h)
  /\ (exists service,
        Host.effects
          (snd (create_service_simple [x42] [x70] [] 1000
                  (scenario.coin_of 10000000) h))
        = [] ++ [Transfer (CoinObject (scenario.coin_of 10000000))
                   scenario.provider;
                 Share (ServiceObject service)]
        /\ OracleService.active service = true
        /\ OracleService.total_queries service = 0
        /\ OracleService.successful_queries service = 0)
  /\ create_service_with_pool [x42] [x70] [] 1000
       (scenario.coin_of 9999999) None None st
     = (Aborted (MoveAbort mod_oracle_marketplace
                   E_INSUFFICIENT_COLLATERAL), st).
Proof.
  intros h st.
  destruct (service_creation_guards [x42] [x70] [] 0
              (scenario.coin_of 10000000)) as (Hprice & _).
  destruct (service_creation_guards [x42] [x70] [] 1000
              (scenario.coin_of 9999999)) as (_ & Hlow & _ & _ & Hpool & _).
  destruct (service_creation_guards [x42] [x70] [] 1000
              (scenario.coin_of 10000000)) as (_ & _ & Hok & _).
  split; [|split; [|split]].
  - apply Hprice. vm_compute. discriminate.
  - apply Hlow; vm_compute; reflexivity.
  - apply (Hok h). vm_compute. reflexivity.
  - apply Hpool; vm_compute; reflexivity.
Defined.

(** C5 as stated fails where both conditions are violated: with price 0
    and collateral 0 (below the minimum) both paths abort with
    [E_INVALID_PRICE], not with [E_INSUFFICIENT_COLLATERAL]. *)
Lemma service_creation_guards_counterexample :
  let collateral := scenario.coin_of 0 in
  let h := Host.mk (scenario.ctx_of scenario.provider) [] in
  let st := (scenario.empty_pool, scenario.ctx_of scenario.provider) in
  coin.value collateral < 10000000
  /\ fst (create_service_simple [x42] [x70] [] 0 collateral h)
     = Aborted (MoveAbort mod_oracle_marketplace E_INVALID_PRICE)
  /\ fst (create_service_with_pool [x42] [x70] [] 0 collateral None None st)
     = Aborted (MoveAbort mod_oracle_marketplace E_INVALID_PRICE)
  /\ E_INVALID_PRICE <> E_INSUFFICIENT_COLLATERAL.
Proof. vm_compute. repeat split; discriminate. Qed.
End ServiceCreationClaims.

(** ** Query resolution *)

Section QueryResolution.
Import oracle_core oracle_core.OracleQuery spec.

Lemma normalised_payload {S B} result result_hash evidence_url
    (k : String -> String -> Url -> M S B) (s : S) :
  bind (if bool_decide (length result = 0%nat)
        then string.utf8 [x7b; x7d] else string.utf8 result)
    (fun result_str =>
       bind (if bool_decide (length result_hash = 0%nat)
             then string.utf8 [] else string.utf8 result_hash)
         (fun hash_str =>
            bind (url.new_unsafe_from_bytes evidence_url)
              (fun evidence => k result_str hash_str evidence))) s
  = match payload_abort result result_hash evidence_url with
    | Some e => (Aborted e, s)
    | None => k (string.mkString (normal_result result))
                (string.mkString result_hash) (url.mkUrl evidence_url) s
    end.
Proof.
  unfold payload_abort, normal_result.
  destruct (bool_decide (length result = 0%nat)).
  - rewrite bind_utf8.
    change (string.internal_check_utf8 [x7b; x7d]) with true.
    cbn [negb]. cbv beta. destruct result_hash as [|b l].
    + cbn [length bool_decide]. rewrite bool_decide_eq_true_2 by reflexivity.
      rewrite bind_utf8.
      change (string.internal_check_utf8 []) with true. cbn [negb].
      rewrite bind_new_unsafe_from_bytes.
      destruct (forallb url.is_valid_char evidence_url); reflexivity.
    + rewrite bool_decide_eq_false_2 by discriminate.
      rewrite bind_utf8.
      destruct (string.internal_check_utf8 (b :: l)); [|reflexivity].
      cbn [negb]. rewrite bind_new_unsafe_from_bytes.
      destruct (forallb url.is_valid_char evidence_url); reflexivity.
  - rewrite bind_utf8.
    destruct (string.internal_check_utf8 result); [|reflexivity].
    cbn [negb]. cbv beta. destruct result_hash as [|b l].
    + rewrite bool_decide_eq_true_2 by reflexivity.
      rewrite bind_utf8.
      change (string.internal_check_utf8 []) with true. cbn [negb].
      rewrite bind_new_unsafe_from_bytes.
      destruct (forallb url.is_valid_char evidence_url); reflexivity.
    + rewrite bool_decide_eq_false_2 by discriminate.
      rewrite bind_utf8.
      destruct (string.internal_check_utf8 (b :: l)); [|reflexivity].
      cbn [negb]. rewrite bind_new_unsafe_from_bytes.
      destruct (forallb url.is_valid_char evidence_url); reflexivity.
Qed.

Lemma update_query_data_eq result result_hash evidence_url st :
  update_query_data result result_hash evidence_url st
  = if bool_decide (tx_context.sender (snd st) = provider (fst st)) then
      match payload_abort result result_hash evidence_url with
      | Some e => (Aborted e, st)
      | None =>
        (Ok tt,
         (written result result_hash evidence_url (snd st) (fst st),
          snd st))
      end
    else (Aborted (MoveAbort mod_oracle_core E_NOT_PROVIDER), st).
Proof.
  unfold update_query_data, oracle_core.assert_here.
  mstep. mstep. mstep.
  destruct (bool_decide _); [|reflexivity].
  rewrite normalised_payload.
  destruct (payload_abort _ _ _); [reflexivity|].
  destruct st as [q ctx]. reflexivity.
Qed.

Lemma resolve_query_entry_eq result result_hash evidence_url st :
  resolve_query_entry result result_hash evidence_url st
  = if resolved (fst st)
    then (Aborted (MoveAbort mod_oracle_core E_QUERY_ALREADY_RESOLVED), st)
    else update_query_data result result_hash evidence_url st.
Proof.
  rewrite update_query_data_eq.
  unfold resolve_query_entry, oracle_core.assert_here.
  mstep. mstep. destruct (resolved (fst st)); [reflexivity|].
  cbn [negb]. mstep. mstep.
  destruct (bool_decide _); [|reflexivity].
  rewrite normalised_payload.
  destruct (payload_abort _ _ _); [reflexivity|].
  destruct st as [q ctx]. reflexivity.
Qed.

Lemma payload_abort_not_resolved result result_hash evidence_url e :
  payload_abort result result_hash evidence_url = Some e ->
  e <> MoveAbort mod_oracle_core E_QUERY_ALREADY_RESOLVED.
Proof.
  unfold payload_abort.
  repeat match goal with
  | |- context [negb ?c] => destruct c; cbn [negb]
  end; intros [= <-]; discriminate.
Qed.

Lemma update_step_resolved q c :
  resolved q = true -> resolved (update_step q c) = true.
Proof.
  intros Hq. unfold update_step, commit.
  rewrite update_query_data_eq. cbn [fst snd].
  destruct (bool_decide _); [|exact Hq].
  destruct (payload_abort _ _ _); [exact Hq | reflexivity].
Qed.

(** C6.  [resolve_query_entry] on a query whose [resolved] flag is set
    aborts with [E_QUERY_ALREADY_RESOLVED], whoever calls it and whatever
    the payload, and leaves the query as it was.  [update_query_data]
    never aborts with that code, whether or not the query is resolved;
    called by the provider with a well-formed payload it returns, on a
    resolved query as on an open one; whenever it returns, [resolved] is
    true afterwards; and [resolved] stays true through any sequence of
    update transactions. *)
Theorem resolve_guard_and_update result result_hash evidence_url st :
  (resolved (fst st) = true ->
   resolve_query_entry result result_hash evidence_url st
   = (Aborted (MoveAbort mod_oracle_core E_QUERY_ALREADY_RESOLVED), st))
  /\ fst (update_query_data result result_hash evidence_url st)
     <> Aborted (MoveAbort mod_oracle_core E_QUERY_ALREADY_RESOLVED)
  /\ (tx_context.sender (snd st) = provider (fst st) ->
      payload_abort result result_hash evidence_url = None ->
      exists st',
        update_query_data result result_hash evidence_url st = (Ok tt, st'))
  /\ (forall st',
        update_query_data result result_hash evidence_url st = (Ok tt, st')
        -> resolved (fst st') = true)
  /\ (forall calls,
        resolved (fst st) = true ->
        resolved (fold_left update_step calls (fst st)) = true).
Proof.
  split; [|split; [|split; [|split]]].
  - intros Hres. rewrite resolve_query_entry_eq, Hres. reflexivity.
  - rewrite update_query_data_eq.
    destruct (bool_decide _); [|discriminate].
    destruct (payload_abort _ _ _) as [e|] eqn:He; [|discriminate].
    cbn [fst]. intros [= ->].
    exact (payload_abort_not_resolved _ _ _ _ He eq_refl).
  - intros Hp Hpay. rewrite update_query_data_eq.
    rewrite (bool_decide_eq_true_2 _ Hp), Hpay. eauto.
  - intros st'. rewrite update_query_data_eq.
    destruct (bool_decide _); [|discriminate].
    destruct (payload_abort _ _ _); [discriminate|].
    intros [= <-]. reflexivity.
  - intros calls. generalize (fst st). clear st.
    induction calls as [|c calls IH]; intros q Hq; [exact Hq|].
    cbn [fold_left]. apply IH, update_step_resolved, Hq.
Qed.

Lemma resolve_guard_and_update_witness :
  let ctx := scenario.ctx_of scenario.provider in
  let call := mkUpdateCall scenario.price_json [] [] ctx in
  resolve_query_entry scenario.price_json [] [] (scenario.query, ctx)
    = (Aborted (MoveAbort mod_oracle_core E_QUERY_ALREADY_RESOLVED),
       (scenario.query, ctx))
  /\ (exists st',
        update_query_data scenario.price_json [] [] (scenario.query, ctx)
        = (Ok tt, st'))
  /\ resolved
       (fst (snd (update_query_data scenario.price_json [] []
                    (scenario.open_query, ctx)))) = true
  /\ resolved (fold_left update_step [call; call; call] scenario.query)
     = true.
Proof.
  intros ctx call.
  destruct (resolve_guard_and_update scenario.price_json [] []
              (scenario.query, ctx)) as (Hres & _ & Hruns & _ & Hall).
  destruct (resolve_guard_and_update scenario.price_json [] []
              (scenario.open_query, ctx)) as (_ & _ & _ & Hset & _).
  split; [|split; [|split]].
  - apply Hres. reflexivity.
  - apply Hruns; reflexivity.
  - apply Hset. vm_compute. reflexivity.
  - apply (Hall [call; call; call]). reflexivity.
Defined.
End QueryResolution.

(** ** Provider gating *)

Section ProviderGating.
Import marketplace_treasury oracle_marketplace spec.

(** C8 (amended).  Called by anyone but the recorded provider,
    [update_price_entry], [set_active_entry], [update_config_id_entry],
    [update_documentation_url_entry] and [withdraw_collateral_entry]
    abort with the marketplace's [E_NOT_PROVIDER], and
    [update_query_data] and [resolve_query_entry] on an unresolved query
    abort with the query module's [E_NOT_PROVIDER]; on a query that is
    already resolved [resolve_query_entry] aborts with
    [E_QUERY_ALREADY_RESOLVED] instead, because that guard comes first.
    At every one of these aborts the service, the pool and the transfer
    log, or the query, are exactly as they were at the call. *)
Theorem provider_gating :
  (forall new_price ctx s,
     tx_context.sender ctx <> OracleService.provider s ->
     update_price_entry new_price ctx s
     = (Aborted (MoveAbort mod_oracle_marketplace E_NOT_PROVIDER), s))
  /\ (forall active ctx s,
        tx_context.sender ctx <> OracleService.provider s ->
        set_active_entry active ctx s
        = (Aborted (MoveAbort mod_oracle_marketplace E_NOT_PROVIDER), s))
  /\ (forall config_id ctx s,
        tx_context.sender ctx <> OracleService.provider s ->
        update_config_id_entry config_id ctx s
        = (Aborted (MoveAbort mod_oracle_marketplace E_NOT_PROVIDER), s))
  /\ (forall documentation_url ctx s,
        tx_context.sender ctx <> OracleService.provider s ->
        update_documentation_url_entry documentation_url ctx s
        = (Aborted (MoveAbort mod_oracle_marketplace E_NOT_PROVIDER), s))
  /\ (forall service amount recipient st,
        tx_context.sender (Host.ctx (snd st))
          <> OracleService.provider service ->
        withdraw_collateral_entry service amount recipient st
        = (Aborted (MoveAbort mod_oracle_marketplace E_NOT_PROVIDER), st))
  /\ (forall result result_hash evidence_url st,
        tx_context.sender (snd st)
          <> oracle_core.OracleQuery.provider (fst st) ->
        oracle_core.update_query_data result result_hash evidence_url st
        = (Aborted (MoveAbort mod_oracle_core oracle_core.E_NOT_PROVIDER),
           st))
  /\ (forall result result_hash evidence_url st,
        tx_context.sender (snd st)
          <> oracle_core.OracleQuery.provider (fst st) ->
        oracle_core.resolve_query_entry result result_hash evidence_url st
        = (Aborted
             (MoveAbort mod_oracle_core
                (if oracle_core.OracleQuery.resolved (fst st)
                 then oracle_core.E_QUERY_ALREADY_RESOLVED
                 else oracle_core.E_NOT_PROVIDER)),
           st)).
Proof.
  split; [|split; [|split; [|split; [|split; [|split]]]]].
  - intros new_price ctx s Hne.
    rewrite update_price_entry_eq, (bool_decide_eq_false_2 _ Hne).
    reflexivity.
  - intros active ctx s Hne.
    rewrite set_active_entry_eq, (bool_decide_eq_false_2 _ Hne).
    reflexivity.
  - intros config_id ctx s Hne.
    rewrite update_config_id_entry_eq, (bool_decide_eq_false_2 _ Hne).
    reflexivity.
  - intros documentation_url ctx s Hne.
    rewrite update_documentation_url_entry_eq,
      (bool_decide_eq_false_2 _ Hne).
    reflexivity.
  - intros service amount recipient st Hne.
    apply withdraw_collateral_entry_not_provider, Hne.
  - intros result result_hash evidence_url st Hne.
    rewrite update_query_data_eq, (bool_decide_eq_false_2 _ Hne).
    reflexivity.
  - intros result result_hash evidence_url st Hne.
    rewrite resolve_query_entry_eq, update_query_data_eq,
      (bool_decide_eq_false_2 _ Hne).
    destruct (oracle_core.OracleQuery.resolved (fst st)); reflexivity.
Qed.

Lemma provider_gating_witness :
  let ctx := scenario.ctx_of scenario.stranger in
  let st := (scenario.funded_pool, Host.mk ctx []) in
  update_price_entry 1 ctx scenario.service
    = (Aborted (MoveAbort mod_oracle_marketplace E_NOT_PROVIDER),
       scenario.service)
  /\ set_active_entry false ctx scenario.service
     = (Aborted (MoveAbort mod_oracle_marketplace E_NOT_PROVIDER),
        scenario.service)
  /\ withdraw_collateral_entry scenario.service 1 scenario.stranger st
     = (Aborted (MoveAbort mod_oracle_marketplace E_NOT_PROVIDER), st)
  /\ oracle_core.update_query_data [] [] [] (scenario.open_query, ctx)
     = (Aborted (MoveAbort mod_oracle_core oracle_core.E_NOT_PROVIDER),
        (scenario.open_query, ctx))
  /\ oracle_core.resolve_query_entry [] [] [] (scenario.open_query, ctx)
     = (Aborted (MoveAbort mod_oracle_core oracle_core.E_NOT_PROVIDER),
        (scenario.open_query, ctx)).
Proof.
  intros ctx st.
  destruct provider_gating as (H1 & H2 & _ & _ & H5 & H6 & H7).
  split; [|split; [|split; [|split]]].
  - apply H1. vm_compute. discriminate.
  - apply H2. vm_compute. discriminate.
  - apply H5. vm_compute. discriminate.
  - apply H6. vm_compute. discriminate.
  - apply (H7 [] [] [] (scenario.open_query, ctx)). vm_compute. discriminate.
Defined.

(** C8 as stated fails for [resolve_query_entry]: called by a stranger
    on a query that is already resolved, it aborts with
    [E_QUERY_ALREADY_RESOLVED], not with [E_NOT_PROVIDER]. *)
Lemma provider_gating_counterexample :
  let ctx := scenario.ctx_of scenario.stranger in
  tx_context.sender ctx <> oracle_core.OracleQuery.provider scenario.query
  /\ fst (oracle_core.resolve_query_entry scenario.price_json [] []
            (scenario.query, ctx))
     = Aborted (MoveAbort mod_oracle_core
                  oracle_core.E_QUERY_ALREADY_RESOLVED)
  /\ oracle_core.E_QUERY_ALREADY_RESOLVED <> oracle_core.E_NOT_PROVIDER.
Proof. vm_compute. repeat split; discriminate. Qed.
End ProviderGating.

(** ** The collateral pool *)

Section CollateralPoolProofs.
Import marketplace_treasury spec.

Implicit Types (pool : CollateralPool.t) (ctx : TxContext).

Lemma exists_eq (fields : gmap ID Balance) (name : ID) :
  dynamic_field.exists_ fields name
  = match fields !! name with Some _ => true | None => false end.
Proof.
  unfold dynamic_field.exists_. destruct (fields !! name) eqn:E.
  - apply bool_decide_eq_true_2. eauto.
  - apply bool_decide_eq_false_2. intros [x Hx]. discriminate.
Qed.

Lemma get_service_collateral_eq pool service_id :
  get_service_collateral pool service_id
  = match CollateralPool.fields pool !! service_id with
    | Some b => balance.value b
    | None => 0
    end.
Proof.
  unfold get_service_collateral. rewrite exists_eq.
  destruct (CollateralPool.fields pool !! service_id); reflexivity.
Qed.

Lemma with_fields_id pool service_id b :
  CollateralPool.fields pool !! service_id = Some b ->
  with_fields (<[service_id := b]> (CollateralPool.fields pool)) pool = pool.
Proof.
  intros H. unfold with_fields. rewrite (insert_id _ _ _ H).
  destruct pool; reflexivity.
Qed.

Lemma withdraw_collateral_eq service_id provider amount pool ctx :
  withdraw_collateral service_id provider amount (pool, ctx)
  = match CollateralPool.fields pool !! service_id with
    | None =>
      (Aborted (MoveAbort mod_marketplace_treasury E_COLLATERAL_NOT_FOUND),
       (pool, ctx))
    | Some b =>
      if bool_decide (tx_context.sender ctx = provider) then
        if amount <=? balance.value b
        then (Ok (coin.mkCoin (fresh ctx) (balance.mkBalance amount)),
              (with_fields
                 (<[service_id := balance.mkBalance
                                    (balance.value b - amount)]>
                    (CollateralPool.fields pool)) pool,
               bump ctx))
        else (Aborted (MoveAbort mod_marketplace_treasury
                         E_INSUFFICIENT_BALANCE), (pool, ctx))
      else (Aborted (MoveAbort mod_marketplace_treasury E_NOT_PROVIDER),
            (pool, ctx))
    end.
Proof.
  unfold withdraw_collateral, marketplace_treasury.assert_here.
  mstep. mstep. cbn [fst snd]. rewrite exists_eq.
  destruct (CollateralPool.fields pool !! service_id) as [b|] eqn:Hb;
    [|reflexivity].
  mstep. mstep. cbn [fst snd].
  destruct (bool_decide _); [|reflexivity].
  unfold zoom_opt.
  cbn [pview pupdate collateral_balance_ fst snd]. rewrite Hb.
  cbn [mbind option_bind]. mstep. mstep. cbn [fst snd].
  destruct (amount <=? balance.value b) eqn:Hle.
  - rewrite coin_take_eq, Hle. reflexivity.
  - cbn [fst snd update CollateralPool.fields_].
    fold (with_fields (<[service_id := b]> (CollateralPool.fields pool))
            pool).
    rewrite (with_fields_id _ _ _ Hb). reflexivity.
Qed.

Lemma deposit_collateral_eq service_id collateral pool :
  deposit_collateral service_id collateral pool
  = match CollateralPool.fields pool !! service_id with
    | Some b =>
      if balance.value b + coin.value collateral <=? MAX_U64
      then (Ok tt,
            with_fields
              (<[service_id := balance.mkBalance
                                 (balance.value b + coin.value collateral)]>
                 (CollateralPool.fields pool)) pool)
      else (Aborted (ArithmeticError mod_balance), pool)
    | None =>
      (Ok tt,
       with_fields
         (<[service_id := coin.balance collateral]>
            (CollateralPool.fields pool)) pool)
    end.
Proof.
  unfold deposit_collateral. mstep. rewrite exists_eq.
  destruct (CollateralPool.fields pool !! service_id) as [b|] eqn:Hb.
  - mstep. unfold dynamic_field.borrow_mut, zoom_opt.
    cbn [view update pview pupdate dynamic_field.field
         CollateralPool.fields_].
    rewrite Hb, balance_join_eq. unfold coin.into_balance, coin.value.
    destruct (_ + _ <=? MAX_U64).
    + reflexivity.
    + fold (with_fields (<[service_id := b]> (CollateralPool.fields pool))
              pool).
      rewrite (with_fields_id _ _ _ Hb). reflexivity.
  - unfold zoom, dynamic_field.add.
    cbn [view update CollateralPool.fields_].
    mstep. rewrite bind_assert, exists_eq, Hb. reflexivity.
Qed.

Lemma deposit_collateral_total service_id collateral pool :
  CollateralPool.total_collateral
    (snd (deposit_collateral service_id collateral pool))
  = CollateralPool.total_collateral pool.
Proof.
  rewrite deposit_collateral_eq.
  destruct (CollateralPool.fields pool !! service_id); [|reflexivity].
  destruct (_ + _ <=? MAX_U64); reflexivity.
Qed.

Lemma withdraw_collateral_total service_id provider amount pool ctx :
  CollateralPool.total_collateral
    (fst (snd (withdraw_collateral service_id provider amount (pool, ctx))))
  = CollateralPool.total_collateral pool.
Proof.
  rewrite withdraw_collateral_eq.
  destruct (CollateralPool.fields pool !! service_id); [|reflexivity].
  destruct (bool_decide _); [|reflexivity].
  destruct (amount <=? _); reflexivity.
Qed.
End CollateralPoolProofs.

(** ** The pool across transactions *)

Section PoolInLedger.
Import marketplace_treasury oracle_marketplace spec ledger.

Lemma create_service_with_pool_deposits
    name service_type description price collateral config_id doc
    st service st' :
  create_service_with_pool name service_type description price collateral
    config_id doc st = (Ok service, st') ->
  deposit_collateral (fresh (snd st)) collateral (fst st) = (Ok tt, fst st').
Proof.
  unfold create_service_with_pool, oracle_marketplace.assert_here.
  destruct st as [pool ctx].
  mstep. destruct (0 <? price) eqn:Hp; [|discriminate].
  mstep. destruct (MIN_COLLATERAL <=? _) eqn:Hc; [|discriminate].
  mstep. mstep. cbn [view update snd_ fst snd].
  repeat (mstep'; match goal with
          | |- context [string.internal_check_utf8 ?b] =>
              destruct (string.internal_check_utf8 b); [|discriminate]
          end).
  mstep. cbn [view update fst_ fst snd OracleService.id].
  destruct (deposit_collateral (fresh ctx) collateral pool) as [[[]|e] p'];
    [|discriminate].
  cbv beta. unfold ret. intros [= _ <-]. reflexivity.
Qed.

(** The pooled creation path creates exactly one object. *)
Lemma create_service_with_pool_ctx
    name service_type description price collateral config_id doc
    st service st' :
  create_service_with_pool name service_type description price collateral
    config_id doc st = (Ok service, st') ->
  snd st' = bump (snd st).
Proof.
  unfold create_service_with_pool, oracle_marketplace.assert_here.
  destruct st as [pool ctx].
  mstep. destruct (0 <? price) eqn:Hp; [|discriminate].
  mstep. destruct (MIN_COLLATERAL <=? _) eqn:Hc; [|discriminate].
  mstep. mstep. cbn [view update snd_ fst snd].
  repeat (mstep'; match goal with
          | |- context [string.internal_check_utf8 ?b] =>
              destruct (string.internal_check_utf8 b); [|discriminate]
          end).
  mstep. cbn [view update fst_ fst snd OracleService.id].
  destruct (deposit_collateral (fresh ctx) collateral pool) as [[[]|e] p'];
    [|discriminate].
  cbv beta. unfold ret. intros [= _ <-]. reflexivity.
Qed.

(** The pool after one committed transaction: untouched, or the result of
    a deposit or of a withdrawal that returned. *)
Lemma step_pool w c :
  reachable_pool (pool w) -> reachable_pool (pool (step w c)).
Proof.
  intros Hreach. unfold step, commit.
  destruct c as [new_price ctx | active ctx | config_id ctx
                | documentation_url ctx | amount recipient ctx | ctx
                | name service_type description price collateral ctx
                | name service_type description price collateral ctx
                | admin_cap amount ctx
                | sub q payment clk ctx];
    cbn [run].
  - unfold zoom. destruct (update_price_entry _ _ _) as [[[]|e] t]; exact Hreach.
  - unfold zoom. destruct (set_active_entry _ _ _) as [[[]|e] t]; exact Hreach.
  - unfold zoom. destruct (update_config_id_entry _ _ _) as [[[]|e] t];
      exact Hreach.
  - unfold zoom.
    destruct (update_documentation_url_entry _ _ _) as [[[]|e] t];
      exact Hreach.
  - rewrite bind_get. unfold zoom. cbn [view pool_host_].
    unfold withdraw_collateral_entry, oracle_marketplace.assert_here.
    mstep. mstep. cbn [snd Host.ctx].
    destruct (bool_decide _); [|exact Hreach].
    rewrite bind_zoom. cbn [view with_ctx fst snd Host.ctx].
    destruct (withdraw_collateral _ _ _ _) as [[coin|e] [p' c']] eqn:Hwd;
      [|exact Hreach].
    unfold transfer.public_transfer, zoom, modify.
    cbn [view update compose snd_ fst snd with_ctx pool_host_ pool].
    exact (reach_withdraw _ _ _ _ _ _ _ _ Hreach Hwd).
  - rewrite bind_get. unfold zoom.
    destruct (create_subscription_entry _ _) as [[[]|e] t]; exact Hreach.
  - unfold zoom.
    destruct (create_service_simple _ _ _ _ _ _) as [[[]|e] t]; exact Hreach.
  - unfold zoom at 1. cbn [view pool_host_].
    unfold create_service_entry.
    rewrite bind_zoom. cbn [view with_ctx fst snd Host.ctx].
    destruct (create_service_with_pool _ _ _ _ _ _ _ _)
      as [[svc|e] [p' c']] eqn:Hnew; [|exact Hreach].
    apply create_service_with_pool_deposits in Hnew. cbn [fst snd] in Hnew.
    mstep. unfold transfer.public_transfer, zoom, modify.
    cbn [view update compose snd_ fst snd with_ctx pool_host_ pool].
    exact (reach_deposit _ _ _ _ Hreach Hnew).
  - rewrite bind_zoom.
    destruct (withdraw_platform_funds _ _ _) as [[coin|e] t]; exact Hreach.
  - rewrite bind_zoom.
    destruct (query_oracle_sync _ _ _ _) as [[r|e] t]; exact Hreach.
Qed.

Lemma run_all_pool calls w :
  reachable_pool (pool w) -> reachable_pool (pool (run_all calls w)).
Proof.
  revert w. induction calls as [|c calls IH]; intros w Hreach; [exact Hreach|].
  cbn [run_all fold_left]. apply IH, step_pool, Hreach.
Qed.
End PoolInLedger.

Lemma reachable_pool_total_zero pool :
  ledger.reachable_pool pool -> marketplace_treasury.get_total_collateral pool = 0.
Proof.
  intros Hreach. unfold marketplace_treasury.get_total_collateral.
  induction Hreach as
    [ctx pool ctx' Hnew
    |pool service_id collateral pool' _ IH Hdep
    |pool service_id provider amount ctx coin pool' ctx' _ IH Hwd].
  - injection Hnew as <- _. reflexivity.
  - rewrite <- IH, <- (deposit_collateral_total service_id collateral pool).
    rewrite Hdep. reflexivity.
  - rewrite <- IH,
      <- (withdraw_collateral_total service_id provider amount pool ctx).
    rewrite Hwd. reflexivity.
Qed.

Section CollateralPoolClaims.
Import marketplace_treasury spec.

(** C9.  [withdraw_collateral] aborts with [E_COLLATERAL_NOT_FOUND]
    when the pool has no entry for the service id, whoever calls; it
    aborts with [E_NOT_PROVIDER] when the sender is not the provider
    passed in (the entry being present), and never returns for such a
    sender; called by the provider it aborts with
    [E_INSUFFICIENT_BALANCE] when the amount exceeds the entry's balance;
    at each abort pool and context are as they were.  When it returns,
    the coin is worth exactly the requested amount, the entry's balance
    has gone down by exactly that amount and every other entry is
    untouched.

    The function is [public(package)].  Its one caller,
    [withdraw_collateral_entry], compares the sender with the service's
    provider first and passes that provider on, so a transaction reaches
    the pool only with the sender equal to the provider passed in: a
    sender who is not the provider fails with the marketplace's
    [E_NOT_PROVIDER] whatever the pool holds, the pool's own
    [E_NOT_PROVIDER] is never raised, and for the provider the failure
    cases are [E_COLLATERAL_NOT_FOUND] without an entry and
    [E_INSUFFICIENT_BALANCE] above the entry's balance, with the coin of
    the requested amount transferred to the recipient otherwise. *)
Theorem withdraw_collateral_cases amount pool :
  (forall service_id provider ctx,
     let run := withdraw_collateral service_id provider amount (pool, ctx) in
     (CollateralPool.fields pool !! service_id = None ->
      run = (Aborted (MoveAbort mod_marketplace_treasury
                        E_COLLATERAL_NOT_FOUND), (pool, ctx)))
     /\ (is_Some (CollateralPool.fields pool !! service_id) ->
         tx_context.sender ctx <> provider ->
         run = (Aborted (MoveAbort mod_marketplace_treasury E_NOT_PROVIDER),
                (pool, ctx)))
     /\ (is_Some (CollateralPool.fields pool !! service_id) ->
         tx_context.sender ctx = provider ->
         get_service_collateral pool service_id < amount ->
         run = (Aborted (MoveAbort mod_marketplace_treasury
                           E_INSUFFICIENT_BALANCE), (pool, ctx)))
     /\ (is_Some (CollateralPool.fields pool !! service_id) ->
         tx_context.sender ctx = provider ->
         amount <= get_service_collateral pool service_id ->
         exists coin st', run = (Ok coin, st'))
     /\ (forall coin st',
           run = (Ok coin, st') ->
           tx_context.sender ctx = provider
           /\ coin.value coin = amount
           /\ get_service_collateral (fst st') service_id + amount
              = get_service_collateral pool service_id
           /\ (forall other, other <> service_id ->
                 CollateralPool.fields (fst st') !! other
                 = CollateralPool.fields pool !! other)))
  /\ (forall service recipient h,
        let service_id : ID :=
          oracle_marketplace.OracleService.id service in
        let provider := oracle_marketplace.OracleService.provider service in
        let sender := tx_context.sender (oracle_marketplace.Host.ctx h) in
        let entry :=
          oracle_marketplace.withdraw_collateral_entry service amount
            recipient (pool, h) in
        (sender <> provider ->
         entry = (Aborted (MoveAbort mod_oracle_marketplace
                             oracle_marketplace.E_NOT_PROVIDER), (pool, h)))
        /\ (sender = provider ->
            CollateralPool.fields pool !! service_id = None ->
            entry = (Aborted (MoveAbort mod_marketplace_treasury
                                E_COLLATERAL_NOT_FOUND), (pool, h)))
        /\ (sender = provider ->
            is_Some (CollateralPool.fields pool !! service_id) ->
            get_service_collateral pool service_id < amount ->
            entry = (Aborted (MoveAbort mod_marketplace_treasury
                                E_INSUFFICIENT_BALANCE), (pool, h)))
        /\ (sender = provider ->
            is_Some (CollateralPool.fields pool !! service_id) ->
            amount <= get_service_collateral pool service_id ->
            exists coin pool' h',
              entry = (Ok tt, (pool', h'))
              /\ oracle_marketplace.Host.effects h'
                 = oracle_marketplace.Host.effects h
                   ++ [oracle_marketplace.Transfer
                         (oracle_marketplace.CoinObject coin) recipient]
              /\ coin.value coin = amount
              /\ get_service_collateral pool' service_id + amount
                 = get_service_collateral pool service_id)
        /\ (forall st',
              entry <> (Aborted (MoveAbort mod_marketplace_treasury
                                   E_NOT_PROVIDER), st'))).
Proof.
  split.
  - intros service_id provider ctx run. subst run.
    rewrite withdraw_collateral_eq, get_service_collateral_eq.
    destruct (CollateralPool.fields pool !! service_id) as [b|] eqn:Hb.
    + split; [discriminate|].
      split; [|split; [|split]].
      * intros _ Hne. rewrite (bool_decide_eq_false_2 _ Hne). reflexivity.
      * intros _ He Hlt. rewrite (bool_decide_eq_true_2 _ He).
        apply N.leb_gt in Hlt. rewrite Hlt. reflexivity.
      * intros _ He Hle. rewrite (bool_decide_eq_true_2 _ He).
        apply N.leb_le in Hle. rewrite Hle. eauto.
      * intros coin st'.
        destruct (bool_decide _) eqn:Hs; [|discriminate].
        apply bool_decide_eq_true_1 in Hs.
        destruct (amount <=? balance.value b) eqn:Hle; [|discriminate].
        intros [= <- <-]. apply N.leb_le in Hle.
        rewrite get_service_collateral_eq.
        cbn [fst with_fields CollateralPool.fields coin.value coin.balance
             balance.value].
        rewrite lookup_insert_eq. cbn [balance.value].
        split; [exact Hs|]. split; [reflexivity|]. split; [lia|].
        intros other Hother. apply lookup_insert_ne. congruence.
    + split; [reflexivity|].
      split; [intros [x Hx]; discriminate|].
      split; [intros [x Hx]; discriminate|].
      split; [intros [x Hx]; discriminate|].
      discriminate.
  - intros service recipient h service_id provider sender entry.
    subst service_id provider sender entry.
    rewrite withdraw_collateral_entry_eq, withdraw_collateral_eq,
      get_service_collateral_eq.
    destruct h as [ctx effects].
    cbn [oracle_marketplace.Host.ctx oracle_marketplace.Host.effects].
    destruct (bool_decide _) eqn:Hs.
    + apply bool_decide_eq_true_1 in Hs.
      split; [intros Hne; contradiction|].
      match goal with
      | |- context [match ?x with Some _ => _ | None => _ end] =>
          destruct x as [b|] eqn:Hb
      end.
      * split; [intros _ Hnone; discriminate Hnone|].
        destruct (amount <=? balance.value b) eqn:Hle.
        -- apply N.leb_le in Hle.
           split; [intros _ _ Hlt; lia|].
           split; [|discriminate].
           intros _ _ _. eexists _, _, _.
           split; [reflexivity|].
           cbn [oracle_marketplace.Host.effects coin.value coin.balance
                balance.value].
           split; [reflexivity|]. split; [reflexivity|].
           rewrite get_service_collateral_eq.
           cbn [with_fields CollateralPool.fields].
           rewrite lookup_insert_eq. cbn [balance.value]. lia.
        -- apply N.leb_gt in Hle.
           split; [reflexivity|].
           split; [intros _ _ Hge; lia|]. discriminate.
      * split; [reflexivity|].
        split; [intros _ [x Hx]; discriminate Hx|].
        split; [intros _ [x Hx]; discriminate Hx|]. discriminate.
    + apply bool_decide_eq_false_1 in Hs.
      split; [reflexivity|].
      split; [intros He; contradiction|].
      split; [intros He; contradiction|].
      split; [intros He; contradiction|]. discriminate.
Qed.

Lemma withdraw_collateral_cases_witness :
  let provider_ctx := scenario.ctx_of scenario.provider in
  let stranger_ctx := scenario.ctx_of scenario.stranger in
  let provider_host := oracle_marketplace.Host.mk provider_ctx [] in
  let stranger_host := oracle_marketplace.Host.mk stranger_ctx [] in
  withdraw_collateral (9, 0) scenario.provider 1
    (scenario.empty_pool, provider_ctx)
    = (Aborted (MoveAbort mod_marketplace_treasury E_COLLATERAL_NOT_FOUND),
       (scenario.empty_pool, provider_ctx))
  /\ withdraw_collateral (9, 0) scenario.provider 1
       (scenario.funded_pool, stranger_ctx)
     = (Aborted (MoveAbort mod_marketplace_treasury E_NOT_PROVIDER),
        (scenario.funded_pool, stranger_ctx))
  /\ withdraw_collateral (9, 0) scenario.provider 10000001
       (scenario.funded_pool, provider_ctx)
     = (Aborted (MoveAbort mod_marketplace_treasury E_INSUFFICIENT_BALANCE),
        (scenario.funded_pool, provider_ctx))
  /\ (exists coin st',
        withdraw_collateral (9, 0) scenario.provider 4000000
          (scenario.funded_pool, provider_ctx) = (Ok coin, st')
        /\ coin.value coin = 4000000
        /\ get_service_collateral (fst st') (9, 0) + 4000000
           = get_service_collateral scenario.funded_pool (9, 0))
  /\ oracle_marketplace.withdraw_collateral_entry scenario.service 1
       scenario.stranger (scenario.empty_pool, stranger_host)
     = (Aborted (MoveAbort mod_oracle_marketplace
                   oracle_marketplace.E_NOT_PROVIDER),
        (scenario.empty_pool, stranger_host))
  /\ oracle_marketplace.withdraw_collateral_entry scenario.service 1
       scenario.provider (scenario.empty_pool, provider_host)
     = (Aborted (MoveAbort mod_marketplace_treasury E_COLLATERAL_NOT_FOUND),
        (scenario.empty_pool, provider_host))
  /\ oracle_marketplace.withdraw_collateral_entry scenario.service 10000001
       scenario.provider (scenario.funded_pool, provider_host)
     = (Aborted (MoveAbort mod_marketplace_treasury E_INSUFFICIENT_BALANCE),
        (scenario.funded_pool, provider_host))
  /\ (exists coin pool' h',
        oracle_marketplace.withdraw_collateral_entry scenario.service
          4000000 scenario.subscriber (scenario.funded_pool, provider_host)
        = (Ok tt, (pool', h'))
        /\ oracle_marketplace.Host.effects h'
           = [] ++ [oracle_marketplace.Transfer
                      (oracle_marketplace.CoinObject coin)
                      scenario.subscriber]
        /\ coin.value coin = 4000000
        /\ get_service_collateral pool' (9, 0) + 4000000
           = get_service_collateral scenario.funded_pool (9, 0)).
Proof.
  intros provider_ctx stranger_ctx provider_host stranger_host.
  split; [|split; [|split; [|split; [|split; [|split; [|split]]]]]].
  - destruct (withdraw_collateral_cases 1 scenario.empty_pool) as (Hpool & _).
    destruct (Hpool (9, 0) scenario.provider provider_ctx) as (H & _).
    apply H. reflexivity.
  - destruct (withdraw_collateral_cases 1 scenario.funded_pool)
      as (Hpool & _).
    destruct (Hpool (9, 0) scenario.provider stranger_ctx) as (_ & H & _).
    apply H; [vm_compute; eauto | vm_compute; discriminate].
  - destruct (withdraw_collateral_cases 10000001 scenario.funded_pool)
      as (Hpool & _).
    destruct (Hpool (9, 0) scenario.provider provider_ctx)
      as (_ & _ & H & _).
    apply H; [vm_compute; eauto | reflexivity | vm_compute; reflexivity].
  - destruct (withdraw_collateral_cases 4000000 scenario.funded_pool)
      as (Hpool & _).
    destruct (Hpool (9, 0) scenario.provider provider_ctx)
      as (_ & _ & _ & Hruns & Hok).
    destruct Hruns as (coin & st' & Hrun);
      [vm_compute; eauto | reflexivity | vm_compute; discriminate |].
    exists coin, st'. split; [exact Hrun|].
    destruct (Hok coin st' Hrun) as (_ & Hv & Hb & _). split; assumption.
  - destruct (withdraw_collateral_cases 1 scenario.empty_pool) as (_ & Hentry).
    destruct (Hentry scenario.service scenario.stranger stranger_host)
      as (H & _).
    apply H. vm_compute. discriminate.
  - destruct (withdraw_collateral_cases 1 scenario.empty_pool) as (_ & Hentry).
    destruct (Hentry scenario.service scenario.provider provider_host)
      as (_ & H & _).
    apply H; reflexivity.
  - destruct (withdraw_collateral_cases 10000001 scenario.funded_pool)
      as (_ & Hentry).
    destruct (Hentry scenario.service scenario.provider provider_host)
      as (_ & _ & H & _).
    apply H; [reflexivity | vm_compute; eauto | vm_compute; reflexivity].
  - destruct (withdraw_collateral_cases 4000000 scenario.funded_pool)
      as (_ & Hentry).
    destruct (Hentry scenario.service scenario.subscriber provider_host)
      as (_ & _ & _ & H & _).
    apply H; [reflexivity | vm_compute; eauto | vm_compute; discriminate].
Defined.

(** C10.  Neither [deposit_collateral] nor [withdraw_collateral] writes
    the pool's [total_collateral] field, whether the call returns or
    aborts; a deposit is recorded only in the entry of its service.  So
    in every pool reachable from [create_collateral_pool] through
    deposits and withdrawals, and after any sequence of marketplace
    transactions on such a pool, [get_total_collateral] is 0. *)
Theorem total_collateral_stays_zero :
  (forall service_id collateral pool,
     CollateralPool.total_collateral
       (snd (deposit_collateral service_id collateral pool))
     = CollateralPool.total_collateral pool)
  /\ (forall service_id provider amount pool ctx,
        CollateralPool.total_collateral
          (fst (snd (withdraw_collateral service_id provider amount
                       (pool, ctx))))
        = CollateralPool.total_collateral pool)
  /\ (forall service_id collateral pool pool',
        deposit_collateral service_id collateral pool = (Ok tt, pool') ->
        get_service_collateral pool' service_id
        = get_service_collateral pool service_id + coin.value collateral)
  /\ (forall pool,
        ledger.reachable_pool pool -> get_total_collateral pool = 0)
  /\ (forall calls w,
        ledger.reachable_pool (ledger.pool w) ->
        get_total_collateral (ledger.pool (ledger.run_all calls w)) = 0).
Proof.
  split; [|split; [|split; [|split]]].
  - apply deposit_collateral_total.
  - apply withdraw_collateral_total.
  - intros service_id collateral pool pool'.
    rewrite deposit_collateral_eq, !get_service_collateral_eq.
    destruct (CollateralPool.fields pool !! service_id) as [b|].
    + destruct (_ + _ <=? MAX_U64); [|discriminate].
      intros [= <-]. cbn [with_fields CollateralPool.fields].
      rewrite lookup_insert_eq. reflexivity.
    + intros [= <-]. cbn [with_fields CollateralPool.fields].
      rewrite lookup_insert_eq. reflexivity.
  - apply reachable_pool_total_zero.
  - intros calls w Hreach.
    apply reachable_pool_total_zero, run_all_pool, Hreach.
Qed.

Lemma total_collateral_stays_zero_witness :
  let ctx := scenario.ctx_of scenario.provider in
  let pool0 := CollateralPool.mk (77, 0) balance.zero ∅ in
  let pool1 := snd (deposit_collateral (9, 0)
                      (scenario.coin_of 10000000) pool0) in
  let w0 := ledger.mkWorld scenario.service scenario.treasury pool0 [] in
  let calls :=
    [ledger.CreateServiceEntry [x42] [x70] [] 1000
       (scenario.coin_of 10000000) ctx;
     ledger.WithdrawCollateral 1 scenario.provider ctx] in
  get_service_collateral pool1 (9, 0) = 0 + 10000000
  /\ get_total_collateral pool1 = 0
  /\ get_service_collateral (ledger.pool (ledger.run_all calls w0)) (77, 0)
     = 10000000
  /\ get_total_collateral (ledger.pool (ledger.run_all calls w0)) = 0.
Proof.
  intros ctx pool0 pool1 w0 calls.
  destruct total_collateral_stays_zero as (_ & _ & Hentry & Hzero & Hall).
  assert (Hpool0 : ledger.reachable_pool pool0)
    by (apply (ledger.reach_create ctx pool0 (bump ctx)); reflexivity).
  split; [|split; [|split]].
  - apply (Hentry (9, 0) (scenario.coin_of 10000000) pool0 pool1).
    vm_compute. reflexivity.
  - apply Hzero.
    apply (ledger.reach_deposit pool0 (9, 0) (scenario.coin_of 10000000));
      [exact Hpool0 | vm_compute; reflexivity].
  - reflexivity.
  - apply (Hall calls w0), Hpool0.
Defined.
End CollateralPoolClaims.

(** ** Counters across transactions *)

Section Counters.
Import marketplace_treasury oracle_marketplace spec ledger.

Implicit Types (w : World) (c : call).

Lemma step_counters w c :
  total (step w c) = total w + gain c w
  /\ successful (step w c) = successful w + gain c w.
Proof.
  unfold total, successful, gain, step, commit, succeeds.
  destruct c as [new_price ctx | active ctx | config_id ctx
                | documentation_url ctx | amount recipient ctx | ctx
                | name service_type description price collateral ctx
                | name service_type description price collateral ctx
                | admin_cap amount ctx
                | sub q payment clk ctx];
    cbn [run is_settlement andb].
  - unfold zoom. cbn [view update service_].
    rewrite update_price_entry_eq.
    destruct (bool_decide _), (0 <? new_price);
      cbn [service OracleService.set_price_per_query
           OracleService.total_queries OracleService.successful_queries];
      lia.
  - unfold zoom. cbn [view update service_].
    rewrite set_active_entry_eq.
    destruct (bool_decide _);
      cbn [service OracleService.set_active
           OracleService.total_queries OracleService.successful_queries];
      lia.
  - unfold zoom. cbn [view update service_].
    rewrite update_config_id_entry_eq.
    destruct (bool_decide _), (string.internal_check_utf8 config_id);
      cbn [service OracleService.set_config_id
           OracleService.total_queries OracleService.successful_queries];
      lia.
  - unfold zoom. cbn [view update service_].
    rewrite update_documentation_url_entry_eq.
    destruct (bool_decide _), (forallb url.is_valid_char documentation_url);
      cbn [service OracleService.set_documentation_url
           OracleService.total_queries OracleService.successful_queries];
      lia.
  - rewrite bind_get. unfold zoom.
    destruct (withdraw_collateral_entry _ _ _ _) as [[[]|e] t];
      cbn [service update pool_host_]; lia.
  - rewrite bind_get. unfold zoom.
    destruct (create_subscription_entry _ _) as [[[]|e] t];
      cbn [service update host_]; lia.
  - unfold zoom.
    destruct (create_service_simple _ _ _ _ _ _) as [[[]|e] t];
      cbn [service update host_]; lia.
  - unfold zoom.
    destruct (create_service_entry _ _ _ _ _ _) as [[[]|e] t];
      cbn [service update pool_host_]; lia.
  - rewrite bind_zoom.
    destruct (withdraw_platform_funds _ _ _) as [[coin|e] t];
      cbn [service update treasury_ctx_ ret]; lia.
  - rewrite bind_zoom.
    destruct (query_oracle_sync sub q clk _) as [[r|e] st'] eqn:Hrun.
    + apply query_oracle_sync_ok in Hrun as (_ & _ & _ & ->).
      unfold ret, settle.
      cbn [service update view settlement_ Settlement.service
           OracleService.set_total_queries
           OracleService.set_successful_queries
           OracleService.total_queries OracleService.successful_queries].
      split; reflexivity.
    + lia.
Qed.

Lemma run_all_counters calls w :
  total (run_all calls w) = total w + settled calls w
  /\ successful (run_all calls w) = successful w + settled calls w.
Proof.
  revert w. induction calls as [|c calls IH]; intros w.
  - cbn. lia.
  - cbn [run_all fold_left settled].
    destruct (IH (step w c)) as [IHt IHs].
    destruct (step_counters w c) as [Ht Hs].
    unfold run_all in IHt, IHs.
    rewrite IHt, IHs, Ht, Hs. lia.
Qed.

(** C7.  A committed [query_oracle_sync] adds exactly 1 to
    [total_queries] and to [successful_queries]; a transaction that
    aborts changes nothing at all; every other entry point leaves both
    counters as they were.  Hence after any sequence of
    transactions each counter is its initial value plus the number of
    settlements that succeeded in the sequence, however they are
    interleaved with failed calls and other operations, and neither
    counter ever decreases. *)
Theorem counters_count_settlements :
  (forall w c,
     is_settlement c = true -> succeeds (run c) w = true ->
     total (step w c) = total w + 1
     /\ successful (step w c) = successful w + 1)
  /\ (forall w c, succeeds (run c) w = false -> step w c = w)
  /\ (forall w c,
        is_settlement c = false ->
        total (step w c) = total w /\ successful (step w c) = successful w)
  /\ (forall calls w,
        total (run_all calls w) = total w + settled calls w
        /\ successful (run_all calls w) = successful w + settled calls w)
  /\ (forall calls more w,
        total (run_all calls w) <= total (run_all (calls ++ more) w)
        /\ successful (run_all calls w)
           <= successful (run_all (calls ++ more) w)).
Proof.
  split; [|split; [|split; [|split]]].
  - intros w c Hc Hs. destruct (step_counters w c) as [Ht Hu].
    unfold gain in Ht, Hu. rewrite Hc, Hs in Ht, Hu. auto.
  - intros w c Hs. apply commit_aborted, Hs.
  - intros w c Hc. destruct (step_counters w c) as [Ht Hu].
    unfold gain in Ht, Hu. rewrite Hc in Ht, Hu. cbn [andb] in Ht, Hu.
    rewrite Ht, Hu. lia.
  - apply run_all_counters.
  - intros calls more w. unfold run_all. rewrite fold_left_app.
    destruct (run_all_counters more (fold_left step calls w)) as [Ht Hs].
    unfold run_all in Ht, Hs. rewrite Ht, Hs. lia.
Qed.

Lemma counters_count_settlements_witness :
  let settle_at (who : address) :=
    QueryOracleSync scenario.subscription scenario.query
      (scenario.coin_of 1000) (clock.mkClock 6000) (scenario.ctx_of who) in
  let calls :=
    [settle_at scenario.subscriber;
     settle_at scenario.stranger;
     UpdatePrice 1000 (scenario.ctx_of scenario.provider);
     settle_at scenario.subscriber;
     SetActive false (scenario.ctx_of scenario.provider);
     settle_at scenario.subscriber] in
  total (step scenario.world (settle_at scenario.subscriber)) = 0 + 1
  /\ step scenario.world (settle_at scenario.stranger) = scenario.world
  /\ total (run_all calls scenario.world) = 0 + 2
  /\ successful (run_all calls scenario.world) = 0 + 2.
Proof.
  intros settle_at calls.
  destruct counters_count_settlements as (Hone & Hfail & _ & Hall & _).
  split; [|split].
  - apply Hone; reflexivity.
  - apply Hfail. reflexivity.
  - apply (Hall calls scenario.world).
Defined.
End Counters.

(* ===================================================================== *)
(** * Further properties of the code                                      *)
(* ===================================================================== *)

(** ** When a settlement returns *)

Section SettlementOutcome.
Import marketplace_treasury oracle_marketplace spec.

Lemma no_overflow_iff st :
  no_overflow st = true
  <-> OracleService.price_per_query (Settlement.service st) * 300 <= MAX_U64
      /\ get_platform_balance (Settlement.treasury st)
         + OracleService.price_per_query (Settlement.service st) * 300 / 10000
         <= MAX_U64
      /\ OracleService.total_queries (Settlement.service st) + 1 <= MAX_U64
      /\ OracleService.successful_queries (Settlement.service st) + 1
         <= MAX_U64.
Proof.
  unfold no_overflow. change PLATFORM_FEE_BPS with 300.
  rewrite !andb_true_iff, !N.leb_le. tauto.
Qed.

(** X1.  [query_oracle_sync] returns exactly when the service is active,
    the subscription is active, unexpired, for this service and owned by
    the caller, the payment covers the price, the query is resolved, and
    none of its four [u64] computations overflows: [price * 300], the
    treasury balance plus the platform share, and the two counters plus
    one. *)
Theorem query_oracle_sync_returns_iff sub q clk st :
  let service := Settlement.service st in
  let price := OracleService.price_per_query service in
  (exists r st', query_oracle_sync sub q clk st = (Ok r, st'))
  <-> OracleService.active service = true
      /\ Subscription.active sub = true
      /\ clock.timestamp_ms clk <= Subscription.end_time sub
      /\ Subscription.service_id sub = OracleService.id service
      /\ caller_of st = Subscription.subscriber sub
      /\ price <= coin.value (Settlement.payment st)
      /\ oracle_core.OracleQuery.resolved q = true
      /\ price * 300 <= MAX_U64
      /\ get_platform_balance (Settlement.treasury st) + price * 300 / 10000
         <= MAX_U64
      /\ OracleService.total_queries service + 1 <= MAX_U64
      /\ OracleService.successful_queries service + 1 <= MAX_U64.
Proof.
  intros service price. subst service price. split.
  - intros (r & st' & Hrun).
    apply query_oracle_sync_ok in Hrun as (Hchk & Hno & _ & _).
    apply first_failed_check_None_iff in Hchk. apply no_overflow_iff in Hno.
    tauto.
  - intros H.
    assert (Hchk : first_failed_check (Settlement.service st) sub q
              (Settlement.payment st) (clock.timestamp_ms clk) (caller_of st)
            = None) by (apply first_failed_check_None_iff; tauto).
    assert (Hno : no_overflow st = true) by (apply no_overflow_iff; tauto).
    eexists _, _. apply query_oracle_sync_succeeds; assumption.
Qed.

Lemma query_oracle_sync_returns_iff_witness :
  exists r st',
    query_oracle_sync scenario.subscription scenario.query
      (clock.mkClock 6000)
      (scenario.settlement scenario.service 1000 scenario.subscriber)
    = (Ok r, st').
Proof.
  apply (query_oracle_sync_returns_iff scenario.subscription scenario.query
           (clock.mkClock 6000)
           (scenario.settlement scenario.service 1000 scenario.subscriber)).
  vm_compute. repeat split; discriminate.
Defined.

Lemma platform_fee_zero_iff fee : fee * 300 / 10000 = 0 <-> fee < 34.
Proof.
  rewrite N.div_small_iff by lia. lia.
Qed.

(** X2.  A settlement at a price below 34 subunits pays no platform fee:
    the integer division rounds the 3% share down to zero, the treasury
    balance is unchanged and the provider's coin carries the whole price.
    From 34 subunits on the treasury balance strictly grows. *)
Theorem small_price_pays_no_platform_fee sub q clk st r st' :
  query_oracle_sync sub q clk st = (Ok r, st') ->
  let price := OracleService.price_per_query (Settlement.service st) in
  (get_platform_balance (Settlement.treasury st')
   = get_platform_balance (Settlement.treasury st) <-> price < 34)
  /\ (34 <= price ->
      get_platform_balance (Settlement.treasury st)
      < get_platform_balance (Settlement.treasury st'))
  /\ (price < 34 ->
      exists coin_id,
        nth_error (Host.effects (Settlement.host st'))
                  (length (Host.effects (Settlement.host st)))
        = Some (Transfer
                  (CoinObject (coin.mkCoin coin_id (balance.mkBalance price)))
                  (OracleService.provider (Settlement.service st)))).
Proof.
  intros Hrun price.
  apply query_oracle_sync_ok in Hrun as (_ & _ & _ & ->).
  unfold settle.
  cbn [Settlement.treasury Settlement.host Host.effects get_platform_balance
       MarketplaceTreasury.platform_balance balance.value].
  change PLATFORM_FEE_BPS with 300. fold price.
  pose proof (platform_fee_zero_iff price) as Hz.
  split; [|split].
  - rewrite <- Hz. lia.
  - intros Hbig.
    apply N.lt_add_pos_r, N.neq_0_lt_0. rewrite Hz. lia.
  - intros Hsmall. apply Hz in Hsmall. rewrite Hsmall, N.sub_0_r.
    eexists. rewrite <- app_assoc.
    rewrite nth_error_app2 by lia. rewrite Nat.sub_diag. reflexivity.
Qed.

Lemma small_price_pays_no_platform_fee_witness :
  let cheap := OracleService.set_price_per_query 33 scenario.service in
  let st := scenario.settlement cheap 33 scenario.subscriber in
  let st' := snd (query_oracle_sync scenario.subscription scenario.query
                    (clock.mkClock 6000) st) in
  get_platform_balance (Settlement.treasury st')
  = get_platform_balance (Settlement.treasury st).
Proof.
  intros cheap st st'.
  destruct (small_price_pays_no_platform_fee scenario.subscription
              scenario.query (clock.mkClock 6000) st
              (result_view scenario.query (clock.mkClock 6000)) st')
    as (Hiff & _).
  - vm_compute. reflexivity.
  - apply Hiff. vm_compute. reflexivity.
Defined.
End SettlementOutcome.

(** ** The service across transactions *)

Section ServiceFrame.
Import marketplace_treasury oracle_marketplace spec ledger ledger_calls.

Implicit Types (w : World) (c : call).

(** What one committed transaction does to the service. *)
Lemma step_service_cases w c :
  let s := service w in
  let s' := service (step w c) in
  s' = s
  \/ (sender_of c = OracleService.provider s
      /\ ((exists p, 0 < p /\ s' = OracleService.set_price_per_query p s)
          \/ (exists a, s' = OracleService.set_active a s)
          \/ (exists v, s' = OracleService.set_config_id (Some v) s)
          \/ (exists v, s' = OracleService.set_documentation_url (Some v) s)))
  \/ (is_settlement c = true
      /\ s' = OracleService.set_successful_queries
                (OracleService.successful_queries s + 1)
                (OracleService.set_total_queries
                   (OracleService.total_queries s + 1) s)).
Proof.
  unfold step, commit, sender_of.
  destruct c as [new_price ctx | active ctx | config_id ctx
                | documentation_url ctx | amount recipient ctx | ctx
                | name service_type description price collateral ctx
                | name service_type description price collateral ctx
                | admin_cap amount ctx
                | sub q payment clk ctx];
    cbn [run is_settlement ctx_of].
  - unfold zoom. cbn [view update service_].
    rewrite update_price_entry_eq.
    destruct (bool_decide _) eqn:Hs; [|left; reflexivity].
    apply bool_decide_eq_true_1 in Hs.
    destruct (0 <? new_price) eqn:Hp; [|left; reflexivity].
    apply N.ltb_lt in Hp. right; left. split; [exact Hs|]. left. eauto.
  - unfold zoom. cbn [view update service_].
    rewrite set_active_entry_eq.
    destruct (bool_decide _) eqn:Hs; [|left; reflexivity].
    apply bool_decide_eq_true_1 in Hs.
    right; left. split; [exact Hs|]. right; left. eauto.
  - unfold zoom. cbn [view update service_].
    rewrite update_config_id_entry_eq.
    destruct (bool_decide _) eqn:Hs; [|left; reflexivity].
    apply bool_decide_eq_true_1 in Hs.
    destruct (string.internal_check_utf8 config_id); [|left; reflexivity].
    right; left. split; [exact Hs|]. right; right; left. eauto.
  - unfold zoom. cbn [view update service_].
    rewrite update_documentation_url_entry_eq.
    destruct (bool_decide _) eqn:Hs; [|left; reflexivity].
    apply bool_decide_eq_true_1 in Hs.
    destruct (forallb url.is_valid_char documentation_url);
      [|left; reflexivity].
    right; left. split; [exact Hs|]. right; right; right. eauto.
  - rewrite bind_get. unfold zoom.
    destruct (withdraw_collateral_entry _ _ _ _) as [[[]|e] t];
      left; reflexivity.
  - rewrite bind_get. unfold zoom.
    destruct (create_subscription_entry _ _) as [[[]|e] t]; left; reflexivity.
  - unfold zoom.
    destruct (create_service_simple _ _ _ _ _ _) as [[[]|e] t];
      left; reflexivity.
  - unfold zoom.
    destruct (create_service_entry _ _ _ _ _ _) as [[[]|e] t];
      left; reflexivity.
  - rewrite bind_zoom.
    destruct (withdraw_platform_funds _ _ _) as [[coin|e] t];
      left; reflexivity.
  - rewrite bind_zoom.
    destruct (query_oracle_sync sub q clk _) as [[r|e] st'] eqn:Hrun;
      [|left; reflexivity].
    apply query_oracle_sync_ok in Hrun as (_ & _ & _ & ->).
    right; right. split; reflexivity.
Qed.

Lemma run_all_cons c calls w :
  run_all (c :: calls) w = run_all calls (step w c).
Proof. reflexivity. Qed.

(** X3.  The price of a service is never zero.  Every creation path
    builds only services with a positive price: the service
    [create_service_simple] shares, the service [create_service_with_pool]
    returns, and the service [create_service_entry] transfers to its
    sender.  And a service whose price is positive keeps a positive price
    through every sequence of transactions, whoever sends them. *)
Theorem price_stays_positive :
  (forall name service_type description price collateral h h',
     create_service_simple name service_type description price collateral h
     = (Ok tt, h') ->
     exists service,
       Host.effects h'
       = Host.effects h
         ++ [Transfer (CoinObject collateral)
               (tx_context.sender (Host.ctx h));
             Share (ServiceObject service)]
       /\ OracleService.price_per_query service = price
       /\ 0 < OracleService.price_per_query service)
  /\ (forall name service_type description price collateral config_id doc
             st service st',
        create_service_with_pool name service_type description price
          collateral config_id doc st = (Ok service, st') ->
        OracleService.price_per_query service = price
        /\ 0 < OracleService.price_per_query service)
  /\ (forall name service_type description price collateral st st',
        create_service_entry name service_type description price collateral
          st = (Ok tt, st') ->
        exists service,
          Host.effects (snd st')
          = Host.effects (snd st)
            ++ [Transfer (ServiceObject service)
                  (tx_context.sender (Host.ctx (snd st)))]
          /\ OracleService.price_per_query service = price
          /\ 0 < OracleService.price_per_query service)
  /\ (forall calls w,
        0 < OracleService.price_per_query (service w) ->
        0 < OracleService.price_per_query (service (run_all calls w))).
Proof.
  split; [|split; [|split]].
  - intros name service_type description price collateral h h' Hrun.
    apply create_service_simple_ok in Hrun as (Hp & _ & _ & ->).
    eexists. split; [reflexivity|]. split; [reflexivity|exact Hp].
  - intros name service_type description price collateral config_id doc
      st service st' Hrun.
    apply create_service_with_pool_ok in Hrun as (Hp & _ & ->).
    split; [reflexivity|exact Hp].
  - intros name service_type description price collateral [pool h] st'.
    unfold create_service_entry.
    rewrite bind_zoom. cbn [view with_ctx fst snd].
    destruct (create_service_with_pool _ _ _ _ _ _ _ _)
      as [[svc|e] [pool' ctx']] eqn:Hnew; [|discriminate].
    pose proof (create_service_with_pool_ctx _ _ _ _ _ _ _ _ _ _ Hnew)
      as Hctx.
    apply create_service_with_pool_ok in Hnew as (Hp & _ & Hsvc).
    cbn [fst snd] in Hctx. subst ctx'.
    mstep. unfold transfer.public_transfer, zoom, modify.
    destruct h as [ctx effects].
    cbn [view update compose snd_ fst snd with_ctx Host.ctx_ Host.effects_
         Host.ctx Host.effects].
    intros [= <-]. cbn [snd Host.effects Host.ctx].
    exists svc. split; [reflexivity|].
    rewrite Hsvc. split; [reflexivity|exact Hp].
  - intros calls. induction calls as [|c calls IH]; intros w Hw; [exact Hw|].
    rewrite run_all_cons. apply IH.
    destruct (step_service_cases w c)
      as [-> | [(_ & [(p & Hp & ->) | [(a & ->) | [(v & ->) | (v & ->)]]])
               | (_ & ->)]];
      cbn; assumption.
Qed.

Lemma price_stays_positive_witness :
  (exists service,
     Host.effects
       (snd (create_service_simple [x42] [x70] [] 1000
               (scenario.coin_of 10000000)
               (Host.mk (scenario.ctx_of scenario.provider) [])))
     = [] ++ [Transfer (CoinObject (scenario.coin_of 10000000))
                scenario.provider;
              Share (ServiceObject service)]
     /\ OracleService.price_per_query service = 1000
     /\ 0 < OracleService.price_per_query service)
  /\ 0 < OracleService.price_per_query
           (service
              (run_all
                 [UpdatePrice 0 (scenario.ctx_of scenario.provider);
                  UpdatePrice 5 (scenario.ctx_of scenario.provider);
                  UpdatePrice 0 (scenario.ctx_of scenario.stranger)]
                 scenario.world)).
Proof.
  destruct price_stays_positive as (Hsimple & _ & _ & H).
  split.
  - apply (Hsimple [x42] [x70] [] 1000 (scenario.coin_of 10000000)
             (Host.mk (scenario.ctx_of scenario.provider) [])).
    vm_compute. reflexivity.
  - apply H. reflexivity.
Defined.

(** X4.  No transaction changes a service's [id], [provider], [name],
    [service_type], [description], recorded [collateral] or [created_at]:
    after any sequence of transactions they are what they were.  In
    particular a withdrawal from the pool does not lower the recorded
    collateral. *)
Theorem service_identity_is_fixed calls w :
  let s := service w in
  let s' := service (run_all calls w) in
  OracleService.id s' = OracleService.id s
  /\ OracleService.provider s' = OracleService.provider s
  /\ OracleService.name s' = OracleService.name s
  /\ OracleService.service_type s' = OracleService.service_type s
  /\ OracleService.description s' = OracleService.description s
  /\ OracleService.collateral s' = OracleService.collateral s
  /\ OracleService.created_at s' = OracleService.created_at s.
Proof.
  revert w. induction calls as [|c calls IH]; intros w; [cbn; auto 10|].
  rewrite run_all_cons. cbv zeta.
  destruct (IH (step w c)) as (H1 & H2 & H3 & H4 & H5 & H6 & H7).
  rewrite H1, H2, H3, H4, H5, H6, H7.
  destruct (step_service_cases w c)
    as [-> | [(_ & [(p & Hp & ->) | [(a & ->) | [(v & ->) | (v & ->)]]])
             | (_ & ->)]];
    cbn; auto 10.
Qed.

(** X5.  Only the provider changes a service's price, activity flag,
    configuration id or documentation URL: if a committed transaction
    leaves any of the four different from before, its sender is the
    service's provider. *)
Theorem provider_only_fields w c :
  let s := service w in
  let s' := service (step w c) in
  OracleService.price_per_query s' <> OracleService.price_per_query s
  \/ OracleService.active s' <> OracleService.active s
  \/ OracleService.config_id s' <> OracleService.config_id s
  \/ OracleService.documentation_url s' <> OracleService.documentation_url s ->
  sender_of c = OracleService.provider s.
Proof.
  cbv zeta.
  destruct (step_service_cases w c) as [-> | [(Hs & _) | (_ & ->)]].
  - intros [H | [H | [H | H]]]; contradiction.
  - intros _. exact Hs.
  - cbn. intros [H | [H | [H | H]]]; contradiction.
Qed.

Lemma provider_only_fields_witness :
  sender_of (UpdatePrice 5 (scenario.ctx_of scenario.provider))
  = OracleService.provider (service scenario.world).
Proof.
  apply (provider_only_fields scenario.world
           (UpdatePrice 5 (scenario.ctx_of scenario.provider))).
  left. vm_compute. discriminate.
Defined.
End ServiceFrame.

(** ** Pausing a service, and the text fields *)

Section ServiceUpdates.
Import marketplace_treasury oracle_marketplace spec ledger ledger_calls.

Implicit Types (w : World) (c : call).

Lemma create_subscription_entry_eq service h :
  create_subscription_entry service h
  = match create_subscription service (Host.ctx h) with
    | (Ok sub, ctx') =>
      (Ok tt,
       Host.mk ctx'
         (Host.effects h
          ++ [Transfer (SubscriptionObject sub) (tx_context.sender ctx')]))
    | (Aborted e, ctx') => (Aborted e, Host.mk ctx' (Host.effects h))
    end.
Proof.
  unfold create_subscription_entry. rewrite bind_zoom.
  cbn [view update Host.ctx_].
  destruct (create_subscription service (Host.ctx h)) as [[sub|e] ctx'];
    reflexivity.
Qed.

(** X6.  Once the provider has set [active] to false, every
    [create_subscription_entry] and every [query_oracle_sync] on the
    service aborts with [E_SERVICE_INACTIVE], whatever subscription,
    payment and query it is given, until the provider sets [active] back;
    setting it back restores the service exactly, so subscriptions made
    before the pause work again. *)
Theorem pause_blocks_service w ctx :
  tx_context.sender ctx = OracleService.provider (service w) ->
  let paused := step w (SetActive false ctx) in
  OracleService.active (service paused) = false
  /\ (forall ctx',
        fst (run (CreateSubscription ctx') paused)
        = Aborted (MoveAbort mod_oracle_marketplace E_SERVICE_INACTIVE))
  /\ (forall sub q payment clk ctx',
        fst (run (QueryOracleSync sub q payment clk ctx') paused)
        = Aborted (MoveAbort mod_oracle_marketplace E_SERVICE_INACTIVE))
  /\ (forall ctx',
        tx_context.sender ctx' = OracleService.provider (service w) ->
        OracleService.active (service w) = true ->
        step paused (SetActive true ctx') = w).
Proof.
  intros Hs paused.
  assert (Hpaused : paused
                    = mkWorld (OracleService.set_active false (service w))
                        (treasury w) (pool w) (effects w)).
  { subst paused. unfold step, commit. cbn [run]. unfold zoom.
    cbn [view update service_]. rewrite set_active_entry_eq.
    rewrite (bool_decide_eq_true_2 _ Hs). reflexivity. }
  rewrite Hpaused. clear Hpaused paused.
  split; [reflexivity|]. split; [|split].
  - intros ctx'. cbn [run]. rewrite bind_get. unfold zoom.
    cbn [view host_ service]. rewrite create_subscription_entry_eq.
    rewrite create_subscription_eq. reflexivity.
  - intros sub q payment clk ctx'. cbn [run]. rewrite bind_zoom.
    cbn [view settlement_ service treasury effects].
    rewrite (query_oracle_sync_checks _ _ _ _ E_SERVICE_INACTIVE);
      reflexivity.
  - intros ctx' Hs' Hactive. unfold step, commit. cbn [run]. unfold zoom.
    cbn [view update service_ service treasury pool effects].
    rewrite set_active_entry_eq.
    cbn [OracleService.provider OracleService.set_active].
    rewrite (bool_decide_eq_true_2 _ Hs').
    destruct w as [s t p e]. cbn [service] in *.
    destruct s. cbn in Hactive. subst. reflexivity.
Qed.

Lemma pause_blocks_service_witness :
  let paused :=
    step scenario.world (SetActive false (scenario.ctx_of scenario.provider)) in
  fst (run (QueryOracleSync scenario.subscription scenario.query
              (scenario.coin_of 1000) (clock.mkClock 6000)
              (scenario.ctx_of scenario.subscriber)) paused)
    = Aborted (MoveAbort mod_oracle_marketplace E_SERVICE_INACTIVE)
  /\ step paused (SetActive true (scenario.ctx_of scenario.provider))
     = scenario.world.
Proof.
  intros paused.
  destruct (pause_blocks_service scenario.world
              (scenario.ctx_of scenario.provider))
    as (_ & _ & Hsettle & Hback); [reflexivity|].
  split.
  - apply Hsettle.
  - apply Hback; reflexivity.
Defined.

(** X7.  The provider's text updates validate their bytes and nothing
    else: [update_config_id_entry] aborts with the string module's code 1
    on bytes that are not well-formed UTF-8 and otherwise stores exactly
    those bytes; [update_documentation_url_entry] aborts with the ASCII
    module's code 65536 as soon as one byte is above 127 and otherwise
    stores the bytes as they are, the empty URL included.  An abort leaves
    the service untouched. *)
Theorem text_updates_validate bytes ctx s :
  tx_context.sender ctx = OracleService.provider s ->
  (string.internal_check_utf8 bytes = false ->
   update_config_id_entry bytes ctx s
   = (Aborted (MoveAbort mod_string 1), s))
  /\ (string.internal_check_utf8 bytes = true ->
      update_config_id_entry bytes ctx s
      = (Ok tt, OracleService.set_config_id (Some (string.mkString bytes)) s))
  /\ ((exists b, In b bytes /\ 127 < Byte.to_N b) ->
      update_documentation_url_entry bytes ctx s
      = (Aborted (MoveAbort mod_ascii 65536), s))
  /\ ((forall b, In b bytes -> Byte.to_N b <= 127) ->
      update_documentation_url_entry bytes ctx s
      = (Ok tt,
         OracleService.set_documentation_url (Some (url.mkUrl bytes)) s)).
Proof.
  intros Hs.
  rewrite update_config_id_entry_eq, update_documentation_url_entry_eq,
    (bool_decide_eq_true_2 _ Hs).
  split; [|split; [|split]].
  - intros ->. reflexivity.
  - intros ->. reflexivity.
  - intros (b & Hin & Hb).
    assert (H : forallb url.is_valid_char bytes = false).
    { apply not_true_is_false. intros Hall.
      rewrite forallb_forall in Hall. specialize (Hall b Hin).
      unfold url.is_valid_char in Hall. apply N.leb_le in Hall. lia. }
    rewrite H. reflexivity.
  - intros Hall.
    assert (H : forallb url.is_valid_char bytes = true).
    { apply forallb_forall. intros b Hin. apply N.leb_le, Hall, Hin. }
    rewrite H. reflexivity.
Qed.

Lemma text_updates_validate_witness :
  let ctx := scenario.ctx_of scenario.provider in
  update_config_id_entry [xc3; xa9] ctx scenario.service
    = (Ok tt,
       OracleService.set_config_id (Some (string.mkString [xc3; xa9]))
         scenario.service)
  /\ update_documentation_url_entry [xc3; xa9] ctx scenario.service
     = (Aborted (MoveAbort mod_ascii 65536), scenario.service)
  /\ update_config_id_entry [xc3] ctx scenario.service
     = (Aborted (MoveAbort mod_string 1), scenario.service)
  /\ update_documentation_url_entry [] ctx scenario.service
     = (Ok tt,
        OracleService.set_documentation_url (Some (url.mkUrl []))
          scenario.service).
Proof.
  intros ctx.
  destruct (text_updates_validate [xc3; xa9] ctx scenario.service eq_refl)
    as (_ & Hok & Hbad & _).
  destruct (text_updates_validate [xc3] ctx scenario.service eq_refl)
    as (Hcut & _).
  destruct (text_updates_validate [] ctx scenario.service eq_refl)
    as (_ & _ & _ & Hempty).
  split; [|split; [|split]].
  - apply Hok. reflexivity.
  - apply Hbad. exists xc3. split; [left; reflexivity | reflexivity].
  - apply Hcut. reflexivity.
  - apply Hempty. intros b [].
Defined.

(** X8.  No transaction clears a service's configuration id or its
    documentation URL: once either is set it stays set through every
    sequence of transactions. *)
Theorem text_fields_are_never_cleared calls w :
  (is_Some (OracleService.config_id (service w)) ->
   is_Some (OracleService.config_id (service (run_all calls w))))
  /\ (is_Some (OracleService.documentation_url (service w)) ->
      is_Some (OracleService.documentation_url (service (run_all calls w)))).
Proof.
  revert w. induction calls as [|c calls IH]; intros w; [split; auto|].
  rewrite run_all_cons. destruct (IH (step w c)) as [IHc IHd].
  split; intros H; [apply IHc | apply IHd];
    destruct (step_service_cases w c)
      as [-> | [(_ & [(p & Hp & ->) | [(a & ->) | [(v & ->) | (v & ->)]]])
               | (_ & ->)]];
    cbn; eauto.
Qed.

Lemma text_fields_are_never_cleared_witness :
  let ctx := scenario.ctx_of scenario.provider in
  let w1 := step scenario.world (UpdateConfigId [x63] ctx) in
  is_Some (OracleService.config_id
             (service (run_all [UpdateConfigId [xc3] ctx; SetActive false ctx]
                         w1))).
Proof.
  intros ctx w1.
  destruct (text_fields_are_never_cleared
              [UpdateConfigId [xc3] ctx; SetActive false ctx] w1) as (H & _).
  apply H. vm_compute. eauto.
Defined.
End ServiceUpdates.

(** ** Creating and using a subscription *)

Section SubscriptionLifecycle.
Import marketplace_treasury oracle_marketplace spec.

(** X9.  [create_subscription] aborts with [E_SERVICE_INACTIVE] on an
    inactive service and with an arithmetic error when the epoch timestamp
    plus the 30-day duration does not fit in a [u64]; in both cases no
    object id is consumed.  Otherwise it returns a subscription owned by
    the sender, bound to the service's id, and
    [create_subscription_entry] transfers exactly that subscription to
    the sender and makes no other transfer. *)
Theorem create_subscription_cases service ctx :
  let T := tx_context.epoch_timestamp_ms ctx in
  (OracleService.active service = false ->
   create_subscription service ctx
   = (Aborted (MoveAbort mod_oracle_marketplace E_SERVICE_INACTIVE), ctx))
  /\ (OracleService.active service = true -> MAX_U64 < T + 2592000000 ->
      create_subscription service ctx
      = (Aborted (ArithmeticError mod_oracle_marketplace), ctx))
  /\ (OracleService.active service = true -> T + 2592000000 <= MAX_U64 ->
      let sub :=
        Subscription.mk (fresh ctx) (tx_context.sender ctx)
          (OracleService.id service) T (T + 2592000000) true T in
      create_subscription service ctx = (Ok sub, bump ctx)
      /\ forall log,
           create_subscription_entry service (Host.mk ctx log)
           = (Ok tt,
              Host.mk (bump ctx)
                (log ++ [Transfer (SubscriptionObject sub)
                           (tx_context.sender ctx)]))).
Proof.
  intros T. subst T.
  split; [|split].
  - intros Ha. rewrite create_subscription_eq, Ha. reflexivity.
  - intros Ha Hover. rewrite create_subscription_eq, Ha.
    change DEFAULT_SUBSCRIPTION_DURATION with 2592000000.
    apply N.leb_gt in Hover. rewrite Hover. reflexivity.
  - intros Ha Hfit sub.
    assert (Hnew : create_subscription service ctx = (Ok sub, bump ctx)).
    { rewrite create_subscription_eq, Ha.
      change DEFAULT_SUBSCRIPTION_DURATION with 2592000000.
      apply N.leb_le in Hfit. rewrite Hfit. reflexivity. }
    split; [exact Hnew|].
    intros log. rewrite create_subscription_entry_eq.
    cbn [Host.ctx Host.effects]. rewrite Hnew. reflexivity.
Qed.

Lemma create_subscription_cases_witness :
  let late := tx_context.mkTxContext scenario.subscriber 77 1
                18446744071117551616 0 in
  create_subscription scenario.service late
    = (Aborted (ArithmeticError mod_oracle_marketplace), late)
  /\ create_subscription
       (OracleService.set_active false scenario.service)
       (scenario.ctx_of scenario.subscriber)
     = (Aborted (MoveAbort mod_oracle_marketplace E_SERVICE_INACTIVE),
        scenario.ctx_of scenario.subscriber)
  /\ fst (create_subscription_entry scenario.service
            (Host.mk (scenario.ctx_of scenario.subscriber) []))
     = Ok tt.
Proof.
  intros late.
  destruct (create_subscription_cases scenario.service late)
    as (_ & Hover & _).
  destruct (create_subscription_cases
              (OracleService.set_active false scenario.service)
              (scenario.ctx_of scenario.subscriber)) as (Hoff & _).
  destruct (create_subscription_cases scenario.service
              (scenario.ctx_of scenario.subscriber)) as (_ & _ & Hok).
  split; [|split].
  - apply Hover; reflexivity.
  - apply Hoff. reflexivity.
  - destruct Hok as (_ & Hentry); [reflexivity | vm_compute; discriminate |].
    rewrite Hentry. reflexivity.
Defined.

(** X10.  A subscription works for the one who made it until it ends: if
    [create_subscription] returned a subscription, then a settlement sent
    by the same sender on the service with that id returns at every clock
    time up to 2,592,000,000 ms after the creating epoch timestamp,
    provided the service is active, the payment covers its current price,
    the query is resolved and no [u64] overflows; the price and the other
    fields of the service may have changed since the subscription was
    made. *)
Theorem fresh_subscription_settles service ctx sub ctx' q clk st :
  create_subscription service ctx = (Ok sub, ctx') ->
  OracleService.id (Settlement.service st) = OracleService.id service ->
  OracleService.active (Settlement.service st) = true ->
  caller_of st = tx_context.sender ctx ->
  clock.timestamp_ms clk <= tx_context.epoch_timestamp_ms ctx + 2592000000 ->
  OracleService.price_per_query (Settlement.service st)
    <= coin.value (Settlement.payment st) ->
  oracle_core.OracleQuery.resolved q = true ->
  no_overflow st = true ->
  query_oracle_sync sub q clk st
  = (Ok (result_view q clk), settle sub q clk st).
Proof.
  rewrite create_subscription_eq.
  destruct (OracleService.active service); [|discriminate].
  destruct (_ + _ <=? MAX_U64); [|discriminate].
  intros [= <- <-] Hid Hactive Hcaller Hclk Hpay Hres Hno.
  apply query_oracle_sync_succeeds; [|exact Hno].
  apply first_failed_check_None_iff.
  cbn [Subscription.active Subscription.end_time Subscription.service_id
       Subscription.subscriber].
  change DEFAULT_SUBSCRIPTION_DURATION with 2592000000.
  auto 10.
Qed.

Lemma fresh_subscription_settles_witness :
  let sub := Subscription.mk (77, 0) scenario.subscriber (9, 0)
               5000 2592005000 true 5000 in
  let dearer := OracleService.set_price_per_query 2000 scenario.service in
  fst (query_oracle_sync sub scenario.query (clock.mkClock 2592005000)
         (scenario.settlement dearer 2000 scenario.subscriber))
  = Ok (result_view scenario.query (clock.mkClock 2592005000)).
Proof.
  intros sub dearer.
  rewrite (fresh_subscription_settles scenario.service
             (scenario.ctx_of scenario.subscriber) sub
             (bump (scenario.ctx_of scenario.subscriber))
             scenario.query (clock.mkClock 2592005000)
             (scenario.settlement dearer 2000 scenario.subscriber));
    try reflexivity; vm_compute; discriminate.
Defined.

(** X11.  [is_subscription_valid] is the subscription check of the
    settlement: where it is false, a settlement on an active service
    aborts with [E_SUBSCRIPTION_EXPIRED]; and validity only ever ends, a
    subscription valid at one time being valid at every earlier time. *)
Theorem is_subscription_valid_agrees sub :
  (forall q clk st,
     OracleService.active (Settlement.service st) = true ->
     is_subscription_valid sub (clock.timestamp_ms clk) = false ->
     query_oracle_sync sub q clk st
     = (Aborted (MoveAbort mod_oracle_marketplace E_SUBSCRIPTION_EXPIRED),
        st))
  /\ (forall q clk st r st',
        query_oracle_sync sub q clk st = (Ok r, st') ->
        is_subscription_valid sub (clock.timestamp_ms clk) = true)
  /\ (forall earlier later,
        earlier <= later ->
        is_subscription_valid sub later = true ->
        is_subscription_valid sub earlier = true).
Proof.
  split; [|split].
  - intros q clk st Hactive Hinvalid.
    apply query_oracle_sync_checks. unfold first_failed_check.
    rewrite Hactive. cbn [negb].
    unfold is_subscription_valid in Hinvalid.
    rewrite N.ltb_antisym.
    destruct (Subscription.active sub); cbn [negb orb andb] in *;
      [rewrite Hinvalid|]; reflexivity.
  - intros q clk st r st' Hrun.
    apply query_oracle_sync_ok in Hrun as (Hchk & _).
    apply first_failed_check_None in Hchk as (_ & Ha & Ht & _).
    unfold is_subscription_valid. rewrite Ha, Ht. reflexivity.
  - intros earlier later Hle.
    rewrite !is_subscription_valid_iff. intros [Ha Ht]. split; [exact Ha|lia].
Qed.

Lemma is_subscription_valid_agrees_witness :
  is_subscription_valid scenario.subscription 6000 = true
  /\ fst (query_oracle_sync scenario.subscription scenario.query
            (clock.mkClock 2592005001)
            (scenario.settlement scenario.service 1000 scenario.subscriber))
     = Aborted (MoveAbort mod_oracle_marketplace E_SUBSCRIPTION_EXPIRED).
Proof.
  destruct (is_subscription_valid_agrees scenario.subscription)
    as (Hgate & _ & Hearlier).
  split.
  - apply (Hearlier 6000 2592005000); [vm_compute; discriminate|reflexivity].
  - rewrite Hgate; reflexivity.
Defined.
End SubscriptionLifecycle.

(** ** The treasury *)

Section Treasury.
Import marketplace_treasury oracle_marketplace spec ledger ledger_calls.

Lemma withdraw_platform_funds_eq admin_cap amount t ctx :
  withdraw_platform_funds admin_cap amount (t, ctx)
  = if bool_decide (MarketplaceTreasury.id t
                    = TreasuryAdminCap.treasury_id admin_cap) then
      if bool_decide (tx_context.sender ctx = MarketplaceTreasury.admin t) then
        if amount <=? get_platform_balance t
        then (Ok (coin.mkCoin (fresh ctx) (balance.mkBalance amount)),
              (MarketplaceTreasury.mk (MarketplaceTreasury.id t)
                 (balance.mkBalance (get_platform_balance t - amount))
                 (MarketplaceTreasury.admin t),
               bump ctx))
        else (Aborted (MoveAbort mod_marketplace_treasury
                         E_INSUFFICIENT_BALANCE), (t, ctx))
      else (Aborted (MoveAbort mod_marketplace_treasury E_NOT_ADMIN), (t, ctx))
    else (Aborted (MoveAbort mod_marketplace_treasury E_NOT_ADMIN), (t, ctx)).
Proof.
  unfold withdraw_platform_funds, marketplace_treasury.assert_here,
    get_platform_balance.
  mstep. mstep. cbn [fst snd].
  mstep. destruct (bool_decide (MarketplaceTreasury.id t = _)); [|reflexivity].
  mstep. destruct (bool_decide (tx_context.sender ctx = _)); [|reflexivity].
  mstep. destruct (amount <=? _) eqn:Hle; [|reflexivity].
  unfold zoom. cbn [view fst snd]. rewrite coin_take_eq, Hle.
  destruct t as [i b a]. reflexivity.
Qed.

(** X12.  [withdraw_platform_funds] aborts with [E_NOT_ADMIN] when the
    capability was issued for another treasury, and also when the sender
    is not the treasury's admin even though the capability matches; it
    aborts with [E_INSUFFICIENT_BALANCE] when the amount exceeds the
    platform balance; each abort leaves the treasury untouched.  Otherwise
    it returns a coin of exactly the amount and the balance has gone down
    by exactly that amount. *)
Theorem withdraw_platform_funds_cases admin_cap amount t ctx :
  let run := withdraw_platform_funds admin_cap amount (t, ctx) in
  (MarketplaceTreasury.id t <> TreasuryAdminCap.treasury_id admin_cap ->
   run = (Aborted (MoveAbort mod_marketplace_treasury E_NOT_ADMIN), (t, ctx)))
  /\ (tx_context.sender ctx <> MarketplaceTreasury.admin t ->
      run = (Aborted (MoveAbort mod_marketplace_treasury E_NOT_ADMIN),
             (t, ctx)))
  /\ (MarketplaceTreasury.id t = TreasuryAdminCap.treasury_id admin_cap ->
      tx_context.sender ctx = MarketplaceTreasury.admin t ->
      get_platform_balance t < amount ->
      run = (Aborted (MoveAbort mod_marketplace_treasury
                        E_INSUFFICIENT_BALANCE), (t, ctx)))
  /\ (MarketplaceTreasury.id t = TreasuryAdminCap.treasury_id admin_cap ->
      tx_context.sender ctx = MarketplaceTreasury.admin t ->
      amount <= get_platform_balance t ->
      exists coin t',
        run = (Ok coin, (t', bump ctx))
        /\ coin.value coin = amount
        /\ get_platform_balance t' + amount = get_platform_balance t
        /\ MarketplaceTreasury.admin t' = MarketplaceTreasury.admin t
        /\ MarketplaceTreasury.id t' = MarketplaceTreasury.id t).
Proof.
  intros run. subst run. rewrite withdraw_platform_funds_eq.
  split; [|split; [|split]].
  - intros Hne. rewrite (bool_decide_eq_false_2 _ Hne). reflexivity.
  - intros Hne. rewrite (bool_decide_eq_false_2 _ Hne).
    destruct (bool_decide _); reflexivity.
  - intros Hid Hs Hlt.
    rewrite (bool_decide_eq_true_2 _ Hid), (bool_decide_eq_true_2 _ Hs).
    apply N.leb_gt in Hlt. rewrite Hlt. reflexivity.
  - intros Hid Hs Hle.
    rewrite (bool_decide_eq_true_2 _ Hid), (bool_decide_eq_true_2 _ Hs).
    pose proof Hle as Hle'. apply N.leb_le in Hle'. rewrite Hle'.
    eexists _, _. split; [reflexivity|].
    cbn [coin.value coin.balance balance.value get_platform_balance
         MarketplaceTreasury.platform_balance MarketplaceTreasury.admin
         MarketplaceTreasury.id].
    unfold get_platform_balance in *.
    cbn [MarketplaceTreasury.platform_balance balance.value].
    repeat split. lia.
Qed.

Lemma withdraw_platform_funds_cases_witness :
  let t := MarketplaceTreasury.mk (9, 4) (balance.mkBalance 30) 1 in
  let cap := TreasuryAdminCap.mk (9, 6) (9, 4) in
  let admin_ctx := scenario.ctx_of 1 in
  let other_ctx := scenario.ctx_of scenario.stranger in
  withdraw_platform_funds cap 30 (t, other_ctx)
    = (Aborted (MoveAbort mod_marketplace_treasury E_NOT_ADMIN),
       (t, other_ctx))
  /\ withdraw_platform_funds cap 31 (t, admin_ctx)
     = (Aborted (MoveAbort mod_marketplace_treasury E_INSUFFICIENT_BALANCE),
        (t, admin_ctx))
  /\ exists coin t',
       withdraw_platform_funds cap 30 (t, admin_ctx)
       = (Ok coin, (t', bump admin_ctx))
       /\ coin.value coin = 30
       /\ get_platform_balance t' + 30 = get_platform_balance t.
Proof.
  intros t cap admin_ctx other_ctx.
  destruct (withdraw_platform_funds_cases cap 30 t other_ctx)
    as (_ & Hother & _).
  destruct (withdraw_platform_funds_cases cap 31 t admin_ctx)
    as (_ & _ & Hmuch & _).
  destruct (withdraw_platform_funds_cases cap 30 t admin_ctx)
    as (_ & _ & _ & Hok).
  split; [|split].
  - apply Hother. vm_compute. discriminate.
  - apply Hmuch; reflexivity.
  - destruct Hok as (coin & t' & Hrun & Hv & Hb & _);
      [reflexivity | reflexivity | vm_compute; discriminate |].
    exists coin, t'. auto.
Defined.




(** What one committed transaction does to the treasury. *)
Lemma step_treasury_cases w c :
  let t := treasury w in
  let t' := treasury (step w c) in
  MarketplaceTreasury.id t' = MarketplaceTreasury.id t
  /\ MarketplaceTreasury.admin t' = MarketplaceTreasury.admin t
  /\ (get_platform_balance t <= get_platform_balance t'
      \/ exists admin_cap amount ctx,
           c = WithdrawPlatformFunds admin_cap amount ctx
           /\ tx_context.sender ctx = MarketplaceTreasury.admin t
           /\ TreasuryAdminCap.treasury_id admin_cap = MarketplaceTreasury.id t
           /\ get_platform_balance t' + amount = get_platform_balance t).
Proof.
  unfold step, commit.
  destruct c as [new_price ctx | active ctx | config_id ctx
                | documentation_url ctx | amount recipient ctx | ctx
                | name service_type description price collateral ctx
                | name service_type description price collateral ctx
                | admin_cap amount ctx
                | sub q payment clk ctx];
    cbn [run].
  - unfold zoom. destruct (update_price_entry _ _ _) as [[[]|e] t];
      cbn; auto using N.le_refl.
  - unfold zoom. destruct (set_active_entry _ _ _) as [[[]|e] t];
      cbn; auto using N.le_refl.
  - unfold zoom. destruct (update_config_id_entry _ _ _) as [[[]|e] t];
      cbn; auto using N.le_refl.
  - unfold zoom.
    destruct (update_documentation_url_entry _ _ _) as [[[]|e] t];
      cbn; auto using N.le_refl.
  - rewrite bind_get. unfold zoom.
    destruct (withdraw_collateral_entry _ _ _ _) as [[[]|e] t];
      cbn; auto using N.le_refl.
  - rewrite bind_get. unfold zoom.
    destruct (create_subscription_entry _ _) as [[[]|e] t];
      cbn; auto using N.le_refl.
  - unfold zoom.
    destruct (create_service_simple _ _ _ _ _ _) as [[[]|e] t];
      cbn; auto using N.le_refl.
  - unfold zoom.
    destruct (create_service_entry _ _ _ _ _ _) as [[[]|e] t];
      cbn; auto using N.le_refl.
  - rewrite bind_zoom. cbn [view treasury_ctx_].
    rewrite withdraw_platform_funds_eq.
    destruct (bool_decide (MarketplaceTreasury.id _ = _)) eqn:Hid;
      [|cbn; auto using N.le_refl].
    destruct (bool_decide (tx_context.sender ctx = _)) eqn:Hs;
      [|cbn; auto using N.le_refl].
    destruct (amount <=? _) eqn:Hle; [|cbn; auto using N.le_refl].
    apply bool_decide_eq_true_1 in Hid, Hs. apply N.leb_le in Hle.
    cbn [ret update treasury_ctx_ treasury fst MarketplaceTreasury.id
         MarketplaceTreasury.admin].
    split; [reflexivity|]. split; [reflexivity|]. right.
    exists admin_cap, amount, ctx.
    unfold get_platform_balance in *.
    cbn [MarketplaceTreasury.platform_balance balance.value].
    repeat split; auto. lia.
  - rewrite bind_zoom.
    destruct (query_oracle_sync sub q clk _) as [[r|e] st'] eqn:Hrun;
      [|cbn; auto using N.le_refl].
    apply query_oracle_sync_ok in Hrun as (_ & _ & _ & ->).
    unfold get_platform_balance, settle.
    cbn [ret update settlement_ treasury Settlement.treasury
         view Settlement.service Settlement.payment Settlement.host
         MarketplaceTreasury.id MarketplaceTreasury.admin
         MarketplaceTreasury.platform_balance balance.value].
    split; [reflexivity|]. split; [reflexivity|]. left.
    apply N.le_add_r.
Qed.

(** X14.  Across the marketplace's transactions the platform balance goes
    down only in a [withdraw_platform_funds] sent by the treasury's admin
    with a capability for this treasury, and then by exactly the amount
    withdrawn; every other committed transaction leaves it equal or
    larger.  The treasury's id and admin never change. *)
Theorem platform_balance_is_safe :
  (forall w c,
     get_platform_balance (treasury (step w c))
       < get_platform_balance (treasury w) ->
     exists admin_cap amount ctx,
       c = WithdrawPlatformFunds admin_cap amount ctx
       /\ tx_context.sender ctx = MarketplaceTreasury.admin (treasury w)
       /\ TreasuryAdminCap.treasury_id admin_cap
          = MarketplaceTreasury.id (treasury w)
       /\ get_platform_balance (treasury (step w c)) + amount
          = get_platform_balance (treasury w))
  /\ (forall calls w,
        MarketplaceTreasury.id (treasury (run_all calls w))
          = MarketplaceTreasury.id (treasury w)
        /\ MarketplaceTreasury.admin (treasury (run_all calls w))
           = MarketplaceTreasury.admin (treasury w)).
Proof.
  split.
  - intros w c Hlt.
    destruct (step_treasury_cases w c) as (_ & _ & [Hle | Hwd]).
    + lia.
    + exact Hwd.
  - intros calls. induction calls as [|c calls IH]; intros w; [auto|].
    rewrite run_all_cons. destruct (IH (step w c)) as [-> ->].
    destruct (step_treasury_cases w c) as (Hid & Hadmin & _). auto.
Qed.

Lemma platform_balance_is_safe_witness :
  let w := mkWorld scenario.service
             (MarketplaceTreasury.mk (9, 4) (balance.mkBalance 30) 1)
             scenario.funded_pool [] in
  let c := WithdrawPlatformFunds (TreasuryAdminCap.mk (9, 6) (9, 4)) 20
             (scenario.ctx_of 1) in
  exists admin_cap amount ctx,
    c = WithdrawPlatformFunds admin_cap amount ctx
    /\ tx_context.sender ctx = 1
    /\ get_platform_balance (treasury (step w c)) + amount = 30.
Proof.
  intros w c.
  destruct platform_balance_is_safe as (Honly & _).
  destruct (Honly w c) as (cap & amount & ctx & Hc & Hs & _ & Hb);
    [reflexivity|].
  exists cap, amount, ctx. auto.
Defined.
End Treasury.

(** ** Collateral in the pool *)

Section Collateral.
Import marketplace_treasury oracle_marketplace spec ledger ledger_calls.

Implicit Types (pool : CollateralPool.t).

(** The balance of one service in the pool after a deposit. *)
Lemma deposit_collateral_balances service_id collateral pool pool' other :
  deposit_collateral service_id collateral pool = (Ok tt, pool') ->
  get_service_collateral pool' other
  = get_service_collateral pool other
    + (if bool_decide (other = service_id) then coin.value collateral else 0).
Proof.
  rewrite deposit_collateral_eq, !get_service_collateral_eq.
  intros H.
  assert (Hf : CollateralPool.fields pool'
               = <[service_id :=
                     balance.mkBalance
                       (get_service_collateral pool service_id
                        + coin.value collateral)]>
                   (CollateralPool.fields pool)).
  { rewrite get_service_collateral_eq.
    destruct (CollateralPool.fields pool !! service_id) as [b|].
    - destruct (_ + _ <=? MAX_U64); [|discriminate].
      injection H as <-. reflexivity.
    - injection H as <-. destruct collateral as [i [v]]. reflexivity. }
  rewrite Hf. destruct (bool_decide (other = service_id)) eqn:Ho.
  - apply bool_decide_eq_true_1 in Ho. subst other.
    rewrite lookup_insert_eq, get_service_collateral_eq. reflexivity.
  - apply bool_decide_eq_false_1 in Ho.
    rewrite lookup_insert_ne by congruence. lia.
Qed.

(** The balance of one service in the pool after a withdrawal. *)
Lemma withdraw_collateral_balances
    service_id provider amount pool ctx coin pool' ctx' other :
  withdraw_collateral service_id provider amount (pool, ctx)
    = (Ok coin, (pool', ctx')) ->
  tx_context.sender ctx = provider
  /\ amount <= get_service_collateral pool service_id
  /\ coin.value coin = amount
  /\ is_Some (CollateralPool.fields pool' !! service_id)
  /\ get_service_collateral pool' other
     = get_service_collateral pool other
       - (if bool_decide (other = service_id) then amount else 0).
Proof.
  rewrite withdraw_collateral_eq, !get_service_collateral_eq.
  destruct (CollateralPool.fields pool !! service_id) as [b|] eqn:Hb;
    [|discriminate].
  destruct (bool_decide (tx_context.sender ctx = provider)) eqn:Hs;
    [|discriminate].
  destruct (amount <=? balance.value b) eqn:Hle; [|discriminate].
  intros [= <- <- <-].
  apply bool_decide_eq_true_1 in Hs. apply N.leb_le in Hle.
  cbn [with_fields CollateralPool.fields coin.value coin.balance balance.value].
  split; [exact Hs|]. split; [exact Hle|]. split; [reflexivity|].
  split; [rewrite lookup_insert_eq; eauto|].
  destruct (bool_decide (other = service_id)) eqn:Ho.
  - apply bool_decide_eq_true_1 in Ho. subst other.
    rewrite lookup_insert_eq, Hb. reflexivity.
  - apply bool_decide_eq_false_1 in Ho.
    rewrite lookup_insert_ne by congruence. lia.
Qed.

Lemma withdraw_after_deposit service_id collateral provider pool pool1 ctx :
  deposit_collateral service_id collateral pool = (Ok tt, pool1) ->
  tx_context.sender ctx = provider ->
  exists coin pool2,
    withdraw_collateral service_id provider (coin.value collateral)
      (pool1, ctx) = (Ok coin, (pool2, bump ctx))
    /\ coin.value coin = coin.value collateral
    /\ forall other,
         get_service_collateral pool2 other = get_service_collateral pool other.
Proof.
  intros Hdep Hs.
  pose proof (deposit_collateral_balances _ _ _ _ service_id Hdep) as Hbal.
  rewrite bool_decide_eq_true_2 in Hbal by reflexivity.
  assert (Hrun : exists coin pool2,
             withdraw_collateral service_id provider (coin.value collateral)
               (pool1, ctx) = (Ok coin, (pool2, bump ctx))).
  { rewrite withdraw_collateral_eq.
    rewrite get_service_collateral_eq in Hbal.
    destruct (CollateralPool.fields pool1 !! service_id) as [b|] eqn:Hb.
    - rewrite (bool_decide_eq_true_2 _ Hs).
      assert (Hle : (coin.value collateral <=? balance.value b) = true)
        by (apply N.leb_le; lia).
      rewrite Hle. eauto.
    - exfalso. revert Hdep Hb. rewrite deposit_collateral_eq.
      destruct (CollateralPool.fields pool !! service_id).
      + destruct (_ + _ <=? MAX_U64); [|discriminate].
        intros [= <-]. cbn. rewrite lookup_insert_eq. discriminate.
      + intros [= <-]. cbn. rewrite lookup_insert_eq. discriminate. }
  destruct Hrun as (coin & pool2 & Hrun). exists coin, pool2.
  split; [exact Hrun|].
  split;
    [apply (withdraw_collateral_balances _ _ _ _ _ _ _ _ service_id Hrun)|].
  intros other.
  destruct (withdraw_collateral_balances _ _ _ _ _ _ _ _ other Hrun)
    as (_ & _ & _ & _ & ->).
  rewrite (deposit_collateral_balances _ _ _ _ other Hdep).
  destruct (bool_decide (other = service_id)); lia.
Qed.

(** X15.  A deposit followed by a withdrawal of the same amount by the
    provider gives the funds back and restores every balance of the pool:
    the withdrawal returns a coin of the deposited value and
    [get_service_collateral] answers for every service what it answered
    before the deposit. *)
Theorem deposit_then_withdraw service_id collateral provider pool pool1 ctx :
  deposit_collateral service_id collateral pool = (Ok tt, pool1) ->
  tx_context.sender ctx = provider ->
  exists coin pool2,
    withdraw_collateral service_id provider (coin.value collateral)
      (pool1, ctx) = (Ok coin, (pool2, bump ctx))
    /\ coin.value coin = coin.value collateral
    /\ forall other,
         get_service_collateral pool2 other = get_service_collateral pool other.
Proof.
  apply withdraw_after_deposit.
Qed.

Lemma deposit_then_withdraw_witness :
  let pool1 := snd (deposit_collateral (9, 0) (scenario.coin_of 500)
                      scenario.funded_pool) in
  exists coin pool2,
    withdraw_collateral (9, 0) scenario.provider 500
      (pool1, scenario.ctx_of scenario.provider)
    = (Ok coin, (pool2, bump (scenario.ctx_of scenario.provider)))
    /\ coin.value coin = 500
    /\ get_service_collateral pool2 (9, 0) = 10000000.
Proof.
  intros pool1.
  destruct (deposit_then_withdraw (9, 0) (scenario.coin_of 500)
              scenario.provider scenario.funded_pool pool1
              (scenario.ctx_of scenario.provider))
    as (coin & pool2 & Hrun & Hv & Hsame);
    [vm_compute; reflexivity | reflexivity |].
  exists coin, pool2. split; [exact Hrun|]. split; [exact Hv|].
  rewrite Hsame. reflexivity.
Defined.

(** What one committed transaction does to the pool. *)
Lemma step_pool_cases w c :
  pool (step w c) = pool w
  \/ (exists service_id collateral,
        deposit_collateral service_id collateral (pool w)
        = (Ok tt, pool (step w c)))
  \/ (exists amount recipient ctx coin ctx',
        c = WithdrawCollateral amount recipient ctx
        /\ tx_context.sender ctx = OracleService.provider (service w)
        /\ withdraw_collateral (OracleService.id (service w))
             (OracleService.provider (service w)) amount (pool w, ctx)
           = (Ok coin, (pool (step w c), ctx'))).
Proof.
  set (p1 := pool (step w c)).
  assert (H : p1 = pool (step w c)) by reflexivity. clearbody p1.
  unfold step, commit in H.
  destruct c as [new_price ctx | active ctx | config_id ctx
                | documentation_url ctx | amount recipient ctx | ctx
                | name service_type description price collateral ctx
                | name service_type description price collateral ctx
                | admin_cap amount ctx
                | sub q payment clk ctx];
    cbn [run] in H.
  - unfold zoom in H. destruct (update_price_entry _ _ _) as [[[]|e] t];
      left; exact H.
  - unfold zoom in H. destruct (set_active_entry _ _ _) as [[[]|e] t];
      left; exact H.
  - unfold zoom in H. destruct (update_config_id_entry _ _ _) as [[[]|e] t];
      left; exact H.
  - unfold zoom in H.
    destruct (update_documentation_url_entry _ _ _) as [[[]|e] t];
      left; exact H.
  - rewrite bind_get in H. unfold zoom in H. cbn [view pool_host_] in H.
    rewrite withdraw_collateral_entry_eq in H.
    cbn [Host.ctx Host.effects] in H.
    destruct (bool_decide _) eqn:Hs; [|left; exact H].
    apply bool_decide_eq_true_1 in Hs.
    destruct (withdraw_collateral _ _ _ _) as [[coin|e] [pool' ctx']] eqn:Hwd;
      [|left; exact H].
    cbn [update pool_host_ pool fst] in H. subst p1.
    right; right. exists amount, recipient, ctx, coin, ctx'. auto.
  - rewrite bind_get in H. unfold zoom in H.
    destruct (create_subscription_entry _ _) as [[[]|e] t]; left; exact H.
  - unfold zoom in H.
    destruct (create_service_simple _ _ _ _ _ _) as [[[]|e] t];
      left; exact H.
  - unfold zoom at 1 in H. cbn [view pool_host_] in H.
    unfold create_service_entry in H.
    rewrite bind_zoom in H. cbn [view with_ctx fst snd Host.ctx] in H.
    destruct (create_service_with_pool _ _ _ _ _ _ _ _)
      as [[svc|e] [p' c']] eqn:Hnew; [|left; exact H].
    apply create_service_with_pool_deposits in Hnew. cbn [fst snd] in Hnew.
    rewrite bind_gets in H.
    unfold transfer.public_transfer, zoom, modify in H.
    cbn [view update compose snd_ fst snd with_ctx pool_host_ pool] in H.
    subst p1. right; left. eexists _, _. exact Hnew.
  - rewrite bind_zoom in H.
    destruct (withdraw_platform_funds _ _ _) as [[coin|e] t];
      left; exact H.
  - rewrite bind_zoom in H.
    destruct (query_oracle_sync _ _ _ _) as [[r|e] t]; left; exact H.
Qed.

(** X16.  The collateral locked for a service goes down only in a
    [withdraw_collateral_entry] sent by that service's provider, and then
    by exactly the amount withdrawn: in every other committed transaction,
    and for every other service id, the locked balance stays equal or
    grows. *)
Theorem collateral_is_safe w c service_id :
  get_service_collateral (pool (step w c)) service_id
    < get_service_collateral (pool w) service_id ->
  exists amount recipient ctx,
    c = WithdrawCollateral amount recipient ctx
    /\ service_id = OracleService.id (service w)
    /\ tx_context.sender ctx = OracleService.provider (service w)
    /\ get_service_collateral (pool (step w c)) service_id + amount
       = get_service_collateral (pool w) service_id.
Proof.
  intros Hlt.
  destruct (step_pool_cases w c)
    as [Hsame | [(sid & coin & Hdep)
                | (amount & recipient & ctx & coin & ctx' & Hc & Hs & Hwd)]].
  - rewrite Hsame in Hlt. lia.
  - rewrite (deposit_collateral_balances _ _ _ _ service_id Hdep) in Hlt. lia.
  - destruct (withdraw_collateral_balances _ _ _ _ _ _ _ _ service_id Hwd)
      as (_ & Hle & _ & _ & Hbal).
    rewrite Hbal in Hlt |- *.
    destruct (bool_decide (service_id = OracleService.id (service w))) eqn:Hid;
      [|lia].
    apply bool_decide_eq_true_1 in Hid. subst service_id.
    exists amount, recipient, ctx. repeat split; auto. lia.
Qed.

Lemma collateral_is_safe_witness :
  let c := WithdrawCollateral 4000000 scenario.provider
             (scenario.ctx_of scenario.provider) in
  exists amount recipient ctx,
    c = WithdrawCollateral amount recipient ctx
    /\ tx_context.sender ctx = scenario.provider
    /\ get_service_collateral (pool (step scenario.world c)) (9, 0) + amount
       = 10000000.
Proof.
  intros c.
  destruct (collateral_is_safe scenario.world c (9, 0))
    as (amount & recipient & ctx & Hc & _ & Hs & Hb);
    [vm_compute; reflexivity|].
  exists amount, recipient, ctx. auto.
Defined.

(** X17.  An entry of the pool is never removed: a service id that has an
    entry keeps it through every sequence of transactions, a withdrawal
    of the whole balance included.  A later withdrawal of a positive
    amount from an emptied entry therefore aborts with
    [E_INSUFFICIENT_BALANCE], not with [E_COLLATERAL_NOT_FOUND]. *)
Theorem pool_entries_persist :
  (forall calls w service_id,
     is_Some (CollateralPool.fields (pool w) !! service_id) ->
     is_Some (CollateralPool.fields (pool (run_all calls w)) !! service_id))
  /\ (forall service_id provider pool ctx coin pool' ctx' amount ctx2,
        withdraw_collateral service_id provider
          (get_service_collateral pool service_id) (pool, ctx)
        = (Ok coin, (pool', ctx')) ->
        tx_context.sender ctx2 = provider ->
        0 < amount ->
        withdraw_collateral service_id provider amount (pool', ctx2)
        = (Aborted (MoveAbort mod_marketplace_treasury
                      E_INSUFFICIENT_BALANCE), (pool', ctx2))).
Proof.
  split.
  - intros calls. induction calls as [|c calls IH]; intros w sid Hin;
      [exact Hin|].
    rewrite run_all_cons. apply IH.
    destruct (step_pool_cases w c)
      as [-> | [(sid' & coin & Hdep)
               | (amount & recipient & ctx & coin & ctx' & _ & _ & Hwd)]].
    + exact Hin.
    + revert Hdep. rewrite deposit_collateral_eq.
      destruct (CollateralPool.fields (pool w) !! sid') as [b|].
      * destruct (_ + _ <=? MAX_U64); [|discriminate].
        intros [= <-]. cbn [with_fields CollateralPool.fields].
        rewrite lookup_insert_is_Some. destruct (decide (sid' = sid)); auto.
      * intros [= <-]. cbn [with_fields CollateralPool.fields].
        rewrite lookup_insert_is_Some. destruct (decide (sid' = sid)); auto.
    + revert Hwd. rewrite withdraw_collateral_eq.
      match goal with
      | |- context [match ?x with Some _ => _ | None => _ end] =>
          destruct x as [b|]; [|discriminate]
      end.
      destruct (bool_decide _); [|discriminate].
      destruct (amount <=? _); [|discriminate].
      intros [= _ <- _]. cbn [with_fields CollateralPool.fields].
      rewrite lookup_insert_is_Some.
      destruct (decide (OracleService.id (service w) = sid)); auto.
  - intros sid provider pool ctx coin pool' ctx' amount ctx2 Hwd Hs Hpos.
    destruct (withdraw_collateral_balances _ _ _ _ _ _ _ _ sid Hwd)
      as (_ & _ & _ & [b Hb] & Hbal).
    rewrite bool_decide_eq_true_2 in Hbal by reflexivity.
    rewrite withdraw_collateral_eq, Hb, (bool_decide_eq_true_2 _ Hs).
    rewrite get_service_collateral_eq, Hb in Hbal.
    assert (Hle : (amount <=? balance.value b) = false)
      by (apply N.leb_gt; lia).
    rewrite Hle. reflexivity.
Qed.

Lemma pool_entries_persist_witness :
  let ctx := scenario.ctx_of scenario.provider in
  let emptied :=
    fst (snd (withdraw_collateral (9, 0) scenario.provider 10000000
                (scenario.funded_pool, ctx))) in
  withdraw_collateral (9, 0) scenario.provider 1 (emptied, ctx)
  = (Aborted (MoveAbort mod_marketplace_treasury E_INSUFFICIENT_BALANCE),
     (emptied, ctx)).
Proof.
  intros ctx emptied.
  destruct pool_entries_persist as (_ & H).
  apply (H (9, 0) scenario.provider scenario.funded_pool ctx
           (coin.mkCoin (77, 0) (balance.mkBalance 10000000)) emptied
           (bump ctx) 1 ctx); [vm_compute; reflexivity | reflexivity
                              | reflexivity].
Defined.

(** X18.  Collateral deposited through the pooled creation path is not
    locked against the provider: the new service records the deposited
    amount, the pool's entry for its id has grown by that amount, and the
    creator can at once withdraw the whole amount to any recipient, after
    which the pool's entry is back where it was while the service, which
    the withdrawal does not write, still records the full collateral. *)
Theorem pooled_collateral_is_withdrawable
    name service_type description price collateral config_id doc
    pool ctx service pool1 ctx1 :
  create_service_with_pool name service_type description price collateral
    config_id doc (pool, ctx) = (Ok service, (pool1, ctx1)) ->
  MIN_COLLATERAL <= coin.value collateral
  /\ OracleService.collateral service = coin.value collateral
  /\ OracleService.provider service = tx_context.sender ctx
  /\ get_service_collateral pool1 (OracleService.id service)
     = get_service_collateral pool (OracleService.id service)
       + coin.value collateral
  /\ forall recipient h,
       tx_context.sender (Host.ctx h) = tx_context.sender ctx ->
       exists coin pool2 h',
         withdraw_collateral_entry service (coin.value collateral) recipient
           (pool1, h) = (Ok tt, (pool2, h'))
         /\ Host.effects h'
            = Host.effects h ++ [Transfer (CoinObject coin) recipient]
         /\ coin.value coin = coin.value collateral
         /\ get_service_collateral pool2 (OracleService.id service)
            = get_service_collateral pool (OracleService.id service).
Proof.
  intros Hnew.
  pose proof (create_service_with_pool_deposits _ _ _ _ _ _ _ _ _ _ Hnew)
    as Hdep.
  apply create_service_with_pool_ok in Hnew as (_ & Hmin & ->).
  cbn [fst snd] in Hdep.
  cbn [OracleService.collateral OracleService.provider OracleService.id
       fst snd].
  split; [exact Hmin|]. split; [reflexivity|]. split; [reflexivity|].
  split.
  - rewrite (deposit_collateral_balances _ _ _ _ (fresh ctx) Hdep).
    rewrite bool_decide_eq_true_2 by reflexivity. reflexivity.
  - intros recipient h Hs.
    destruct (withdraw_after_deposit (fresh ctx) collateral
                (tx_context.sender ctx) pool pool1 (Host.ctx h) Hdep Hs)
      as (coin & pool2 & Hrun & Hv & Hsame).
    rewrite withdraw_collateral_entry_eq.
    cbn [OracleService.provider OracleService.id].
    rewrite (bool_decide_eq_true_2 _ Hs), Hrun.
    eexists coin, pool2, _. split; [reflexivity|].
    cbn [Host.effects]. auto.
Qed.

Lemma pooled_collateral_is_withdrawable_witness :
  let ctx := scenario.ctx_of scenario.provider in
  let made := create_service_with_pool [x42] [x70] [] 1000
                (scenario.coin_of 10000000) None None
                (scenario.empty_pool, ctx) in
  exists service pool1 coin pool2 h',
    fst made = Ok service
    /\ withdraw_collateral_entry service 10000000 scenario.stranger
         (pool1, Host.mk ctx []) = (Ok tt, (pool2, h'))
    /\ coin.value coin = 10000000
    /\ OracleService.collateral service = 10000000
    /\ get_service_collateral pool2 (OracleService.id service) = 0.
Proof.
  intros ctx made.
  destruct made as [[service|e] [pool1 ctx1]] eqn:Hmade;
    [|vm_compute in Hmade; discriminate].
  destruct (pooled_collateral_is_withdrawable _ _ _ _ _ _ _ _ _ _ _ _ Hmade)
    as (_ & Hrec & _ & _ & Hback).
  destruct (Hback scenario.stranger (Host.mk ctx []) eq_refl)
    as (coin & pool2 & h' & Hrun & _ & Hv & Hzero).
  exists service, pool1, coin, pool2, h'.
  split; [reflexivity|]. split; [exact Hrun|]. split; [exact Hv|].
  split; [exact Hrec|]. rewrite Hzero. reflexivity.
Defined.
End Collateral.

(** ** The life of a query *)

Section QueryLife.
Import oracle_core oracle_core.OracleQuery spec query_ledger.

Implicit Types (q : OracleQuery.t) (c : call).

Lemma create_query_eq query_id query_type query_params provider ctx :
  create_query query_id query_type query_params provider ctx
  = if string.internal_check_utf8 query_id
       && string.internal_check_utf8 query_type
       && string.internal_check_utf8 query_params
    then (Ok (OracleQuery.mk (fresh ctx) (string.mkString query_id)
                (string.mkString query_type) (string.mkString query_params)
                provider None None None None (tx_context.sender ctx)
                (tx_context.epoch_timestamp_ms ctx)
                (tx_context.epoch_timestamp_ms ctx) false),
          bump ctx)
    else (Aborted (MoveAbort mod_string string.EInvalidUTF8), ctx).
Proof.
  unfold create_query.
  rewrite bind_utf8.
  destruct (string.internal_check_utf8 query_id); [|reflexivity].
  rewrite bind_utf8.
  destruct (string.internal_check_utf8 query_type); [|reflexivity].
  rewrite bind_utf8.
  destruct (string.internal_check_utf8 query_params); reflexivity.
Qed.



(** What one committed transaction does to a query. *)
Lemma query_step_cases q c :
  step q c = q
  \/ exists r h e ctx,
       tx_context.sender ctx = OracleQuery.provider q
       /\ payload_abort r h e = None
       /\ (is_resolve c = true -> resolved q = false)
       /\ succeeds (run c) q = true
       /\ step q c = written r h e ctx q.
Proof.
  unfold step, commit, succeeds.
  destruct c as [r h e ctx | r h e ctx]; cbn [run is_resolve]; unfold zoom;
    cbn [view update with_ctx_].
  - rewrite resolve_query_entry_eq, update_query_data_eq. cbn [fst snd].
    destruct (resolved q) eqn:Hq; [left; reflexivity|].
    destruct (bool_decide _) eqn:Hs; [|left; reflexivity].
    destruct (payload_abort r h e) eqn:Hp; [left; reflexivity|].
    apply bool_decide_eq_true_1 in Hs.
    right. exists r, h, e, ctx. auto.
  - rewrite update_query_data_eq. cbn [fst snd].
    destruct (bool_decide _) eqn:Hs; [|left; reflexivity].
    destruct (payload_abort r h e) eqn:Hp; [left; reflexivity|].
    apply bool_decide_eq_true_1 in Hs.
    right. exists r, h, e, ctx. repeat split; auto. discriminate.
Qed.

Lemma query_step_aborted q c : succeeds (run c) q = false -> step q c = q.
Proof. apply commit_aborted. Qed.

(** X20.  [resolve_query_entry], called by the provider on an open query
    with a well-formed payload, stores the result bytes, or the two bytes
    of the empty JSON object when the result is empty, stores the hash
    and the evidence URL as given, sets [resolved] and stamps [updated_at]
    with the epoch timestamp; it leaves the id, the three descriptive
    texts, the provider, the creator, the creation time and the evidence
    blob id as they were.  A payload that is not well-formed aborts the
    call and leaves the query open. *)
Theorem resolve_query_entry_effect r h e q ctx :
  resolved q = false ->
  tx_context.sender ctx = OracleQuery.provider q ->
  (payload_abort r h e = None ->
   exists q',
     resolve_query_entry r h e (q, ctx) = (Ok tt, (q', ctx))
     /\ result q'
        = Some (string.mkString (match r with [] => [x7b; x7d] | _ => r end))
     /\ result_hash q' = Some (string.mkString h)
     /\ evidence_url q' = Some (url.mkUrl e)
     /\ resolved q' = true
     /\ updated_at q' = tx_context.epoch_timestamp_ms ctx
     /\ id q' = id q /\ query_id q' = query_id q
     /\ query_type q' = query_type q /\ query_params q' = query_params q
     /\ OracleQuery.provider q' = OracleQuery.provider q
     /\ creator q' = creator q /\ created_at q' = created_at q
     /\ evidence_blob_id q' = evidence_blob_id q)
  /\ (forall a, payload_abort r h e = Some a ->
        resolve_query_entry r h e (q, ctx) = (Aborted a, (q, ctx))
        /\ (a = MoveAbort mod_string 1 \/ a = MoveAbort mod_ascii 65536)).
Proof.
  intros Hq Hs.
  rewrite resolve_query_entry_eq, update_query_data_eq. cbn [fst snd].
  rewrite Hq, (bool_decide_eq_true_2 _ Hs).
  split.
  - intros ->. eexists. split; [reflexivity|].
    unfold written, normal_result. cbn.
    destruct r; cbn; auto 20.
  - intros a Ha. rewrite Ha. split; [reflexivity|].
    revert Ha. unfold payload_abort.
    repeat match goal with
    | |- context [negb ?c] => destruct c; cbn [negb]
    end; intros [= <-]; auto.
Qed.

Lemma resolve_query_entry_effect_witness :
  let ctx := scenario.ctx_of scenario.provider in
  (exists q',
     resolve_query_entry [] [] [] (scenario.open_query, ctx)
     = (Ok tt, (q', ctx))
     /\ result q' = Some (string.mkString [x7b; x7d]))
  /\ resolve_query_entry [xff] [] [] (scenario.open_query, ctx)
     = (Aborted (MoveAbort mod_string 1), (scenario.open_query, ctx)).
Proof.
  intros ctx.
  destruct (resolve_query_entry_effect [] [] [] scenario.open_query ctx
              eq_refl eq_refl) as (Hok & _).
  destruct (resolve_query_entry_effect [xff] [] [] scenario.open_query ctx
              eq_refl eq_refl) as (_ & Hbad).
  split.
  - destruct (Hok eq_refl) as (q' & Hrun & Hres & _). eauto.
  - apply (Hbad (MoveAbort mod_string 1)). reflexivity.
Defined.

Lemma resolved_count_resolved calls q :
  resolved q = true -> resolved_count calls q = 0.
Proof.
  revert q. induction calls as [|c calls IH]; intros q Hq; [reflexivity|].
  cbn [resolved_count].
  destruct (query_step_cases q c)
    as [Hsame | (r & h & e & ctx & _ & _ & Hopen & Hok & Hstep)].
  - rewrite Hsame, (IH q Hq).
    destruct (is_resolve c) eqn:Hc; [|reflexivity].
    destruct c as [r h e ctx | r h e ctx]; [|discriminate].
    unfold succeeds. cbn [run]. unfold zoom. cbn [view with_ctx_].
    rewrite resolve_query_entry_eq. cbn [fst]. rewrite Hq. reflexivity.
  - rewrite Hstep, IH by reflexivity.
    destruct (is_resolve c); [|reflexivity].
    rewrite Hopen in Hq by reflexivity. discriminate.
Qed.

Lemma run_ok_resolved q c :
  succeeds (run c) q = true -> resolved (step q c) = true.
Proof.
  unfold succeeds, step, commit.
  destruct c as [r h e ctx | r h e ctx]; cbn [run]; unfold zoom;
    cbn [view update with_ctx_].
  - rewrite resolve_query_entry_eq, update_query_data_eq. cbn [fst snd].
    destruct (resolved q); [discriminate|].
    destruct (bool_decide _); [|discriminate].
    destruct (payload_abort r h e); [discriminate|]. reflexivity.
  - rewrite update_query_data_eq. cbn [fst snd].
    destruct (bool_decide _); [|discriminate].
    destruct (payload_abort r h e); [discriminate|]. reflexivity.
Qed.

Lemma resolved_count_le_1 calls q : resolved_count calls q <= 1.
Proof.
  revert q. induction calls as [|c calls IH]; intros q; [cbn; lia|].
  cbn [resolved_count].
  destruct (is_resolve c && succeeds (run c) q) eqn:Hc.
  - apply andb_true_iff in Hc as [_ Hok].
    rewrite (resolved_count_resolved calls _ (run_ok_resolved q c Hok)). lia.
  - specialize (IH (step q c)). lia.
Qed.

(** X21.  A query is resolved at most once: in any sequence of resolve and
    update transactions, by whatever senders, at most one
    [resolve_query_entry] commits, and none does once the query is
    resolved, be it by an earlier resolve or by an update. *)
Theorem resolve_commits_at_most_once calls q :
  resolved_count calls q <= 1
  /\ (resolved q = true -> resolved_count calls q = 0)
  /\ (forall c, succeeds (run c) q = true ->
        resolved_count calls (step q c) = 0).
Proof.
  split; [apply resolved_count_le_1|].
  split; [apply resolved_count_resolved|].
  intros c Hok. apply resolved_count_resolved, run_ok_resolved, Hok.
Qed.

Lemma resolve_commits_at_most_once_witness :
  let ctx := scenario.ctx_of scenario.provider in
  let calls := [Resolve scenario.price_json [] [] ctx;
                Resolve [] [] [] ctx;
                Update [] [] [] ctx;
                Resolve scenario.price_json [] [] ctx] in
  resolved_count calls scenario.open_query = 1
  /\ resolved_count calls
       (step scenario.open_query (Update [] [] [] ctx)) = 0.
Proof.
  intros ctx calls.
  destruct (resolve_commits_at_most_once calls scenario.open_query)
    as (_ & _ & Hafter).
  split; [reflexivity|].
  apply Hafter. reflexivity.
Defined.
End QueryLife.

(** ** What a query holds, and what a settlement returns of it *)

Section QueryPayload.
Import marketplace_treasury oracle_marketplace.
Import oracle_core oracle_core.OracleQuery spec query_ledger.

Implicit Types (q : OracleQuery.t) (c : call).

Lemma payload_abort_None r h e :
  payload_abort r h e = None ->
  normal_result r <> []
  /\ string.internal_check_utf8 (normal_result r) = true
  /\ string.internal_check_utf8 h = true
  /\ forallb url.is_valid_char e = true.
Proof.
  unfold payload_abort.
  destruct (string.internal_check_utf8 (normal_result r)); [|discriminate].
  destruct (string.internal_check_utf8 h); [|discriminate].
  destruct (forallb url.is_valid_char e); [|discriminate].
  intros _. split; [|auto].
  unfold normal_result. destruct r; cbn; discriminate.
Qed.

Lemma written_invariant r h e ctx q :
  payload_abort r h e = None ->
  evidence_blob_id q = None ->
  payload_invariant (written r h e ctx q).
Proof.
  intros Hp Hblob. apply payload_abort_None in Hp as (Hne & Hr & Hh & He).
  split; [exact Hblob|]. split; [discriminate|].
  intros _. eexists _, _, _. cbn. auto 10.
Qed.

Lemma reachable_payload_invariant q : reachable q -> payload_invariant q.
Proof.
  induction 1 as [query_id query_type query_params provider ctx q ctx' Hnew
                 | q c _ IH].
  - rewrite create_query_eq in Hnew.
    destruct (_ && _ && _); [|discriminate].
    injection Hnew as <- _.
    split; [reflexivity|]. split; [auto|]. discriminate.
  - destruct (query_step_cases q c)
      as [-> | (r & h & e & ctx & _ & Hp & _ & _ & ->)]; [exact IH|].
    apply written_invariant; [exact Hp | apply IH].
Qed.

(** X22.  In every query the module can produce (created by
    [create_query], then resolved and updated in any order by anyone): the
    evidence blob id is never set; an open query holds no result, hash or
    evidence URL; a resolved query holds all three, the result is never
    the empty string, result and hash are well-formed UTF-8 and the URL is
    ASCII. *)
Theorem reachable_query_payload q :
  reachable q ->
  evidence_blob_id q = None
  /\ (resolved q = false ->
      result q = None /\ result_hash q = None /\ evidence_url q = None)
  /\ (resolved q = true ->
      exists r h e,
        result q = Some r /\ result_hash q = Some h /\ evidence_url q = Some e
        /\ string.bytes r <> []
        /\ string.internal_check_utf8 (string.bytes r) = true
        /\ string.internal_check_utf8 (string.bytes h) = true
        /\ forallb url.is_valid_char (url.url e) = true).
Proof. apply reachable_payload_invariant. Qed.

Lemma reachable_scenario_query :
  reachable
    (run_all [Resolve [] [] [] (scenario.ctx_of scenario.provider)]
       (OracleQuery.mk (77, 0) (scenario.text [x71; x31]) (scenario.text [x70])
          (scenario.text []) scenario.provider None None None None
          scenario.provider 5000 5000 false)).
Proof.
  apply reach_step.
  apply (reach_create [x71; x31] [x70] [] scenario.provider
           (scenario.ctx_of scenario.provider) _
           (bump (scenario.ctx_of scenario.provider))).
  reflexivity.
Qed.

Lemma reachable_query_payload_witness :
  let q := run_all [Resolve [] [] [] (scenario.ctx_of scenario.provider)]
             (OracleQuery.mk (77, 0) (scenario.text [x71; x31])
                (scenario.text [x70]) (scenario.text []) scenario.provider
                None None None None scenario.provider 5000 5000 false) in
  exists r, result q = Some r /\ string.bytes r <> [].
Proof.
  intros q.
  destruct (reachable_query_payload q reachable_scenario_query)
    as (_ & _ & Hres).
  destruct (Hres eq_refl) as (r & h & e & Hr & _ & _ & Hne & _).
  exists r. auto.
Defined.

(** X23.  For a query the module produced, a settlement that returns hands
    back what the provider stored: the view's result and hash are the
    query's stored result and hash (the defaults of the settlement are
    never used), its query id is the query's and its time is the clock's,
    the same time the [QueryRecord] carries. *)
Theorem settlement_returns_stored_result q sub clk st r st' :
  reachable q ->
  query_oracle_sync sub q clk st = (Ok r, st') ->
  get_result q = Some (result_accessors.get_result_data r)
  /\ get_result_hash q = Some (result_accessors.get_result_hash_value r)
  /\ result_accessors.get_query_id r = get_query_id q
  /\ result_accessors.get_query_time r = clock.timestamp_ms clk
  /\ string.bytes (result_accessors.get_result_data r) <> [].
Proof.
  intros Hreach Hrun.
  apply query_oracle_sync_ok in Hrun as (Hchk & _ & -> & _).
  apply first_failed_check_None in Hchk as (_ & _ & _ & _ & _ & _ & Hres).
  destruct (reachable_payload_invariant q Hreach) as (_ & _ & Hpay).
  destruct (Hpay Hres) as (x & h & e & Hx & Hh & _ & Hne & _).
  unfold result_view, get_result, get_result_hash,
    result_accessors.get_result_data, result_accessors.get_result_hash_value,
    result_accessors.get_query_id, result_accessors.get_query_time.
  cbn [OracleQueryResult.result OracleQueryResult.result_hash
       OracleQueryResult.query_id OracleQueryResult.query_time].
  rewrite Hx, Hh. cbn [default]. auto.
Qed.

Lemma settlement_returns_stored_result_witness :
  let q := run_all [Resolve scenario.price_json [] []
                      (scenario.ctx_of scenario.provider)]
             (OracleQuery.mk (77, 0) (scenario.text [x71; x31])
                (scenario.text [x70]) (scenario.text []) scenario.provider
                None None None None scenario.provider 5000 5000 false) in
  let run := query_oracle_sync scenario.subscription q (clock.mkClock 6000)
               (scenario.settlement scenario.service 1000
                  scenario.subscriber) in
  exists r,
    fst run = Ok r
    /\ result_accessors.get_result_data r = scenario.text scenario.price_json.
Proof.
  intros q run.
  destruct run as [[r|e] st'] eqn:Hrun; [|vm_compute in Hrun; discriminate].
  exists r. split; [reflexivity|].
  assert (Hq : reachable q).
  { apply reach_step.
    apply (reach_create [x71; x31] [x70] [] scenario.provider
             (scenario.ctx_of scenario.provider) _
             (bump (scenario.ctx_of scenario.provider))).
    reflexivity. }
  destruct (settlement_returns_stored_result q scenario.subscription
              (clock.mkClock 6000)
              (scenario.settlement scenario.service 1000 scenario.subscriber)
              r st' Hq Hrun) as (Hres & _).
  assert (Hq' : get_result q = Some (scenario.text scenario.price_json))
    by reflexivity.
  congruence.
Defined.

(** X24.  No transaction changes a query's id, its three descriptive
    texts, its provider, its creator, its creation time or its evidence
    blob id, and none sets [resolved] back to false: after any sequence of
    resolve and update transactions they are what they were, and a
    resolved query is still resolved. *)
Theorem query_identity_is_fixed calls q :
  let q' := run_all calls q in
  id q' = id q /\ query_id q' = query_id q
  /\ query_type q' = query_type q /\ query_params q' = query_params q
  /\ OracleQuery.provider q' = OracleQuery.provider q
  /\ creator q' = creator q /\ created_at q' = created_at q
  /\ evidence_blob_id q' = evidence_blob_id q
  /\ (resolved q = true -> resolved q' = true).
Proof.
  revert q. induction calls as [|c calls IH]; intros q; [cbn; auto 10|].
  cbv zeta. change (run_all (c :: calls) q) with (run_all calls (step q c)).
  destruct (IH (step q c)) as (H1 & H2 & H3 & H4 & H5 & H6 & H7 & H8 & H9).
  rewrite H1, H2, H3, H4, H5, H6, H7, H8.
  destruct (query_step_cases q c)
    as [Hsame | (r & h & e & ctx & _ & _ & _ & _ & Hstep)].
  - rewrite Hsame in *. auto 10.
  - rewrite Hstep in *. cbn. repeat split. intros _. apply H9. reflexivity.
Qed.

Lemma query_identity_is_fixed_witness :
  let ctx := scenario.ctx_of scenario.provider in
  let q' := run_all [Update [] [] [] ctx;
                     Resolve scenario.price_json [] [] ctx;
                     Update [xff] [] [] ctx] scenario.query in
  resolved q' = true /\ OracleQuery.provider q' = scenario.provider.
Proof.
  intros ctx q'.
  destruct (query_identity_is_fixed
              [Update [] [] [] ctx; Resolve scenario.price_json [] [] ctx;
               Update [xff] [] [] ctx] scenario.query)
    as (_ & _ & _ & _ & Hp & _ & _ & _ & Hres).
  split; [apply Hres; reflexivity | exact Hp].
Defined.
End QueryPayload.
